(** * User-management service: validators, account store and request handlers

    A shallow embedding of [validators.py], [database.py], [app.py] and
    [init_db.py], followed by the properties of the service that are proved
    about it.

    Python [str] values are lists of Unicode code points, dictionaries are
    finite maps, exceptions are values of a result type with the class
    hierarchy of the interpreter, and the SQLite table [users] is a list of
    rows with the constraints of its schema. *)

From Stdlib Require Import ZArith NArith Ascii String Lia Bool.
From stdpp Require Import gmap strings list fin_maps.

Set Warnings "-register-all".
#[local] Open Scope N_scope.

(** ** Python primitives *)

Module Py.

(** A [str] is a sequence of code points. *)
Abbreviation str := (list N).

(** The code points of an ASCII literal of the source. *)
Definition u (s : string) : str := map N_of_ascii (list_ascii_of_string s).
Arguments u : simpl never.

(** JSON and Python values as they reach the validators. *)
Inductive pyval : Type :=
  | VNone
  | VBool (b : bool)
  | VInt (z : Z)
  | VFloat (mantissa exponent : Z)
  | VStr (s : str)
  | VList (l : list pyval)
  | VDict (d : gmap str pyval).

(** Truth value of an object, as tested by [if x] and [not x]. *)
Definition truthy (v : pyval) : bool :=
  match v with
  | VNone => false
  | VBool b => b
  | VInt z => negb (z =? 0)%Z
  | VFloat m _ => negb (m =? 0)%Z
  | VStr s => match s with [] => false | _ => true end
  | VList l => match l with [] => false | _ => true end
  | VDict d => negb (bool_decide (d = ∅))
  end.

(** [isinstance(v, str)] and [isinstance(v, dict)]. *)
Definition isinstance_str (v : pyval) : bool :=
  match v with VStr _ => true | _ => false end.

Definition isinstance_dict (v : pyval) : bool :=
  match v with VDict _ => true | _ => false end.

(** *** Exceptions *)

Inductive exn_class : Set :=
  | Exception
  | ValueError
  | UnicodeEncodeError
  | AttributeError
  | TypeError
  | OverflowError
  | KeyError
  | ValidationError
  | EmailNotValidError
  | sqlite3_Error
  | sqlite3_DatabaseError
  | sqlite3_IntegrityError
  | sqlite3_OperationalError
  | HTTPException
  | BadRequest.

#[global] Instance exn_class_eq_dec : EqDecision exn_class.
Proof. solve_decision. Defined.

(** The direct base class; [Exception] is the root of what a handler of
    the service can catch.  Classes that no [except] clause names
    ([LookupError], [UnicodeError], [ArithmeticError]) are left out of the
    chains. *)
Definition base (c : exn_class) : option exn_class :=
  match c with
  | Exception => None
  | ValueError => Some Exception
  | UnicodeEncodeError => Some ValueError
  | AttributeError => Some Exception
  | TypeError => Some Exception
  | OverflowError => Some Exception
  | KeyError => Some Exception
  | ValidationError => Some Exception
  | EmailNotValidError => Some ValueError
  | sqlite3_Error => Some Exception
  | sqlite3_DatabaseError => Some sqlite3_Error
  | sqlite3_IntegrityError => Some sqlite3_DatabaseError
  | sqlite3_OperationalError => Some sqlite3_DatabaseError
  | HTTPException => Some Exception
  | BadRequest => Some HTTPException
  end.

(** The class and its ancestors, nearest first. *)
Fixpoint ancestors (fuel : nat) (c : exn_class) : list exn_class :=
  match fuel with
  | O => [c]
  | S k => c :: match base c with Some b => ancestors k b | None => [] end
  end.

Definition issubclass (c d : exn_class) : bool :=
  bool_decide (d ∈ ancestors 4 c).

Record exn : Type := MkExn { exn_cls : exn_class; exn_msg : str }.

Inductive result (A : Type) : Type :=
  | Ok (a : A)
  | Raise (e : exn).
Arguments Ok {A} a.
Arguments Raise {A} e.

Definition raise {A} (c : exn_class) (msg : str) : result A :=
  Raise (MkExn c msg).

Definition bind {A B} (m : result A) (k : A → result B) : result B :=
  match m with
  | Ok a => k a
  | Raise e => Raise e
  end.

#[global] Instance result_bind : MBind result := λ A B k m, bind m k.
#[global] Instance result_ret : MRet result := λ A a, Ok a.

(** [try: body except C1 ...: h1 except C2 ...: h2]: the first clause
    whose class the exception is an instance of handles it; with no such
    clause the exception propagates. *)
Fixpoint dispatch {A} (e : exn) (clauses : list (exn_class * (exn → result A)))
  : result A :=
  match clauses with
  | [] => Raise e
  | (c, h) :: rest => if issubclass (exn_cls e) c then h e else dispatch e rest
  end.

Definition try_except {A} (body : result A)
    (clauses : list (exn_class * (exn → result A))) : result A :=
  match body with
  | Ok a => Ok a
  | Raise e => dispatch e clauses
  end.

(** *** Characters and strings *)

Definition in_range (lo hi c : N) : bool := (lo <=? c) && (c <=? hi).

Definition is_ascii_letter (c : N) : bool :=
  in_range 97 122 c || in_range 65 90 c.

Definition is_ascii_digit (c : N) : bool := in_range 48 57 c.

(** [str.isspace] of one character, which is also what [str.strip] removes
    and what [\s] matches in a [str] pattern. *)
Definition isspace (c : N) : bool :=
  in_range 9 13 c || in_range 28 31 c || (c =? 32)
  || (c =? 133) || (c =? 160) || (c =? 5760)
  || in_range 8192 8202 c || (c =? 8232) || (c =? 8233)
  || (c =? 8239) || (c =? 8287) || (c =? 12288).

Fixpoint lstrip (s : str) : str :=
  match s with
  | [] => []
  | c :: t => if isspace c then lstrip t else s
  end.

Definition rstrip (s : str) : str := rev (lstrip (rev s)).

Definition strip (s : str) : str := rstrip (lstrip s).

Definition ascii_lower (c : N) : N :=
  if in_range 65 90 c then c + 32 else c.

(** [v.strip()], [v.lower()] and the like exist on [str] only. *)
Definition as_str (v : pyval) : result str :=
  match v with
  | VStr s => Ok s
  | _ => raise AttributeError (u "object has no such attribute")
  end.

(** [s.encode('utf-8')] fails on lone surrogates; the bytes are kept as
    the code points they encode. *)
Definition encode_utf8 (s : str) : result str :=
  if forallb (λ c, negb (in_range 55296 57343 c)) s then Ok s
  else raise UnicodeEncodeError (u "surrogates not allowed").

End Py.

Export Py.

(** ** Collaborators outside the repository

    The Unicode character database, the interpreter's limit on the length
    of integer literals, the [email_validator] package and [bcrypt] are
    used by the service and are not part of it. *)

Class Platform : Type := {
  (** decimal value of a code point above ASCII of category Nd *)
  unicode_decimal : N → option N;
  (** [str.lower] on a string with a character above ASCII *)
  unicode_lower : str → str;
  (** [sys.get_int_max_str_digits()], 0 for no limit *)
  int_max_str_digits : N;
  (** [email_validator.validate_email(e).normalized] *)
  email_validator_normalized : str → result str;
  (** [bcrypt.hashpw(password, salt)], decoded *)
  bcrypt_hashpw : str → str → result str;
  (** [bcrypt.checkpw(password, hashed)] *)
  bcrypt_checkpw : str → str → result bool;
  (** [sys.set_int_max_str_digits] refuses a limit between 1 and 639 *)
  int_max_str_digits_valid :
    (int_max_str_digits =? 0) || (640 <=? int_max_str_digits) = true
}.

Module PyLib.
Section WithPlatform.
Context {P : Platform}.

(** [s.lower()]: on ASCII text it maps [A-Z] to [a-z]. *)
Definition lower (s : str) : str :=
  if forallb (λ c, c <? 128) s then map ascii_lower s else unicode_lower s.

(** What [\d] matches in a [str] pattern. *)
Definition re_digit (c : N) : bool :=
  if c <? 128 then is_ascii_digit c
  else match unicode_decimal c with Some _ => true | None => false end.

(** [$] without MULTILINE: the end of the string, or just before a
    newline that ends it. *)
Definition re_at_end (rest : str) : bool :=
  match rest with
  | [] => true
  | [c] => c =? 10
  | _ => false
  end.

(** [re.match(r"^[cls]+$", s)] is a match. *)
Fixpoint re_match_plus (cls : N → bool) (s : str) : bool :=
  match s with
  | [] => false
  | c :: t => cls c && (re_at_end t || re_match_plus cls t)
  end.

(** [re.search(r"[cls]", s)] is a match. *)
Definition re_search (cls : N → bool) (s : str) : bool := existsb cls s.

(** *** [int(s)] for a [str]

    The string is first brought to ASCII: whitespace above ASCII becomes a
    space, a decimal digit above ASCII its ASCII digit, and the first
    character that is neither is replaced by [?] and ends the string. *)
Fixpoint transform_decimal_and_space (s : str) : str :=
  match s with
  | [] => []
  | c :: t =>
      if c <? 127 then c :: transform_decimal_and_space t
      else if isspace c then 32 :: transform_decimal_and_space t
      else match unicode_decimal c with
           | Some d => (48 + d) :: transform_decimal_and_space t
           | None => [63]
           end
  end.

(** C [isspace] in the "C" locale, what the integer parser skips. *)
Definition c_isspace (c : N) : bool := in_range 9 13 c || (c =? 32).

Fixpoint skip_c_space (s : str) : str :=
  match s with
  | [] => []
  | c :: t => if c_isspace c then skip_c_space t else s
  end.

(** The digit loop: digits with single underscores between them.  [prev]
    tells whether the previous character was an underscore; the result is
    the value, the number of digits and the unread rest, or [None] for a
    doubled or trailing underscore. *)
Fixpoint scan_digits (prev : bool) (acc : Z) (n : N) (s : str)
  : option (Z * N * str) :=
  match s with
  | c :: t =>
      if is_ascii_digit c
      then scan_digits false (acc * 10 + Z.of_N (c - 48))%Z (n + 1) t
      else if c =? 95
           then if prev then None else scan_digits true acc n t
           else if prev then None else Some (acc, n, s)
  | [] => if prev then None else Some (acc, n, [])
  end.

Definition invalid_literal {A} : result A :=
  raise ValueError (u "invalid literal for int() with base 10").

(** More digits than the interpreter converts. *)
Definition exceeds_limit (n : N) : bool :=
  (0 <? int_max_str_digits) && (int_max_str_digits <? n).

(** An optional [+] or [-]. *)
Definition read_sign (s : str) : Z * str :=
  match s with
  | c :: t =>
      if c =? 43 then (1%Z, t)
      else if c =? 45 then ((-1)%Z, t)
      else (1%Z, s)
  | [] => (1%Z, s)
  end.

Definition starts_with_underscore (s : str) : bool :=
  match s with
  | c :: _ => c =? 95
  | [] => false
  end.

Definition int_of_ascii (s : str) : result Z :=
  let s := skip_c_space s in
  let '(sign, s) := read_sign s in
  if starts_with_underscore s then invalid_literal
  else
    match scan_digits false 0%Z 0 s with
    | None => invalid_literal
    | Some (v, n, rest) =>
        if exceeds_limit n
        then raise ValueError (u "Exceeds the limit for integer string conversion")
        else if n =? 0 then invalid_literal
        else match skip_c_space rest with
             | [] => Ok (sign * v)%Z
             | _ => invalid_literal
             end
    end.

Definition int (s : str) : result Z :=
  int_of_ascii (transform_decimal_and_space s).

End WithPlatform.
End PyLib.

Export PyLib.

(** [d[k]] *)
Definition getitem {A} (d : gmap str A) (k : str) : result A :=
  match d !! k with
  | Some v => Ok v
  | None => raise KeyError k
  end.

(** [k in v] and [v[k]] are asked of a dictionary. *)
Definition as_dict (v : pyval) : result (gmap str pyval) :=
  match v with
  | VDict d => Ok d
  | _ => raise TypeError (u "object is not subscriptable")
  end.

(** ** validators.py *)

Module UserValidator.
Section WithPlatform.
Context {P : Platform}.

(** The class [[a-zA-Z\s\-']] of the name patterns. *)
Definition name_char (c : N) : bool :=
  is_ascii_letter c || isspace c || (c =? 45) || (c =? 39).

Definition validate_email (email : pyval) : result str :=
  if negb (truthy email) || negb (isinstance_str email)
  then raise ValidationError (u "Email is required and must be a string")
  else
    s ← as_str email;
    let email := lower (strip s) in
    try_except (email_validator_normalized email)
      [(EmailNotValidError,
        λ e, raise ValidationError (u "Invalid email format: " ++ exn_msg e))].

Definition validate_name (name : pyval) : result str :=
  if negb (truthy name) || negb (isinstance_str name)
  then raise ValidationError (u "Name is required and must be a string")
  else
    s ← as_str name;
    let name := strip s in
    if (length name <? 2)%nat
    then raise ValidationError (u "Name must be at least 2 characters long")
    else if (100 <? length name)%nat
    then raise ValidationError (u "Name must be less than 100 characters")
    else if negb (re_match_plus name_char name)
    then raise ValidationError
           (u "Name can only contain letters, spaces, hyphens, and apostrophes")
    else Ok name.

Definition validate_password (password : pyval) : result str :=
  if negb (truthy password) || negb (isinstance_str password)
  then raise ValidationError (u "Password is required and must be a string")
  else
    password ← as_str password;
    if (length password <? 8)%nat
    then raise ValidationError (u "Password must be at least 8 characters long")
    else if (128 <? length password)%nat
    then raise ValidationError (u "Password must be less than 128 characters")
    else if negb (re_search is_ascii_letter password)
    then raise ValidationError (u "Password must contain at least one letter")
    else if negb (re_search re_digit password)
    then raise ValidationError (u "Password must contain at least one number")
    else Ok password.

Definition validate_user_id (user_id : str) : result Z :=
  if negb (truthy (VStr user_id))
  then raise ValidationError (u "User ID is required")
  else
    try_except
      (user_id_int ← int user_id;
       if (user_id_int <=? 0)%Z
       then raise ValidationError (u "User ID must be a positive integer")
       else Ok user_id_int)
      [(ValueError,
        λ _, raise ValidationError (u "User ID must be a valid integer"))].

Definition validate_search_name (name : pyval) : result str :=
  if negb (truthy name) || negb (isinstance_str name)
  then raise ValidationError (u "Search name is required and must be a string")
  else
    s ← as_str name;
    let name := strip s in
    if (length name <? 1)%nat
    then raise ValidationError (u "Search name cannot be empty")
    else if (50 <? length name)%nat
    then raise ValidationError (u "Search name must be less than 50 characters")
    else if negb (re_match_plus name_char name)
    then raise ValidationError
           (u "Search name can only contain letters, spaces, hyphens, and apostrophes")
    else Ok name.

(** [for field in required_fields: if field not in data: raise ...] *)
Fixpoint check_required (fields : list str) (data : gmap str pyval)
  : result unit :=
  match fields with
  | [] => Ok ()
  | field :: rest =>
      match data !! field with
      | None => raise ValidationError (u "Missing required field: " ++ field)
      | Some _ => check_required rest data
      end
  end.

Definition validate_create_user_data (data : pyval) : result (gmap str str) :=
  if negb (isinstance_dict data)
  then raise ValidationError (u "Request data must be a JSON object")
  else
    data ← as_dict data;
    let required_fields := [u "name"; u "email"; u "password"] in
    _ ← check_required required_fields data;
    v_name ← getitem data (u "name") ≫= validate_name;
    v_email ← getitem data (u "email") ≫= validate_email;
    v_password ← getitem data (u "password") ≫= validate_password;
    Ok (<[u "name" := v_name]>
        (<[u "email" := v_email]>
         (<[u "password" := v_password]> ∅))).

Definition validate_update_user_data (data : pyval) : result (gmap str str) :=
  if negb (isinstance_dict data)
  then raise ValidationError (u "Request data must be a JSON object")
  else
    data ← as_dict data;
    let validated_data : gmap str str := ∅ in
    validated_data ←
      match data !! u "name" with
      | Some v => n ← validate_name v; Ok (<[u "name" := n]> validated_data)
      | None => Ok validated_data
      end;
    validated_data ←
      match data !! u "email" with
      | Some v => e ← validate_email v; Ok (<[u "email" := e]> validated_data)
      | None => Ok validated_data
      end;
    if bool_decide (validated_data = ∅)
    then raise ValidationError
           (u "At least one field (name or email) must be provided for update")
    else Ok validated_data.

(** The dictionary [{'email': ..., 'password': ...}] of a login; its
    password is the request's value as it came. *)
Record login_data : Type := LoginData { ld_email : str; ld_password : pyval }.

Definition validate_login_data (data : pyval) : result login_data :=
  if negb (isinstance_dict data)
  then raise ValidationError (u "Request data must be a JSON object")
  else
    data ← as_dict data;
    match data !! u "email" with
    | None => raise ValidationError (u "Email is required for login")
    | Some v_email =>
        match data !! u "password" with
        | None => raise ValidationError (u "Password is required for login")
        | Some v_password =>
            e ← validate_email v_email;
            Ok (LoginData e v_password)
        end
    end.

End WithPlatform.
End UserValidator.

(** ** The SQLite table [users]

    [id INTEGER PRIMARY KEY AUTOINCREMENT, name TEXT NOT NULL,
     email TEXT UNIQUE NOT NULL, password_hash TEXT NOT NULL,
     created_at, updated_at TIMESTAMP DEFAULT CURRENT_TIMESTAMP] *)

Module Sqlite.

Record user_row : Type := UserRow {
  row_id : Z;
  row_name : str;
  row_email : str;
  row_password_hash : str;
  row_created_at : str;
  row_updated_at : str
}.

Record database : Type := Database {
  users : list user_row;
  (** the largest rowid ever used, kept for AUTOINCREMENT *)
  sqlite_sequence : Z
}.

(** What the service does not control at a call: the two clocks, the salt
    drawn by [bcrypt.gensalt], and whether the n-th connection of the
    request fails. *)
Record world : Type := World {
  current_timestamp : str;
  datetime_now_isoformat : str;
  gensalt : str;
  fault : nat → option str
}.

(** An integer parameter outside 64 bits cannot be bound. *)
Definition bind_int (z : Z) : result Z :=
  if ((z <? - 2 ^ 63) || (2 ^ 63 - 1 <? z))%Z
  then raise OverflowError (u "Python int too large to convert to SQLite INTEGER")
  else Ok z.

(** LIKE compares ASCII letters without case and everything else
    exactly. *)
Definition like_eq (a b : N) : bool := ascii_lower a =? ascii_lower b.

(** [s LIKE pat] with the wildcards [%] and [_] and no escape. *)
Fixpoint like (pat : str) : str → bool :=
  match pat with
  | [] => λ s, match s with [] => true | _ => false end
  | p :: pat' =>
      if p =? 37
      then fix any (s : str) : bool :=
             like pat' s || match s with [] => false | _ :: s' => any s' end
      else if p =? 95
      then λ s, match s with [] => false | _ :: s' => like pat' s' end
      else λ s, match s with [] => false | c :: s' => like_eq p c && like pat' s' end
  end.

Definition max_rowid (rows : list user_row) : Z :=
  foldr (λ r m, Z.max (row_id r) m) 0%Z rows.

Definition integrity_error {A} (msg : string) : result A :=
  raise sqlite3_IntegrityError (u msg).

(** [INSERT INTO users (name, email, password_hash) VALUES (?, ?, ?)];
    the result is the new table and [lastrowid]. *)
Definition sql_insert (db : database) (w : world)
    (name email password_hash : option str) : result (database * Z) :=
  match name, email, password_hash with
  | None, _, _ => integrity_error "NOT NULL constraint failed: users.name"
  | _, None, _ => integrity_error "NOT NULL constraint failed: users.email"
  | _, _, None => integrity_error "NOT NULL constraint failed: users.password_hash"
  | Some n, Some e, Some h =>
      if existsb (λ r, bool_decide (row_email r = e)) (users db)
      then integrity_error "UNIQUE constraint failed: users.email"
      else
        let rowid := (Z.max (sqlite_sequence db) (max_rowid (users db)) + 1)%Z in
        let r := UserRow rowid n e h (current_timestamp w) (current_timestamp w) in
        Ok (Database (users db ++ [r]) rowid, rowid)
  end.

(** [UPDATE users SET name = ?, email = ?, updated_at = CURRENT_TIMESTAMP
     WHERE id = ?], with only the assignments that are given; the result
    is the new table and [rowcount]. *)
Definition update_row (w : world) (name email : option str) (r : user_row)
  : user_row :=
  UserRow (row_id r) (default (row_name r) name) (default (row_email r) email)
          (row_password_hash r) (row_created_at r) (current_timestamp w).

Definition sql_update (db : database) (w : world) (user_id : Z)
    (name email : option str) : result (database * Z) :=
  let hit r := (row_id r =? user_id)%Z in
  let clash :=
    match email with
    | Some e =>
        existsb hit (users db)
        && existsb (λ r, negb (hit r) && bool_decide (row_email r = e)) (users db)
    | None => false
    end in
  if clash then integrity_error "UNIQUE constraint failed: users.email"
  else
    Ok (Database (map (λ r, if hit r then update_row w name email r else r)
                      (users db))
                 (sqlite_sequence db),
        Z.of_nat (length (filter (λ r, hit r = true) (users db)))).

(** [DELETE FROM users WHERE id = ?] *)
Definition sql_delete (db : database) (user_id : Z) : database * Z :=
  let hit r := (row_id r =? user_id)%Z in
  (Database (filter (λ r, hit r = false) (users db)) (sqlite_sequence db),
   Z.of_nat (length (filter (λ r, hit r = true) (users db)))).

(** [dict(row)] for [SELECT *] and for
    [SELECT id, name, email, created_at, updated_at]. *)
Definition dict_public (r : user_row) : gmap str pyval :=
  <[u "id" := VInt (row_id r)]>
  (<[u "name" := VStr (row_name r)]>
   (<[u "email" := VStr (row_email r)]>
    (<[u "created_at" := VStr (row_created_at r)]>
     (<[u "updated_at" := VStr (row_updated_at r)]> ∅)))).

Definition dict_all (r : user_row) : gmap str pyval :=
  <[u "password_hash" := VStr (row_password_hash r)]> (dict_public r).

End Sqlite.

Export Sqlite.

(** ** database.py *)

Module DatabaseManager.
Section WithPlatform.
Context {P : Platform}.

(** [get_connection]: the [k]-th connection of the request. *)
Definition get_connection (w : world) (k : nat) : result unit :=
  match fault w k with
  | Some msg => raise sqlite3_OperationalError msg
  | None => Ok ()
  end.

Definition hash_password (w : world) (password : str) : result str :=
  pw ← encode_utf8 password;
  bcrypt_hashpw pw (gensalt w).

Definition verify_password (password hashed_password : pyval) : result bool :=
  pw ← as_str password ≫= encode_utf8;
  hashed ← as_str hashed_password ≫= encode_utf8;
  bcrypt_checkpw pw hashed.

Definition opt_str (o : option str) : pyval :=
  match o with Some s => VStr s | None => VNone end.

(** The [except] clauses of [create_user] and [update_user]. *)
Definition integrity_clauses {A} : list (exn_class * (exn → result A)) :=
  [(sqlite3_IntegrityError, λ _, raise ValueError (u "Email already exists"));
   (sqlite3_Error, λ e, Raise e)].

(** The [except sqlite3.Error: log; raise] of the other methods. *)
Definition reraise_clauses {A} (c : exn_class)
  : list (exn_class * (exn → result A)) :=
  [(c, λ e, Raise e)].

Definition create_user (db : database) (w : world)
    (name email : option str) (password : str)
  : result (gmap str pyval) * database :=
  let run : result (gmap str pyval * database) :=
    try_except
      (_ ← get_connection w 0;
       password_hash ← hash_password w password;
       '(db', user_id) ← sql_insert db w name email (Some password_hash);
       Ok (<[u "id" := VInt user_id]>
           (<[u "name" := opt_str name]>
            (<[u "email" := opt_str email]>
             (<[u "created_at" := VStr (datetime_now_isoformat w)]> ∅))),
           db'))
      integrity_clauses in
  match run with
  | Ok (user, db') => (Ok user, db')
  | Raise e => (Raise e, db)
  end.

Definition get_user_by_id (db : database) (w : world) (k : nat) (user_id : Z)
  : result (option (gmap str pyval)) :=
  try_except
    (_ ← get_connection w k;
     uid ← bind_int user_id;
     let user := find (λ r, (row_id r =? uid)%Z) (users db) in
     Ok (dict_all <$> user))
    (reraise_clauses sqlite3_Error).

Definition get_user_by_email (db : database) (w : world) (k : nat) (email : str)
  : result (option (gmap str pyval)) :=
  try_except
    (_ ← get_connection w k;
     let user := find (λ r, bool_decide (row_email r = email)) (users db) in
     Ok (dict_all <$> user))
    (reraise_clauses sqlite3_Error).

Definition get_all_users (db : database) (w : world)
  : result (list (gmap str pyval)) :=
  try_except
    (_ ← get_connection w 0;
     Ok (dict_public <$> users db))
    (reraise_clauses sqlite3_Error).

Definition update_user (db : database) (w : world) (user_id : Z)
    (name email : option str)
  : result (option (gmap str pyval)) * database :=
  let run : result (option (gmap str pyval)) * database :=
    match get_connection w 0 with
    | Raise e => (Raise e, db)
    | Ok _ =>
        match name, email with
        | None, None => (Ok None, db)
        | _, _ =>
            match uid ← bind_int user_id; sql_update db w uid name email with
            | Raise e => (Raise e, db)
            | Ok (db', rowcount) =>
                if (0 <? rowcount)%Z
                then (get_user_by_id db' w 1 user_id, db')
                else (Ok None, db')
            end
        end
    end in
  (try_except run.1 integrity_clauses, run.2).

Definition delete_user (db : database) (w : world) (user_id : Z)
  : result bool * database :=
  let run : result (bool * database) :=
    try_except
      (_ ← get_connection w 0;
       uid ← bind_int user_id;
       let '(db', rowcount) := sql_delete db uid in
       let deleted := (0 <? rowcount)%Z in
       Ok (deleted, db'))
      (reraise_clauses sqlite3_Error) in
  match run with
  | Ok (deleted, db') => (Ok deleted, db')
  | Raise e => (Raise e, db)
  end.

Definition search_users_by_name (db : database) (w : world) (name : str)
  : result (list (gmap str pyval)) :=
  try_except
    (_ ← get_connection w 0;
     let pattern := [37] ++ name ++ [37] in
     let rows := filter (λ r, like pattern (row_name r) = true) (users db) in
     Ok (dict_public <$> rows))
    (reraise_clauses sqlite3_Error).

Definition authenticate_user (db : database) (w : world)
    (email : str) (password : pyval) : result (option (gmap str pyval)) :=
  try_except
    (user ← get_user_by_email db w 0 email;
     match user with
     | Some user =>
         if truthy (VDict user)
         then
           verified ← getitem user (u "password_hash") ≫= verify_password password;
           if (verified : bool) then
             v_id ← getitem user (u "id");
             v_name ← getitem user (u "name");
             v_email ← getitem user (u "email");
             v_created ← getitem user (u "created_at");
             Ok (Some (<[u "id" := v_id]>
                       (<[u "name" := v_name]>
                        (<[u "email" := v_email]>
                         (<[u "created_at" := v_created]> ∅)))))
           else Ok None
         else Ok None
     | None => Ok None
     end)
    (reraise_clauses Exception).

End WithPlatform.
End DatabaseManager.

(** ** app.py *)

Module App.
Section WithPlatform.
Context {P : Platform}.

(** What a view reads of the request: [request.is_json],
    [request.get_json()] (which raises on a body that does not parse) and
    [request.args]. *)
Record request : Type := Request {
  is_json : bool;
  get_json : result pyval;
  args : gmap str str
}.

Record response : Type := Response {
  body : gmap str pyval;
  status_code : Z
}.

Definition create_error_response (message : str) (status_code : Z) : response :=
  Response (<[u "error" := VStr message]> (<[u "status" := VStr (u "error")]> ∅))
           status_code.

Definition create_success_response (data : option pyval) (message : str)
  : gmap str pyval :=
  let response : gmap str pyval :=
    <[u "status" := VStr (u "success")]> (<[u "message" := VStr message]> ∅) in
  match data with
  | Some d => <[u "data" := d]> response
  | None => response
  end.

(** A view that returns a dictionary alone answers with status 200. *)
Definition ok_200 (b : gmap str pyval) : response := Response b 200.

(** [if user: yes else: no] for a dictionary or [None]. *)
Definition if_user {A : Type} (user : option (gmap str pyval))
    (yes : gmap str pyval → A) (no : A) : A :=
  match user with
  | Some d => if truthy (VDict d) then yes d else no
  | None => no
  end.

(** *** Error handlers *)

Definition not_found : response :=
  create_error_response (u "Endpoint not found") 404.

Definition method_not_allowed : response :=
  create_error_response (u "Method not allowed") 405.

Definition internal_error : response :=
  create_error_response (u "Internal server error") 500.

(** An exception that leaves a view reaches the handler for 500. *)
Definition flask (r : result response) : response :=
  match r with
  | Ok resp => resp
  | Raise _ => internal_error
  end.

Definition on_error (c : exn_class) (h : exn → response)
  : exn_class * (exn → result response) :=
  (c, λ e, Ok (h e)).

Definition bad_request : exn_class * (exn → result response) :=
  on_error ValidationError (λ e, create_error_response (exn_msg e) 400).

Definition conflict : exn_class * (exn → result response) :=
  on_error ValueError (λ e, create_error_response (exn_msg e) 409).

Definition failed (message : string) : exn_class * (exn → result response) :=
  on_error Exception (λ _, create_error_response (u message) 500).

(** *** Views *)

Definition health_check : response :=
  ok_200 (create_success_response None (u "User Management System is running")).

Definition get_all_users (db : database) (w : world) : response :=
  flask (try_except
    (users ← DatabaseManager.get_all_users db w;
     Ok (ok_200 (create_success_response (Some (VList (VDict <$> users)))
                   (u "Users retrieved successfully"))))
    [failed "Failed to retrieve users"]).

Definition get_user (user_id : str) (db : database) (w : world) : response :=
  flask (try_except
    (validated_user_id ← UserValidator.validate_user_id user_id;
     user ← DatabaseManager.get_user_by_id db w 0 validated_user_id;
     if_user user
       (λ user,
          let user := delete (u "password_hash") user in
          Ok (ok_200 (create_success_response (Some (VDict user))
                        (u "User retrieved successfully"))))
       (Ok (create_error_response (u "User not found") 404)))
    [bad_request; failed "Failed to retrieve user"]).

Definition create_user (req : request) (db : database) (w : world)
  : response * database :=
  let run : result response * database :=
    if negb (is_json req)
    then (Ok (create_error_response (u "Content-Type must be application/json") 400), db)
    else
      match
        data ← get_json req;
        validated_data ← UserValidator.validate_create_user_data data;
        v_name ← getitem validated_data (u "name");
        v_email ← getitem validated_data (u "email");
        v_password ← getitem validated_data (u "password");
        Ok (v_name, v_email, v_password)
      with
      | Raise e => (Raise e, db)
      | Ok (v_name, v_email, v_password) =>
          let '(created, db') :=
            DatabaseManager.create_user db w (Some v_name) (Some v_email) v_password in
          (user ← created;
           Ok (Response (create_success_response (Some (VDict user))
                           (u "User created successfully")) 201),
           db')
      end in
  (flask (try_except run.1 [bad_request; conflict; failed "Failed to create user"]),
   run.2).

Definition update_user (user_id : str) (req : request) (db : database) (w : world)
  : response * database :=
  let run : result response * database :=
    match UserValidator.validate_user_id user_id with
    | Raise e => (Raise e, db)
    | Ok validated_user_id =>
        if negb (is_json req)
        then (Ok (create_error_response (u "Content-Type must be application/json") 400), db)
        else
          match data ← get_json req; UserValidator.validate_update_user_data data with
          | Raise e => (Raise e, db)
          | Ok validated_data =>
              let '(updated, db') :=
                DatabaseManager.update_user db w validated_user_id
                  (validated_data !! u "name") (validated_data !! u "email") in
              (updated_user ← updated;
               if_user updated_user
                 (λ updated_user,
                    let updated_user := delete (u "password_hash") updated_user in
                    Ok (ok_200 (create_success_response (Some (VDict updated_user))
                                  (u "User updated successfully"))))
                 (Ok (create_error_response (u "User not found") 404)),
               db')
          end
    end in
  (flask (try_except run.1 [bad_request; conflict; failed "Failed to update user"]),
   run.2).

Definition delete_user (user_id : str) (db : database) (w : world)
  : response * database :=
  let run : result response * database :=
    match UserValidator.validate_user_id user_id with
    | Raise e => (Raise e, db)
    | Ok validated_user_id =>
        let '(deleted, db') := DatabaseManager.delete_user db w validated_user_id in
        (deleted ← deleted;
         if (deleted : bool)
         then Ok (ok_200 (create_success_response None (u "User deleted successfully")))
         else Ok (create_error_response (u "User not found") 404),
         db')
    end in
  (flask (try_except run.1 [bad_request; failed "Failed to delete user"]), run.2).

Definition search_users (req : request) (db : database) (w : world) : response :=
  flask (try_except
    (let name := from_option VStr VNone (args req !! u "name") in
     if negb (truthy name)
     then Ok (create_error_response (u "Name parameter is required") 400)
     else
       validated_name ← UserValidator.validate_search_name name;
       users ← DatabaseManager.search_users_by_name db w validated_name;
       Ok (ok_200 (create_success_response (Some (VList (VDict <$> users)))
                     (u "Search completed successfully"))))
    [bad_request; failed "Failed to search users"]).

Definition login (req : request) (db : database) (w : world) : response :=
  flask (try_except
    (if negb (is_json req)
     then Ok (create_error_response (u "Content-Type must be application/json") 400)
     else
       data ← get_json req;
       validated_data ← UserValidator.validate_login_data data;
       user ← DatabaseManager.authenticate_user db w
                (UserValidator.ld_email validated_data)
                (UserValidator.ld_password validated_data);
       if_user user
         (λ user,
            Ok (ok_200 (create_success_response (Some (VDict user))
                          (u "Login successful"))))
         (Ok (create_error_response (u "Invalid email or password") 401)))
    [bad_request; failed "Failed to authenticate user"]).

(** *** The views and error handlers the application registers *)

Inductive endpoint : Type :=
  | HealthCheck
  | GetAllUsers
  | GetUser (user_id : str)
  | CreateUser
  | UpdateUser (user_id : str)
  | DeleteUser (user_id : str)
  | SearchUsers
  | Login
  | NotFound
  | MethodNotAllowed
  | InternalError.

Definition handle (ep : endpoint) (req : request) (db : database) (w : world)
  : response * database :=
  match ep with
  | HealthCheck => (health_check, db)
  | GetAllUsers => (get_all_users db w, db)
  | GetUser user_id => (get_user user_id db w, db)
  | CreateUser => create_user req db w
  | UpdateUser user_id => update_user user_id req db w
  | DeleteUser user_id => delete_user user_id db w
  | SearchUsers => (search_users req db w, db)
  | Login => (login req db w, db)
  | NotFound => (not_found, db)
  | MethodNotAllowed => (method_not_allowed, db)
  | InternalError => (internal_error, db)
  end.

End WithPlatform.
End App.

Arguments App.create_error_response : simpl never.
Arguments App.create_success_response : simpl never.

(** ** A stand-in for the collaborators

    Enough of each to run the service on examples: two blocks of decimal
    digits above ASCII, a syntactic e-mail check, and a keyed digest that
    is only compared, never inverted. *)

Module Standin.

Definition decimal (c : N) : option N :=
  if in_range 1632 1641 c then Some (c - 1632)
  else if in_range 65296 65305 c then Some (c - 65296)
  else None.

Definition email_ok (s : str) : bool :=
  match list_find (λ c, c = 64) s with
  | Some (i, _) =>
      let local := take i s in
      let domain := drop (S i) s in
      negb (bool_decide (local = []))
      && negb (existsb (λ c, (c =? 64) || isspace c) domain)
      && existsb (λ c, c =? 46) domain
  | None => false
  end.

Definition normalized (s : str) : result str :=
  if email_ok s then Ok s
  else raise EmailNotValidError (u "The email address is not valid.").

Definition digest (pw salt : str) : str := salt ++ [36] ++ rev pw.

Definition hashpw (pw salt : str) : result str := Ok (digest pw salt).

Definition checkpw (pw hashed : str) : result bool :=
  Ok (bool_decide (digest pw (take 4 hashed) = hashed)).

#[global] Instance platform : Platform := {|
  unicode_decimal := decimal;
  unicode_lower := map ascii_lower;
  int_max_str_digits := 4300;
  email_validator_normalized := normalized;
  bcrypt_hashpw := hashpw;
  bcrypt_checkpw := checkpw;
  int_max_str_digits_valid := eq_refl
|}.

Definition world0 : world :=
  World (u "2024-01-01 00:00:00") (u "2024-01-01T00:00:00.000000") (u "salt")
        (λ _, None).

Definition row (i : Z) (name email pw : string) : user_row :=
  UserRow i (u name) (u email) (digest (u pw) (u "salt"))
          (u "2024-01-01 00:00:00") (u "2024-01-01 00:00:00").

(** The sample users of [init_db.py]. *)
Definition sample_db : database :=
  Database [row 1 "John Doe" "john@example.com" "password123";
            row 2 "Jane Smith" "jane@example.com" "secret456";
            row 3 "Bob Johnson" "bob@example.com" "qwerty789"] 3.

Definition json_request (v : pyval) : App.request := App.Request true (Ok v) ∅.

(** The request bodies of a create and of a login. *)
Definition create_body (name email password : string) : pyval :=
  VDict (<[u "name" := VStr (u name)]>
         (<[u "email" := VStr (u email)]>
          (<[u "password" := VStr (u password)]> ∅))).

Definition login_body (email password : string) : pyval :=
  VDict (<[u "email" := VStr (u email)]>
         (<[u "password" := VStr (u password)]> ∅)).

End Standin.

(** ** The specification's wording, where it is compared with the code *)

Module Spec.

(** The character set [[A-Za-z \-']]: letters, the space character, hyphen
    and apostrophe. *)
Definition name_char (c : N) : bool :=
  is_ascii_letter c || (c =? 32) || (c =? 45) || (c =? 39).

(** An alphabetic character among the first 256 code points: the letters
    of Basic Latin and of Latin-1 (feminine and masculine ordinal, micro
    sign, and the accented letters without the multiplication and division
    signs).  Past 255 the table stops and answers [false]. *)
Definition alphabetic (c : N) : bool :=
  is_ascii_letter c || (c =? 170) || (c =? 181) || (c =? 186)
  || in_range 192 214 c || in_range 216 246 c || in_range 248 255 c.

(** Equality of two characters up to the case of ASCII letters. *)
Definition ci_eq (a b : N) : bool := ascii_lower a =? ascii_lower b.

(** [t] is, up to case, a prefix of [s]; a substring of [s]. *)
Fixpoint prefix_ci (t s : str) : bool :=
  match t, s with
  | [], _ => true
  | _ :: _, [] => false
  | a :: t', b :: s' => ci_eq a b && prefix_ci t' s'
  end.

Fixpoint contains_ci (t s : str) : bool :=
  prefix_ci t s || match s with [] => false | _ :: s' => contains_ci t s' end.

(** An integer literal as [int] reads it: blanks, an optional sign, a
    digit, further digits each with or without one underscore before it,
    blanks.  [sign] is [Some true] for a minus and [Some false] for a
    plus. *)
Fixpoint render_digits (rest : list (bool * N)) : str :=
  match rest with
  | [] => []
  | (underscore, d) :: rest' =>
      (if underscore then [95] else []) ++ [48 + d] ++ render_digits rest'
  end.

Fixpoint digits_value (acc : Z) (rest : list (bool * N)) : Z :=
  match rest with
  | [] => acc
  | (_, d) :: rest' => digits_value (acc * 10 + Z.of_N d)%Z rest'
  end.

Definition render_sign (sign : option bool) : str :=
  match sign with
  | None => []
  | Some false => [43]
  | Some true => [45]
  end.

Definition literal (ws1 : str) (sign : option bool) (d0 : N)
    (rest : list (bool * N)) (ws2 : str) : str :=
  ws1 ++ render_sign sign ++ [48 + d0] ++ render_digits rest ++ ws2.

Definition literal_value (sign : option bool) (d0 : N) (rest : list (bool * N))
  : Z :=
  ((match sign with Some true => -1 | _ => 1 end)
   * digits_value (Z.of_N d0) rest)%Z.

(** The status codes of the failure kinds. *)
Definition error_codes : list Z := [400; 401; 404; 405; 409; 500]%Z.

(** A user record without the field [password_hash]. *)
Definition no_hash (d : gmap str pyval) : bool :=
  bool_decide (d !! u "password_hash" = None).

(** The [data] of a response, a user record or a list of them, shows no
    password hash. *)
Definition data_hides_hash (data : option pyval) : bool :=
  match data with
  | Some (VDict d) => no_hash d
  | Some (VList l) =>
      forallb (λ v, match v with VDict d => no_hash d | _ => true end) l
  | _ => true
  end.

Definition hides_hash (r : App.response) : bool :=
  no_hash (App.body r) && data_hides_hash (App.body r !! u "data").

(** A response is either an error envelope with one of the failure codes
    or a success envelope whose data shows no password hash. *)
Definition shaped (r : App.response) : Prop :=
  (∃ m code, r = App.create_error_response m code ∧ code ∈ error_codes)
  ∨ (∃ data msg code,
       r = App.Response (App.create_success_response data msg) code
       ∧ code ∈ [200; 201]%Z ∧ data_hides_hash data = true).

(** A clause of a view answers with an error envelope. *)
Definition error_clause (cl : exn_class * (exn → result App.response)) : Prop :=
  ∀ e, ∃ m code, cl.2 e = Ok (App.create_error_response m code)
                 ∧ code ∈ error_codes.

End Spec.


(** ** init_db.py *)

Module InitDb.
Section WithPlatform.
Context {P : Platform}.

(** [DatabaseManager.init_database]: CREATE TABLE IF NOT EXISTS leaves a
    table that exists as it is; a store that has not been set up is the
    empty table. *)
Definition init_schema (db : database) (w : world) : result unit :=
  try_except (DatabaseManager.get_connection w 0)
    (DatabaseManager.reraise_clauses sqlite3_Error).

Definition sample_users : list (str * str * str) :=
  [(u "John Doe", u "john@example.com", u "password123");
   (u "Jane Smith", u "jane@example.com", u "secret456");
   (u "Bob Johnson", u "bob@example.com", u "qwerty789")].

(** [for user_data in sample_users: try: create_user(...) except
    ValueError: warn].  The [k]-th call of the script runs in the world
    [ws k]. *)
Fixpoint create_samples (samples : list (str * str * str)) (db : database)
    (ws : nat → world) (k : nat) : result unit * database :=
  match samples with
  | [] => (Ok (), db)
  | (name, email, password) :: rest =>
      let '(created, db') :=
        DatabaseManager.create_user db (ws k) (Some name) (Some email) password in
      match try_except (_ ← created; Ok ()) [(ValueError, λ _, Ok ())] with
      | Ok _ => create_samples rest db' ws (S k)
      | Raise e => (Raise e, db')
      end
  end.

Definition init_database (db : database) (ws : nat → world)
  : result unit * database :=
  match init_schema db (ws 0%nat) with
  | Raise e => (Raise e, db)
  | Ok _ =>
      let run := create_samples sample_users db ws 1 in
      (try_except run.1 (DatabaseManager.reraise_clauses Exception), run.2)
  end.

End WithPlatform.
End InitDb.

(** ** What the table keeps *)

Module Invariant.

(** Ids are positive, pairwise different and not above the AUTOINCREMENT
    counter; e-mails are pairwise different. *)
Definition consistent (db : database) : Prop :=
  NoDup (row_id <$> users db)
  ∧ NoDup (row_email <$> users db)
  ∧ Forall (λ r, (0 < row_id r ≤ sqlite_sequence db)%Z) (users db).

#[global] Instance consistent_dec (db : database) : Decision (consistent db).
Proof. unfold consistent. apply _. Defined.

(** The columns an UPDATE of name and e-mail does not assign. *)
Definition fixed_columns (r : user_row) : Z * str * str :=
  (row_id r, row_password_hash r, row_created_at r).

Section WithPlatform.
Context {P : Platform}.

(** The table after a sequence of requests, each to a view or error
    handler and each in its own world. *)
Fixpoint serve (requests : list (App.endpoint * App.request * world))
    (db : database) : database :=
  match requests with
  | [] => db
  | (ep, req, w) :: rest => serve rest (App.handle ep req db w).2
  end.

End WithPlatform.

End Invariant.

(** ** The status codes of each view *)

Module Status.

Definition codes (ep : App.endpoint) : list Z :=
  match ep with
  | App.HealthCheck => [200]
  | App.GetAllUsers => [200; 500]
  | App.GetUser _ => [200; 400; 404; 500]
  | App.CreateUser => [201; 400; 409; 500]
  | App.UpdateUser _ => [200; 400; 404; 409; 500]
  | App.DeleteUser _ => [200; 400; 404; 500]
  | App.SearchUsers => [200; 400; 500]
  | App.Login => [200; 400; 401; 500]
  | App.NotFound => [404]
  | App.MethodNotAllowed => [405]
  | App.InternalError => [500]
  end%Z.

End Status.

(** ** Further sample requests and worlds *)

Module Cases.

Definition update_body (name email : string) : pyval :=
  VDict (<[u "name" := VStr (u name)]> (<[u "email" := VStr (u email)]> ∅)).

(** A store that cannot be reached, and one whose second connection of a
    request fails. *)
Definition world_down : world :=
  World (u "2024-01-02 00:00:00") (u "2024-01-02T00:00:00.000000") (u "salt")
        (λ _, Some (u "unable to open database file")).

Definition world_second_connection_fails : world :=
  World (u "2024-01-02 00:00:00") (u "2024-01-02T00:00:00.000000") (u "salt")
        (λ k, match k with 1%nat => Some (u "database is locked") | _ => None end).

Definition world1 : world :=
  World (u "2024-01-02 00:00:00") (u "2024-01-02T00:00:00.000000") (u "salt")
        (λ _, None).

End Cases.

(** * Properties *)

Import UserValidator.

Section Properties.
Context {P : Platform}.

(** ** Exceptions and [int] *)

Lemma exceeds_limit_small (n : N) : n < 640 → exceeds_limit n = false.
Proof.
  intros Hn. unfold exceeds_limit. pose proof int_max_str_digits_valid as Hm.
  apply orb_true_iff in Hm as [->%N.eqb_eq | Hm%N.leb_le]; [done |].
  apply andb_false_iff. right. apply N.ltb_ge. lia.
Qed.

Lemma int_of_ascii_raises (s : str) (e : exn) :
  int_of_ascii s = Raise e → exn_cls e = ValueError.
Proof.
  unfold int_of_ascii, invalid_literal, raise.
  repeat case_match; intros [= <-]; done.
Qed.

Lemma int_raises (s : str) (e : exn) : int s = Raise e → exn_cls e = ValueError.
Proof. apply int_of_ascii_raises. Qed.

(** Evaluate a call that parses a short integer literal. *)
Ltac run_int :=
  cbv -[exceeds_limit]; rewrite ?exceeds_limit_small by reflexivity; reflexivity.

(** ** Validators *)

Lemma int_empty : ∃ e, int [] = Raise e.
Proof.
  unfold int, int_of_ascii. cbn. destruct (exceeds_limit 0); by eexists.
Qed.

Lemma validate_user_id_unfold (s : str) :
  validate_user_id s =
    match s with
    | [] => raise ValidationError (u "User ID is required")
    | _ =>
        match int s with
        | Ok n =>
            if (n <=? 0)%Z
            then raise ValidationError (u "User ID must be a positive integer")
            else Ok n
        | Raise _ => raise ValidationError (u "User ID must be a valid integer")
        end
    end.
Proof.
  destruct s as [| c s]; [done |].
  unfold validate_user_id. cbn [truthy negb].
  destruct (int (c :: s)) as [n | e] eqn:Hint; cbn.
  - destruct (n <=? 0)%Z; done.
  - by rewrite (int_raises _ _ Hint).
Qed.

(** C7: [validate_user_id] rejects the empty string, rejects what [int]
    does not parse, rejects a parsed value that is not positive with its
    own validation error (the [except ValueError] clause does not catch
    it), and returns the parsed integer otherwise; ["-1"] and ["abc"]
    are rejected and ["42"] gives 42. *)
Theorem validate_user_id_cases :
  (∀ s : str,
     validate_user_id s =
       match s with
       | [] => raise ValidationError (u "User ID is required")
       | _ =>
           match int s with
           | Ok n =>
               if (n <=? 0)%Z
               then raise ValidationError (u "User ID must be a positive integer")
               else Ok n
           | Raise _ => raise ValidationError (u "User ID must be a valid integer")
           end
       end)
  ∧ validate_user_id (u "-1")
    = raise ValidationError (u "User ID must be a positive integer")
  ∧ validate_user_id (u "abc")
    = raise ValidationError (u "User ID must be a valid integer")
  ∧ validate_user_id (u "42") = Ok 42%Z.
Proof. split; [apply validate_user_id_unfold | repeat split; run_int]. Qed.

(** *** The literals [int] accepts *)

Lemma transform_ascii (s : str) :
  forallb (λ c, c <? 127) s = true → transform_decimal_and_space s = s.
Proof.
  induction s as [| c s IH]; [done |]. cbn [forallb transform_decimal_and_space].
  intros [Hc Hs]%andb_true_iff. by rewrite Hc, IH.
Qed.

Lemma skip_c_space_app (ws s : str) :
  forallb c_isspace ws = true → skip_c_space (ws ++ s) = skip_c_space s.
Proof.
  induction ws as [| c ws IH]; [done |]. cbn [forallb app skip_c_space].
  intros [Hc Hws]%andb_true_iff. by rewrite Hc, IH.
Qed.

Lemma skip_c_space_all (ws : str) :
  forallb c_isspace ws = true → skip_c_space ws = [].
Proof.
  intros Hws. rewrite <- (app_nil_r ws). by rewrite skip_c_space_app.
Qed.

Lemma digit_char_facts (d : N) :
  d < 10 →
  is_ascii_digit (48 + d) = true ∧ c_isspace (48 + d) = false
  ∧ (48 + d =? 95) = false ∧ 48 + d - 48 = d ∧ (48 + d <? 127) = true.
Proof.
  intros Hd. unfold is_ascii_digit, c_isspace, in_range. repeat split.
  - apply andb_true_iff. split; apply N.leb_le; lia.
  - apply orb_false_iff. split; [| apply N.eqb_neq; lia].
    apply andb_false_iff. right. apply N.leb_gt. lia.
  - apply N.eqb_neq. lia.
  - lia.
  - apply N.ltb_lt. lia.
Qed.

Lemma c_isspace_facts (c : N) :
  c_isspace c = true →
  is_ascii_digit c = false ∧ (c =? 95) = false ∧ (c <? 127) = true
  ∧ c ≠ 43 ∧ c ≠ 45.
Proof.
  unfold c_isspace, is_ascii_digit, in_range.
  intros [[H1 H2]%andb_true_iff | ->%N.eqb_eq]%orb_true_iff; [| done].
  apply N.leb_le in H1, H2. repeat split; try lia.
  - apply andb_false_iff. left. apply N.leb_gt. lia.
  - apply N.eqb_neq. lia.
  - apply N.ltb_lt. lia.
Qed.

(** The digit loop reads the rendered digits and stops at the blanks. *)
Lemma scan_digits_render (rest : list (bool * N)) (ws : str) (acc : Z) (n : N) :
  Forall (λ ud, ud.2 < 10) rest →
  forallb c_isspace ws = true →
  scan_digits false acc n (Spec.render_digits rest ++ ws)
  = Some (Spec.digits_value acc rest, n + N.of_nat (length rest), ws).
Proof.
  intros Hrest Hws. revert acc n.
  induction Hrest as [| [us d] rest Hd _ IH]; intros acc n.
  - cbn [Spec.render_digits Spec.digits_value app length].
    rewrite N.add_0_r. destruct ws as [| c ws]; [done |].
    cbn [forallb] in Hws. apply andb_true_iff in Hws as [Hc _].
    destruct (c_isspace_facts c Hc) as (Hdig & Hus & _).
    cbn [scan_digits]. by rewrite Hdig, Hus.
  - cbn [snd] in Hd. destruct (digit_char_facts d Hd) as (Hdig & _ & Hus & Hsub & _).
    cbn [Spec.render_digits Spec.digits_value length].
    replace (n + N.of_nat (S (length rest))) with (n + 1 + N.of_nat (length rest))
      by lia.
    rewrite <- (IH (acc * 10 + Z.of_N d)%Z (n + 1)), <- !app_assoc.
    destruct us; cbn [app scan_digits]; by rewrite ?Hdig, ?Hus, ?Hsub.
Qed.

Lemma render_digits_ascii (rest : list (bool * N)) :
  Forall (λ ud, ud.2 < 10) rest →
  forallb (λ c, c <? 127) (Spec.render_digits rest) = true.
Proof.
  induction 1 as [| [us d] rest Hd _ IH]; [done |].
  cbn [snd] in Hd. destruct (digit_char_facts d Hd) as (_ & _ & _ & _ & Hlt).
  cbn [Spec.render_digits]. rewrite !forallb_app. cbn [forallb].
  rewrite Hlt, IH. by destruct us.
Qed.

Lemma c_space_ascii (ws : str) :
  forallb c_isspace ws = true → forallb (λ c, c <? 127) ws = true.
Proof.
  induction ws as [| c ws IH]; [done |]. cbn [forallb].
  intros [Hc Hws]%andb_true_iff.
  destruct (c_isspace_facts c Hc) as (_ & _ & -> & _). by rewrite IH.
Qed.

Lemma int_literal (ws1 ws2 : str) (sign : option bool) (d0 : N)
    (rest : list (bool * N)) :
  forallb c_isspace ws1 = true → forallb c_isspace ws2 = true →
  d0 < 10 → Forall (λ ud, ud.2 < 10) rest → (length rest < 639)%nat →
  int (Spec.literal ws1 sign d0 rest ws2) = Ok (Spec.literal_value sign d0 rest).
Proof.
  intros Hws1 Hws2 Hd0 Hrest Hlen.
  destruct (digit_char_facts d0 Hd0) as (Hdig & Hsp & Hus & Hsub & Hlt).
  assert (Hscan :
    scan_digits false 0%Z 0 ((48 + d0) :: Spec.render_digits rest ++ ws2)
    = Some (Spec.digits_value (Z.of_N d0) rest,
            0 + 1 + N.of_nat (length rest), ws2)).
  { cbn [scan_digits]. rewrite Hdig, Hsub.
    apply (scan_digits_render _ _ _ _ Hrest Hws2). }
  assert (Hnz : (0 + 1 + N.of_nat (length rest) =? 0) = false)
    by (apply N.eqb_neq; lia).
  unfold int, Spec.literal. rewrite transform_ascii.
  2:{ rewrite !forallb_app, (c_space_ascii _ Hws1), (c_space_ascii _ Hws2),
        (render_digits_ascii _ Hrest). cbn [forallb]. rewrite Hlt.
      by destruct sign as [[|] |]. }
  unfold int_of_ascii. rewrite skip_c_space_app by done.
  unfold Spec.literal_value.
  destruct sign as [[|] |]; cbn [Spec.render_sign app skip_c_space].
  - replace (c_isspace 45) with false by done. cbn [read_sign N.eqb Pos.eqb].
    cbn [starts_with_underscore]. rewrite Hus, Hscan.
    by rewrite exceeds_limit_small, Hnz, skip_c_space_all by (done || lia).
  - replace (c_isspace 43) with false by done. cbn [read_sign N.eqb Pos.eqb].
    cbn [starts_with_underscore]. rewrite Hus, Hscan.
    by rewrite exceeds_limit_small, Hnz, skip_c_space_all by (done || lia).
  - rewrite Hsp. cbn [read_sign].
    replace (48 + d0 =? 43) with false by (symmetry; apply N.eqb_neq; lia).
    replace (48 + d0 =? 45) with false by (symmetry; apply N.eqb_neq; lia).
    cbn [starts_with_underscore]. rewrite Hus, Hscan.
    rewrite exceeds_limit_small, Hnz, skip_c_space_all by (done || lia).
    by rewrite Z.mul_1_l.
Qed.

(** C10: [validate_user_id] accepts whatever [int] parses to a positive
    value, which is more than canonical digit strings: blanks around the
    literal, a sign and single underscores between digits all parse, and
    [" +4_2 "] gives 42. *)
Theorem validate_user_id_accepts_int_syntax :
  (∀ (s : str) (n : Z), int s = Ok n → (0 < n)%Z → validate_user_id s = Ok n)
  ∧ (∀ (ws1 ws2 : str) (sign : option bool) (d0 : N) (rest : list (bool * N)),
       forallb c_isspace ws1 = true → forallb c_isspace ws2 = true →
       d0 < 10 → Forall (λ ud, ud.2 < 10) rest → (length rest < 639)%nat →
       int (Spec.literal ws1 sign d0 rest ws2)
       = Ok (Spec.literal_value sign d0 rest))
  ∧ Spec.literal (u " ") (Some false) 4 [(true, 2)] (u " ") = u " +4_2 "
  ∧ int (u "-42") = Ok (-42)%Z
  ∧ validate_user_id (u " +4_2 ") = Ok 42%Z.
Proof.
  split; [| split; [apply int_literal | repeat split; run_int]].
  intros s n Hint Hn.
  rewrite validate_user_id_unfold, Hint.
  destruct s; [destruct int_empty; congruence |].
  by destruct (Z.leb_spec n 0); [lia |].
Qed.

Lemma re_match_plus_forallb (cls : N → bool) (s : str) :
  cls 10 = true →
  re_match_plus cls s = match s with [] => false | _ => forallb cls s end.
Proof.
  intros Hnl. induction s as [| c t IH]; [done |].
  cbn [re_match_plus forallb]. rewrite IH. f_equal.
  destruct t as [| d [| d' t]]; cbn; [done | | done].
  rewrite andb_true_r. destruct (N.eqb_spec d 10) as [-> |]; by rewrite ?Hnl.
Qed.

(** The guard [not v or not isinstance(v, str)] lets through the non-empty
    strings only. *)
Lemma guard_str (v : pyval) :
  negb (truthy v) || negb (isinstance_str v)
  = match v with VStr (_ :: _) => false | _ => true end.
Proof.
  destruct v as [| b | z | m e | s | l | d]; cbn; rewrite ?orb_true_r; try done.
  by destruct s.
Qed.

Lemma name_char_newline : name_char 10 = true.
Proof. reflexivity. Qed.

(** C6: [validate_password] returns the password unchanged exactly when it
    is a string of 8 to 128 characters with a letter of [[a-zA-Z]] and a
    digit of [\d], and fails with a validation error otherwise; ["abc"]
    and ["12345678"] fail and ["abcdefg1"] is returned. *)
Theorem validate_password_cases :
  (∀ (v : pyval) (p : str),
     validate_password v = Ok p ↔
       v = VStr p ∧ (8 ≤ length p ≤ 128)%nat
       ∧ existsb is_ascii_letter p = true ∧ existsb re_digit p = true)
  ∧ (∀ v : pyval,
       (∃ p, validate_password v = Ok p)
       ∨ (∃ m, validate_password v = raise ValidationError m))
  ∧ validate_password (VStr (u "abc"))
    = raise ValidationError (u "Password must be at least 8 characters long")
  ∧ validate_password (VStr (u "abcdefg1")) = Ok (u "abcdefg1")
  ∧ validate_password (VStr (u "12345678"))
    = raise ValidationError (u "Password must contain at least one letter").
Proof.
  split; [| split; [| done]].
  - intros v p. unfold validate_password, re_search. rewrite guard_str.
    destruct v as [| b | z | m e | s | l | d];
      try (split; [done | by intros [? _]]).
    destruct s as [| c s]; [split; [done | intros ([= <-] & ? & _); cbn in *; lia] |].
    cbn [mbind result_bind bind as_str].
    destruct (Nat.ltb_spec (length (c :: s)) 8);
      [split; [done | intros ([= <-] & ? & _); lia] |].
    destruct (Nat.ltb_spec 128 (length (c :: s)));
      [split; [done | intros ([= <-] & ? & _); lia] |].
    destruct (existsb is_ascii_letter (c :: s)) eqn:Hl; cbn [negb];
      [| split; [done | intros ([= <-] & _ & ? & _); congruence]].
    destruct (existsb re_digit (c :: s)) eqn:Hd; cbn [negb];
      [| split; [done | intros ([= <-] & _ & _ & ?); congruence]].
    split; [intros [= <-]; repeat split; done || lia | by intros ([= <-] & _)].
  - intros v. unfold validate_password. rewrite guard_str.
    destruct v as [| b | z | m e | s | l | d]; try (right; by eexists).
    destruct s as [| c s]; [right; by eexists |].
    cbn [mbind result_bind bind as_str].
    repeat (case_match; [right; by eexists |]). left; by eexists.
Qed.

(** What a validated name or search term is: the stripped input, made of
    characters of the class only. *)
Lemma validate_name_Ok (v : pyval) (t : str) :
  validate_name v = Ok t ↔
    ∃ s, v = VStr s ∧ t = strip s ∧ (2 ≤ length t ≤ 100)%nat
         ∧ forallb name_char t = true.
Proof.
  unfold validate_name. rewrite guard_str.
  destruct v as [| b | z | m e | s | l | d];
    try (split; [done | by intros (? & ? & _)]).
  destruct s as [| c s].
  { split; [done | intros (? & [= <-] & -> & ? & _); cbn in *; lia]. }
  cbn [mbind result_bind bind as_str].
  rewrite (re_match_plus_forallb _ _ name_char_newline).
  destruct (Nat.ltb_spec (length (strip (c :: s))) 2);
    [split; [done | intros (? & [= <-] & -> & ? & _); lia] |].
  destruct (Nat.ltb_spec 100 (length (strip (c :: s))));
    [split; [done | intros (? & [= <-] & -> & ? & _); lia] |].
  destruct (strip (c :: s)) as [| c' s'] eqn:Hstrip; [cbn in *; lia |].
  destruct (forallb name_char (c' :: s')) eqn:Hall; cbn [negb].
  - split; [intros [= <-]; exists (c :: s); rewrite Hstrip; repeat split; done || lia |].
    intros (? & [= <-] & -> & _). by rewrite Hstrip.
  - split; [done |]. intros (? & [= <-] & -> & _ & Hall'). congruence.
Qed.

Lemma validate_search_name_Ok (v : pyval) (t : str) :
  validate_search_name v = Ok t →
  (1 ≤ length t ≤ 50)%nat ∧ forallb name_char t = true.
Proof.
  unfold validate_search_name. rewrite guard_str.
  destruct v as [| b | z | m e | s | l | d]; try done.
  destruct s as [| c s]; [done |].
  cbn [mbind result_bind bind as_str].
  rewrite (re_match_plus_forallb _ _ name_char_newline).
  destruct (Nat.ltb_spec (length (strip (c :: s))) 1); [done |].
  destruct (Nat.ltb_spec 50 (length (strip (c :: s)))); [done |].
  destruct (strip (c :: s)) as [| c' s'] eqn:Hstrip; [cbn in *; lia |].
  destruct (forallb name_char (c' :: s')) eqn:Hall; cbn [negb]; [| done].
  intros [= <-]. split; [lia | done].
Qed.

(** C5, as the code has it: [validate_name] returns the stripped input
    exactly when the input is a string whose stripped form has 2 to 100
    characters, each a letter of [[a-zA-Z]], a whitespace character of
    [\s], a hyphen or an apostrophe; every other input fails with a
    validation error.  The class is the specification's set with every
    whitespace character in place of the space. *)
Theorem validate_name_cases :
  (∀ (v : pyval) (t : str),
     validate_name v = Ok t ↔
       ∃ s, v = VStr s ∧ t = strip s ∧ (2 ≤ length t ≤ 100)%nat
            ∧ forallb name_char t = true)
  ∧ (∀ v : pyval,
       (∃ t, validate_name v = Ok t)
       ∨ (∃ m, validate_name v = raise ValidationError m))
  ∧ (∀ c : N, name_char c = Spec.name_char c || isspace c).
Proof.
  split; [apply validate_name_Ok | split].
  - intros v. unfold validate_name. rewrite guard_str.
    destruct v as [| b | z | m e | s | l | d]; try (right; by eexists).
    destruct s as [| c s]; [right; by eexists |].
    cbn [mbind result_bind bind as_str].
    repeat (case_match; [right; by eexists |]). left; by eexists.
  - intros c. unfold name_char, Spec.name_char.
    destruct (is_ascii_letter c), (isspace c) eqn:Hsp, (c =? 45), (c =? 39);
      cbn; rewrite ?orb_true_r; try done.
    destruct (N.eqb_spec c 32) as [-> |]; [done | done].
Qed.


(** ** LIKE and substring search *)

Lemma like_percent (p s : str) :
  like (37 :: p) s
  = like p s || match s with [] => false | _ :: s' => like (37 :: p) s' end.
Proof. by destruct s. Qed.

Lemma like_literal (c : N) (p s : str) :
  c ≠ 37 → c ≠ 95 →
  like (c :: p) s
  = match s with [] => false | d :: s' => like_eq c d && like p s' end.
Proof.
  intros H37 H95. cbn [like].
  destruct (N.eqb_spec c 37); [done |]. destruct (N.eqb_spec c 95); [done |].
  by destruct s.
Qed.

Lemma like_percent_only (s : str) : like [37] s = true.
Proof.
  induction s as [| c s IH]; [done |].
  rewrite like_percent. rewrite IH. apply orb_true_r.
Qed.

Lemma name_char_not_wildcard (c : N) : name_char c = true → c ≠ 37 ∧ c ≠ 95.
Proof. intros Hc. split; intros ->; discriminate Hc. Qed.

(** A term without wildcards followed by [%] matches the strings it is a
    prefix of. *)
Lemma like_prefix (t s : str) :
  forallb name_char t = true → like (t ++ [37]) s = Spec.prefix_ci t s.
Proof.
  revert s. induction t as [| a t IH]; intros s Hall.
  - cbn [app]. rewrite like_percent_only. by destruct s.
  - cbn [forallb] in Hall. apply andb_true_iff in Hall as [Ha Hall].
    destruct (name_char_not_wildcard _ Ha) as [H37 H95].
    cbn [app]. rewrite like_literal by done.
    destruct s as [| b s]; [done |]. cbn [Spec.prefix_ci]. by rewrite IH.
Qed.

Lemma like_contains (t s : str) :
  forallb name_char t = true →
  like ([37] ++ t ++ [37]) s = Spec.contains_ci t s.
Proof.
  intros Hall. cbn [app]. induction s as [| b s IH].
  - rewrite like_percent, like_prefix by done. done.
  - rewrite like_percent, like_prefix by done. cbn [Spec.contains_ci].
    by rewrite IH.
Qed.

(** [contains_ci] is the substring relation up to ASCII case. *)
Lemma prefix_ci_spec (t s : str) :
  Spec.prefix_ci t s = true ↔
    ∃ m post, s = m ++ post ∧ Forall2 (λ a b, ascii_lower a = ascii_lower b) t m.
Proof.
  revert s. induction t as [| a t IH]; intros s.
  - split; [intros _; exists [], s; by split | done].
  - destruct s as [| b s]; cbn [Spec.prefix_ci].
    + split; [done |]. intros (m & post & Hs & Hm).
      destruct m; [by inversion Hm | done].
    + rewrite andb_true_iff, IH. unfold Spec.ci_eq. rewrite N.eqb_eq. split.
      * intros (Hab & m & post & -> & Hm). exists (b :: m), post.
        split; [done | by constructor].
      * intros (m & post & Hs & Hm). inversion Hm as [| ? b' ? m' Hab Hm']; subst.
        injection Hs as <- ->. split; [done |]. by exists m', post.
Qed.

Lemma contains_ci_spec (t s : str) :
  Spec.contains_ci t s = true ↔
    ∃ pre m post,
      s = pre ++ m ++ post ∧ Forall2 (λ a b, ascii_lower a = ascii_lower b) t m.
Proof.
  induction s as [| b s IH]; cbn [Spec.contains_ci];
    rewrite orb_true_iff, prefix_ci_spec.
  - split.
    + intros [(m & post & Hs & Hm) | ?]; [| done]. by exists [], m, post.
    + intros (pre & m & post & Hs & Hm). left.
      destruct pre; [by exists m, post | done].
  - rewrite IH. split.
    + intros [(m & post & Hs & Hm) | (pre & m & post & -> & Hm)].
      * by exists [], m, post.
      * by exists (b :: pre), m, post.
    + intros (pre & m & post & Hs & Hm). destruct pre as [| b' pre].
      * left. by exists m, post.
      * right. injection Hs as <- ->. by exists pre, m, post.
Qed.

Lemma dict_public_no_hash (r : user_row) :
  dict_public r !! u "password_hash" = None.
Proof. unfold dict_public. by rewrite !lookup_insert_ne, lookup_empty. Qed.

(** C8: for a validated term and a store that answers,
    [search_users_by_name] returns the rows whose name has the term as a
    substring up to the case of ASCII letters, in table order, each as a
    dictionary of the five public columns, so without the password
    hash. *)
Theorem search_users_by_name_matches
    (db : database) (w : world) (raw : pyval) (term : str) :
  validate_search_name raw = Ok term →
  fault w 0 = None →
  DatabaseManager.search_users_by_name db w term
  = Ok (dict_public
          <$> filter (λ r, Spec.contains_ci term (row_name r) = true) (users db))
  ∧ (∀ r : user_row,
       Spec.contains_ci term (row_name r) = true ↔
         ∃ pre m post,
           row_name r = pre ++ m ++ post
           ∧ Forall2 (λ a b, ascii_lower a = ascii_lower b) term m)
  ∧ Forall (λ d : gmap str pyval, d !! u "password_hash" = None)
      (dict_public
         <$> filter (λ r, Spec.contains_ci term (row_name r) = true) (users db)).
Proof.
  intros [_ Hall]%validate_search_name_Ok Hfault. split; [| split].
  - unfold DatabaseManager.search_users_by_name, DatabaseManager.get_connection.
    rewrite Hfault. cbn. do 2 f_equal.
    apply list_filter_iff. intros r.
    by rewrite <- (like_contains _ _ Hall).
  - intros r. apply contains_ci_spec.
  - apply Forall_fmap, Forall_forall. intros r _. apply dict_public_no_hash.
Qed.

(** ** Responses *)

Import App.

Lemma issubclass_Exception (c : exn_class) : issubclass c Exception = true.
Proof. by destruct c. Qed.

Lemma error_shaped (m : str) (code : Z) :
  code ∈ Spec.error_codes → Spec.shaped (create_error_response m code).
Proof. intros Hcode. left. by exists m, code. Qed.

Lemma success_shaped (data : option pyval) (msg : str) (code : Z) :
  code ∈ [200; 201]%Z → Spec.data_hides_hash data = true →
  Spec.shaped (Response (create_success_response data msg) code).
Proof. intros Hcode Hdata. right. by exists data, msg, code. Qed.

Lemma bad_request_clause : Spec.error_clause bad_request.
Proof. intros e. eexists _, _. split; [done |]. set_solver. Qed.

Lemma conflict_clause : Spec.error_clause conflict.
Proof. intros e. eexists _, _. split; [done |]. set_solver. Qed.

Lemma failed_clause (m : string) : Spec.error_clause (failed m).
Proof. intros e. eexists _, _. split; [done |]. set_solver. Qed.

Lemma dispatch_shaped (e : exn) (pre : list (exn_class * (exn → result response)))
    (m : string) :
  Forall Spec.error_clause pre →
  ∃ r, dispatch e (pre ++ [failed m]) = Ok r ∧ Spec.shaped r.
Proof.
  induction 1 as [| [c h] pre Hcl _ IH]; cbn [app dispatch].
  - unfold failed at 1, on_error. rewrite issubclass_Exception.
    eexists. split; [done |]. apply error_shaped. set_solver.
  - destruct (issubclass (exn_cls e) c); [| done].
    destruct (Hcl e) as (m' & code & Hh & Hcode). cbn in Hh. rewrite Hh.
    eexists. split; [done |]. by apply error_shaped.
Qed.

(** A view whose body answers with shaped responses answers with shaped
    responses, whatever it raises. *)
Lemma view_shaped (run : result response)
    (pre : list (exn_class * (exn → result response))) (m : string) :
  Forall Spec.error_clause pre →
  (∀ r, run = Ok r → Spec.shaped r) →
  Spec.shaped (flask (try_except run (pre ++ [failed m]))).
Proof.
  intros Hpre Hrun. destruct run as [r | e]; cbn [try_except flask]; [by apply Hrun |].
  destruct (dispatch_shaped e pre m Hpre) as (r & -> & Hr). done.
Qed.

(** *** What the store methods return *)

Lemma four_fields_no_hash (a b c d : pyval) :
  Spec.no_hash (<[u "id" := a]> (<[u "name" := b]> (<[u "email" := c]>
                 (<[u "created_at" := d]> ∅)))) = true.
Proof.
  unfold Spec.no_hash. apply bool_decide_eq_true.
  by rewrite !lookup_insert_ne, lookup_empty.
Qed.

Lemma delete_no_hash (d : gmap str pyval) :
  Spec.no_hash (delete (u "password_hash") d) = true.
Proof. apply bool_decide_eq_true, lookup_delete_eq. Qed.

Lemma list_hides_hash (l : list (gmap str pyval)) :
  Forall (λ d, Spec.no_hash d = true) l →
  Spec.data_hides_hash (Some (VList (VDict <$> l))) = true.
Proof.
  intros Hl. cbn. induction Hl as [| d l Hd _ IH]; [done |].
  cbn. by rewrite Hd, IH.
Qed.

Lemma public_rows_no_hash (rows : list user_row) :
  Forall (λ d, Spec.no_hash d = true) (dict_public <$> rows).
Proof.
  apply Forall_fmap, Forall_forall. intros r _.
  apply bool_decide_eq_true, dict_public_no_hash.
Qed.

Lemma create_user_no_hash (db : database) (w : world) (name email : option str)
    (password : str) (user : gmap str pyval) :
  (DatabaseManager.create_user db w name email password).1 = Ok user →
  Spec.no_hash user = true.
Proof.
  unfold DatabaseManager.create_user.
  destruct (try_except _ _) as [[user' db'] | e] eqn:Hrun; cbn; [| done].
  intros [= <-]. revert Hrun.
  destruct (DatabaseManager.get_connection w 0); cbn; [| by repeat case_match].
  destruct (DatabaseManager.hash_password w password); cbn; [| by repeat case_match].
  destruct (sql_insert db w name email _) as [[db'' user_id] | e]; cbn;
    [| by repeat case_match].
  intros [= <- _]. apply four_fields_no_hash.
Qed.

Lemma get_all_users_no_hash (db : database) (w : world) (l : list (gmap str pyval)) :
  DatabaseManager.get_all_users db w = Ok l →
  Forall (λ d, Spec.no_hash d = true) l.
Proof.
  unfold DatabaseManager.get_all_users.
  destruct (DatabaseManager.get_connection w 0); cbn; [| by repeat case_match].
  intros [= <-]. apply public_rows_no_hash.
Qed.

Lemma search_users_by_name_no_hash (db : database) (w : world) (name : str)
    (l : list (gmap str pyval)) :
  DatabaseManager.search_users_by_name db w name = Ok l →
  Forall (λ d, Spec.no_hash d = true) l.
Proof.
  unfold DatabaseManager.search_users_by_name.
  destruct (DatabaseManager.get_connection w 0); cbn; [| by repeat case_match].
  intros [= <-]. apply public_rows_no_hash.
Qed.

Lemma authenticate_user_no_hash (db : database) (w : world) (email : str)
    (password : pyval) (user : gmap str pyval) :
  DatabaseManager.authenticate_user db w email password = Ok (Some user) →
  Spec.no_hash user = true.
Proof.
  unfold DatabaseManager.authenticate_user, DatabaseManager.reraise_clauses.
  destruct (DatabaseManager.get_user_by_email db w 0 email) as [[d |] | e];
    cbn; [| done | by repeat case_match].
  destruct (negb _); [| done].
  destruct (getitem d (u "password_hash") ≫= _) as [[|] | e]; cbn;
    [| done | by repeat case_match].
  destruct (getitem d (u "id")); cbn; [| by repeat case_match].
  destruct (getitem d (u "name")); cbn; [| by repeat case_match].
  destruct (getitem d (u "email")); cbn; [| by repeat case_match].
  destruct (getitem d (u "created_at")); cbn; [| by repeat case_match].
  intros [= <-]. apply four_fields_no_hash.
Qed.

(** *** Every view answers with a shaped response *)

Lemma ok_200_shaped (data : option pyval) (msg : str) :
  Spec.data_hides_hash data = true →
  Spec.shaped (ok_200 (create_success_response data msg)).
Proof. intros Hdata. apply success_shaped; [set_solver | done]. Qed.

Lemma codes_200 : (200 ∈ [200; 201])%Z.
Proof. set_solver. Qed.

Lemma codes_201 : (201 ∈ [200; 201])%Z.
Proof. set_solver. Qed.

Lemma codes_400 : (400 ∈ Spec.error_codes)%Z.
Proof. unfold Spec.error_codes. set_solver. Qed.

Lemma codes_401 : (401 ∈ Spec.error_codes)%Z.
Proof. unfold Spec.error_codes. set_solver. Qed.

Lemma codes_404 : (404 ∈ Spec.error_codes)%Z.
Proof. unfold Spec.error_codes. set_solver. Qed.

Lemma codes_405 : (405 ∈ Spec.error_codes)%Z.
Proof. unfold Spec.error_codes. set_solver. Qed.

Lemma codes_500 : (500 ∈ Spec.error_codes)%Z.
Proof. unfold Spec.error_codes. set_solver. Qed.

Create HintDb shaped.
#[local] Hint Resolve codes_200 codes_201 codes_400 codes_401 codes_404 codes_405
  codes_500 error_shaped success_shaped delete_no_hash : shaped.
#[local] Hint Resolve bad_request_clause conflict_clause failed_clause : shaped.

Lemma if_user_shaped (user : option (gmap str pyval))
    (yes : gmap str pyval → result response) (no r : response) :
  (∀ d r, user = Some d → yes d = Ok r → Spec.shaped r) →
  Spec.shaped no →
  if_user user yes (Ok no) = Ok r → Spec.shaped r.
Proof.
  intros Hyes Hno. unfold if_user.
  destruct user as [d |]; [destruct (truthy _); [by apply Hyes |] |];
    by intros [= <-].
Qed.

Lemma get_all_users_shaped (db : database) (w : world) :
  Spec.shaped (get_all_users db w).
Proof.
  apply (view_shaped _ []); [done |]. intros r.
  destruct (DatabaseManager.get_all_users db w) as [l |] eqn:Hl; cbn; [| done].
  intros [= <-]. by eapply ok_200_shaped, list_hides_hash, get_all_users_no_hash.
Qed.

Lemma get_user_shaped (user_id : str) (db : database) (w : world) :
  Spec.shaped (get_user user_id db w).
Proof.
  apply (view_shaped _ [_]); [auto with shaped |]. intros r.
  destruct (validate_user_id user_id); cbn; [| done].
  destruct (DatabaseManager.get_user_by_id db w 0 _) as [user |]; cbn; [| done].
  apply if_user_shaped; [| auto with shaped].
  intros d r' _ [= <-]. apply ok_200_shaped, delete_no_hash.
Qed.

Lemma create_user_shaped (req : request) (db : database) (w : world) :
  Spec.shaped (create_user req db w).1.
Proof.
  unfold create_user. cbn [fst].
  apply (view_shaped _ [_; _]); [auto with shaped |]. intros r.
  destruct (is_json req); cbn [negb fst]; [| intros [= <-]; auto with shaped].
  destruct (_ ≫= _) as [[[v_name v_email] v_password] |]; cbn [fst]; [| done].
  destruct (DatabaseManager.create_user db w _ _ _) as [[user |] db'] eqn:Hc;
    cbn; [| done].
  intros [= <-]. apply success_shaped; [auto with shaped |]. cbn.
  eapply create_user_no_hash. by rewrite Hc.
Qed.

Lemma update_user_shaped (user_id : str) (req : request) (db : database)
    (w : world) :
  Spec.shaped (update_user user_id req db w).1.
Proof.
  unfold update_user. cbn [fst].
  apply (view_shaped _ [_; _]); [auto with shaped |]. intros r.
  destruct (validate_user_id user_id); cbn [fst]; [| done].
  destruct (is_json req); cbn [negb fst]; [| intros [= <-]; auto with shaped].
  destruct (_ ≫= _) as [validated_data |]; cbn [fst]; [| done].
  destruct (DatabaseManager.update_user db w _ _ _) as [[updated |] db'];
    cbn; [| done].
  apply if_user_shaped; [| auto with shaped].
  intros d r' _ [= <-]. apply ok_200_shaped, delete_no_hash.
Qed.

Lemma delete_user_shaped (user_id : str) (db : database) (w : world) :
  Spec.shaped (delete_user user_id db w).1.
Proof.
  unfold delete_user. cbn [fst].
  apply (view_shaped _ [_]); [auto with shaped |]. intros r.
  destruct (validate_user_id user_id); cbn [fst]; [| done].
  destruct (DatabaseManager.delete_user db w _) as [[[|] |] db']; cbn;
    [| | done]; intros [= <-]; [by apply ok_200_shaped | auto with shaped].
Qed.

Lemma search_users_shaped (req : request) (db : database) (w : world) :
  Spec.shaped (search_users req db w).
Proof.
  apply (view_shaped _ [_]); [auto with shaped |]. intros r. cbn zeta.
  destruct (negb _); [intros [= <-]; auto with shaped |].
  destruct (validate_search_name _); cbn; [| done].
  destruct (DatabaseManager.search_users_by_name db w _) as [l |] eqn:Hl;
    cbn; [| done].
  intros [= <-].
  by eapply ok_200_shaped, list_hides_hash, search_users_by_name_no_hash.
Qed.

Lemma login_shaped (req : request) (db : database) (w : world) :
  Spec.shaped (login req db w).
Proof.
  apply (view_shaped _ [_]); [auto with shaped |]. intros r.
  destruct (is_json req); cbn [negb]; [| intros [= <-]; auto with shaped].
  destruct (get_json req); cbn; [| done].
  destruct (validate_login_data _); cbn; [| done].
  destruct (DatabaseManager.authenticate_user db w _ _) as [user |] eqn:Hauth;
    cbn; [| done].
  apply if_user_shaped; [| auto with shaped].
  intros d r' -> [= <-]. apply ok_200_shaped. cbn.
  by eapply authenticate_user_no_hash.
Qed.

Lemma handle_shaped (ep : endpoint) (req : request) (db : database) (w : world) :
  Spec.shaped (handle ep req db w).1.
Proof.
  destruct ep; cbn [handle fst];
    auto using get_all_users_shaped, get_user_shaped, create_user_shaped,
      update_user_shaped, delete_user_shaped, search_users_shaped, login_shaped.
  - by apply ok_200_shaped.
  - apply error_shaped; auto with shaped.
  - apply error_shaped; auto with shaped.
  - apply error_shaped; auto with shaped.
Qed.

Lemma success_lookup_data (data : option pyval) (msg : str) :
  create_success_response data msg !! u "data" = data.
Proof.
  unfold create_success_response. destruct data as [d |].
  - apply lookup_insert_eq.
  - by rewrite !lookup_insert_ne, lookup_empty.
Qed.

Lemma success_lookup_status (data : option pyval) (msg : str) :
  create_success_response data msg !! u "status" = Some (VStr (u "success")).
Proof.
  unfold create_success_response. destruct data as [d |].
  - rewrite lookup_insert_ne by done. apply lookup_insert_eq.
  - apply lookup_insert_eq.
Qed.

Lemma success_lookup_hash (data : option pyval) (msg : str) :
  create_success_response data msg !! u "password_hash" = None.
Proof.
  unfold create_success_response.
  destruct data as [d |]; by rewrite !lookup_insert_ne, lookup_empty.
Qed.

Lemma shaped_hides_hash (r : response) : Spec.shaped r → Spec.hides_hash r = true.
Proof.
  intros [(m & code & -> & _) | (data & msg & code & -> & _ & Hdata)].
  - done.
  - unfold Spec.hides_hash, Spec.no_hash. cbn [body].
    rewrite success_lookup_data, success_lookup_hash, Hdata. done.
Qed.

(** C1: the response of every view and error handler, for every request,
    store and world, has no [password_hash] field, neither in the envelope
    nor in the user record or records of its data; below the views,
    [create_user] and [authenticate_user] build their result without the
    field and [get_all_users] and [search_users_by_name] return the public
    columns only. *)
Theorem responses_hide_password_hash :
  (∀ (ep : endpoint) (req : request) (db : database) (w : world),
     Spec.hides_hash (handle ep req db w).1 = true)
  ∧ (∀ db w name email password user,
       (DatabaseManager.create_user db w name email password).1 = Ok user →
       user !! u "password_hash" = None)
  ∧ (∀ db w email password user,
       DatabaseManager.authenticate_user db w email password = Ok (Some user) →
       user !! u "password_hash" = None)
  ∧ (∀ db w l,
       DatabaseManager.get_all_users db w = Ok l →
       Forall (λ d : gmap str pyval, d !! u "password_hash" = None) l)
  ∧ (∀ db w name l,
       DatabaseManager.search_users_by_name db w name = Ok l →
       Forall (λ d : gmap str pyval, d !! u "password_hash" = None) l).
Proof.
  repeat split.
  - intros. apply shaped_hides_hash, handle_shaped.
  - intros * H. by eapply bool_decide_eq_true, create_user_no_hash.
  - intros * H. by eapply bool_decide_eq_true, authenticate_user_no_hash.
  - intros * H%get_all_users_no_hash. eapply Forall_impl; [done |].
    intros d Hd. by apply bool_decide_eq_true in Hd.
  - intros * H%search_users_by_name_no_hash. eapply Forall_impl; [done |].
    intros d Hd. by apply bool_decide_eq_true in Hd.
Qed.

(** C4, as the code has it: every response of a view or error handler
    that is an error (a status of 400 or more, or the status field
    ["error"]) is the envelope with exactly the two keys [error], carrying
    the description, and [status], with one of the codes 400, 401, 404,
    405, 409 and 500; it has no key [message]. *)
Theorem error_envelope
    (ep : endpoint) (req : request) (db : database) (w : world) :
  let r := (handle ep req db w).1 in
  (400 ≤ status_code r)%Z ∨ body r !! u "status" = Some (VStr (u "error")) →
  ∃ m : str,
    body r = <[u "error" := VStr m]> (<[u "status" := VStr (u "error")]> ∅)
    ∧ status_code r ∈ Spec.error_codes
    ∧ body r !! u "error" = Some (VStr m)
    ∧ body r !! u "status" = Some (VStr (u "error"))
    ∧ body r !! u "message" = None.
Proof.
  intros r Herr.
  destruct (handle_shaped ep req db w)
    as [(m & code & Hr & Hcode) | (data & msg & code & Hr & Hcode & _)];
    fold r in Hr; rewrite Hr in *.
  - exists m. by repeat split.
  - exfalso. cbn [body status_code] in Herr. destruct Herr as [Hge | Hst].
    + repeat (apply elem_of_cons in Hcode as [-> | Hcode]; [lia |]).
      by apply elem_of_nil in Hcode.
    + rewrite success_lookup_status in Hst. by injection Hst.
Qed.

(** ** Authentication *)

Lemma try_reraise {A} (m : result A) (c : exn_class) :
  try_except m (DatabaseManager.reraise_clauses c) = m.
Proof. destruct m as [a | e]; [done |]. cbn. by destruct (issubclass _ _). Qed.

Lemma dict_all_truthy (r : user_row) : truthy (VDict (dict_all r)) = true.
Proof.
  cbn. apply negb_true_iff, bool_decide_eq_false. apply insert_non_empty.
Qed.

Lemma dict_all_hash (r : user_row) :
  getitem (dict_all r) (u "password_hash") = Ok (VStr (row_password_hash r)).
Proof. unfold getitem, dict_all. by rewrite lookup_insert_eq. Qed.

Lemma dict_all_id (r : user_row) :
  getitem (dict_all r) (u "id") = Ok (VInt (row_id r)).
Proof.
  unfold getitem, dict_all, dict_public.
  rewrite lookup_insert_ne by done. by rewrite lookup_insert_eq.
Qed.

Lemma dict_all_name (r : user_row) :
  getitem (dict_all r) (u "name") = Ok (VStr (row_name r)).
Proof.
  unfold getitem, dict_all, dict_public.
  rewrite !lookup_insert_ne by done. by rewrite lookup_insert_eq.
Qed.

Lemma dict_all_email (r : user_row) :
  getitem (dict_all r) (u "email") = Ok (VStr (row_email r)).
Proof.
  unfold getitem, dict_all, dict_public.
  rewrite !lookup_insert_ne by done. by rewrite lookup_insert_eq.
Qed.

Lemma dict_all_created_at (r : user_row) :
  getitem (dict_all r) (u "created_at") = Ok (VStr (row_created_at r)).
Proof.
  unfold getitem, dict_all, dict_public.
  rewrite !lookup_insert_ne by done. by rewrite lookup_insert_eq.
Qed.

(** What [authenticate_user] does when the store answers. *)
Lemma authenticate_user_unfold (db : database) (w : world) (email : str)
    (password : pyval) :
  fault w 0 = None →
  DatabaseManager.authenticate_user db w email password =
    match find (λ r, bool_decide (row_email r = email)) (users db) with
    | None => Ok None
    | Some r =>
        match DatabaseManager.verify_password password
                (VStr (row_password_hash r)) with
        | Ok true =>
            Ok (Some (<[u "id" := VInt (row_id r)]>
                      (<[u "name" := VStr (row_name r)]>
                       (<[u "email" := VStr (row_email r)]>
                        (<[u "created_at" := VStr (row_created_at r)]> ∅)))))
        | Ok false => Ok None
        | Raise e => Raise e
        end
    end.
Proof.
  intros Hfault. unfold DatabaseManager.authenticate_user. rewrite try_reraise.
  unfold DatabaseManager.get_user_by_email, DatabaseManager.get_connection.
  rewrite Hfault, try_reraise. cbn [mbind result_bind bind].
  destruct (find _ _) as [r |]; cbn [fmap option_fmap option_map]; [| done].
  rewrite dict_all_truthy, dict_all_hash. cbn [mbind result_bind bind].
  destruct (DatabaseManager.verify_password _ _) as [[|] | e]; [| done | done].
  by rewrite dict_all_id, dict_all_name, dict_all_email, dict_all_created_at.
Qed.

(** What [login] does with a request that validates. *)
Lemma login_unfold (req : request) (data : pyval) (ld : login_data)
    (db : database) (w : world) :
  is_json req = true →
  get_json req = Ok data →
  validate_login_data data = Ok ld →
  login req db w =
    match DatabaseManager.authenticate_user db w (ld_email ld) (ld_password ld) with
    | Ok (Some user) =>
        if truthy (VDict user)
        then ok_200 (create_success_response (Some (VDict user))
                       (u "Login successful"))
        else create_error_response (u "Invalid email or password") 401
    | Ok None => create_error_response (u "Invalid email or password") 401
    | Raise e =>
        if issubclass (exn_cls e) ValidationError
        then create_error_response (exn_msg e) 400
        else create_error_response (u "Failed to authenticate user") 500
    end.
Proof.
  intros Hjson Hdata Hld. unfold login. rewrite Hjson, Hdata. cbn [negb].
  cbn [mbind result_bind bind]. rewrite Hld. cbn [mbind result_bind bind].
  destruct (DatabaseManager.authenticate_user _ _ _ _) as [[user |] | e]; cbn.
  - by destruct (negb _).
  - done.
  - destruct (issubclass _ ValidationError); [done |].
    by rewrite issubclass_Exception.
Qed.

(** X29: with the store answering, [authenticate_user] returns [None]
    both when no user has the e-mail and when a user has it and
    [verify_password] returns [False], and [login] answers a [None] with
    the 401 response "Invalid email or password"; when [verify_password]
    returns [True] the result is the user's id, name, e-mail and creation
    time, without the hash, and [login] returns it with status 200; when
    authentication raises, [login] answers 400 for a validation error and
    500 "Failed to authenticate user" for anything else. *)
Theorem authentication_failures_are_uniform :
  (∀ (db : database) (w : world) (email : str) (password : pyval),
     fault w 0 = None →
     match find (λ r, bool_decide (row_email r = email)) (users db) with
     | None => DatabaseManager.authenticate_user db w email password = Ok None
     | Some r =>
         (DatabaseManager.verify_password password (VStr (row_password_hash r))
          = Ok false →
          DatabaseManager.authenticate_user db w email password = Ok None)
         ∧ (DatabaseManager.verify_password password (VStr (row_password_hash r))
            = Ok true →
            ∃ user,
              DatabaseManager.authenticate_user db w email password
              = Ok (Some user)
              ∧ user = <[u "id" := VInt (row_id r)]>
                       (<[u "name" := VStr (row_name r)]>
                        (<[u "email" := VStr (row_email r)]>
                         (<[u "created_at" := VStr (row_created_at r)]> ∅)))
              ∧ user !! u "password_hash" = None)
     end)
  ∧ (∀ (req : request) (data : pyval) (ld : login_data) (db : database)
       (w : world),
       is_json req = true →
       get_json req = Ok data →
       validate_login_data data = Ok ld →
       match DatabaseManager.authenticate_user db w (ld_email ld)
               (ld_password ld) with
       | Ok None =>
           login req db w
           = create_error_response (u "Invalid email or password") 401
       | Ok (Some user) =>
           login req db w
           = ok_200 (create_success_response (Some (VDict user))
                       (u "Login successful"))
       | Raise e =>
           login req db w
           = (if issubclass (exn_cls e) ValidationError
              then create_error_response (exn_msg e) 400
              else create_error_response (u "Failed to authenticate user") 500)
       end).
Proof.
  split.
  - intros db w email password Hfault.
    rewrite (authenticate_user_unfold _ _ _ _ Hfault).
    destruct (find _ _) as [r |]; [| done]. split.
    + by intros ->.
    + intros ->. eexists. split; [done |]. split; [done |].
      by rewrite !lookup_insert_ne, lookup_empty.
  - intros req data ld db w Hjson Hdata Hld.
    rewrite (login_unfold _ _ _ _ _ Hjson Hdata Hld).
    destruct (DatabaseManager.authenticate_user _ _ _ _) as [[user |] | e]
      eqn:Hauth; [| done | done].
    pose proof (authenticate_user_no_hash _ _ _ _ _ Hauth) as Hno.
    destruct (truthy (VDict user)) eqn:Htruthy; [done |].
    exfalso. cbn in Htruthy. apply negb_false_iff, bool_decide_eq_true in Htruthy.
    subst user. revert Hauth. clear.
    unfold DatabaseManager.authenticate_user. rewrite try_reraise.
    destruct (DatabaseManager.get_user_by_email _ _ _ _) as [[d |] | e]; cbn;
      [| done | done].
    destruct (negb _); [| done].
    destruct (getitem d (u "password_hash") ≫= _) as [[|] | e]; cbn;
      [| done | done].
    destruct (getitem d (u "id")); cbn; [| done].
    destruct (getitem d (u "name")); cbn; [| done].
    destruct (getitem d (u "email")); cbn; [| done].
    destruct (getitem d (u "created_at")); cbn; [| done].
    intros [= Hins]; by apply insert_non_empty in Hins.
Qed.

(** C2, where the code departs from the claim: [login] passes the password
    on without validating it, and [authenticate_user] calls
    [verify_password] only when a user has the e-mail.  For a password
    that cannot be encoded (a string with a surrogate code point, or a
    JSON value that is not a string) verification raises, so a known
    e-mail is answered 500 "Failed to authenticate user" and an unknown
    one 401 "Invalid email or password": the two failures are told
    apart. *)
Theorem login_reveals_known_email
    (req : request) (data : pyval) (ld : login_data) (db : database) (w : world) :
  is_json req = true → get_json req = Ok data →
  validate_login_data data = Ok ld →
  fault w 0 = None →
  (isinstance_str (ld_password ld) = false
   ∨ ∃ s, ld_password ld = VStr s
          ∧ forallb (λ c, negb (in_range 55296 57343 c)) s = false) →
  match find (λ r, bool_decide (row_email r = ld_email ld)) (users db) with
  | None =>
      DatabaseManager.authenticate_user db w (ld_email ld) (ld_password ld)
      = Ok None
      ∧ login req db w
        = create_error_response (u "Invalid email or password") 401
  | Some _ =>
      (∃ ex, DatabaseManager.authenticate_user db w (ld_email ld) (ld_password ld)
             = Raise ex)
      ∧ login req db w
        = create_error_response (u "Failed to authenticate user") 500
  end.
Proof.
  intros Hjson Hdata Hld Hfault Hpw.
  rewrite (login_unfold _ _ _ _ _ Hjson Hdata Hld).
  rewrite (authenticate_user_unfold _ _ _ _ Hfault).
  destruct (find _ _) as [r |]; [| done].
  unfold DatabaseManager.verify_password.
  destruct Hpw as [Hstr | (s & -> & Hsur)].
  - destruct (ld_password ld); try done; split; by eexists.
  - cbn [as_str mbind result_bind bind]. unfold encode_utf8. rewrite Hsur.
    split; [by eexists | done].
Qed.

(** ** Creating and updating users *)

Lemma validate_create_user_data_Ok (data : pyval) (vd : gmap str str) :
  validate_create_user_data data = Ok vd →
  ∃ (d : gmap str pyval) (v_name v_email v_password : pyval) (n e p : str),
    data = VDict d
    ∧ d !! u "name" = Some v_name ∧ validate_name v_name = Ok n
    ∧ d !! u "email" = Some v_email ∧ validate_email v_email = Ok e
    ∧ d !! u "password" = Some v_password ∧ validate_password v_password = Ok p
    ∧ vd = <[u "name" := n]> (<[u "email" := e]> (<[u "password" := p]> ∅)).
Proof.
  unfold validate_create_user_data.
  destruct data as [| b | z | m e | s | l | d]; try done.
  cbn [isinstance_dict negb as_dict mbind result_bind bind check_required].
  unfold getitem.
  destruct (d !! u "name") as [v_name |] eqn:Hdn; [| done].
  destruct (d !! u "email") as [v_email |] eqn:Hde; [| done].
  destruct (d !! u "password") as [v_password |] eqn:Hdp; [| done].
  cbn [mbind result_bind bind].
  destruct (validate_name v_name) as [n |] eqn:Hn; [| done].
  destruct (validate_email v_email) as [e |] eqn:He; [| done].
  destruct (validate_password v_password) as [p |] eqn:Hp; [| done].
  cbn [mbind result_bind bind].
  intros [= <-]. by exists d, v_name, v_email, v_password, n, e, p.
Qed.

Lemma validated_fields (n e p : str) :
  let vd : gmap str str :=
    <[u "name" := n]> (<[u "email" := e]> (<[u "password" := p]> ∅)) in
  getitem vd (u "name") = Ok n
  ∧ getitem vd (u "email") = Ok e
  ∧ getitem vd (u "password") = Ok p.
Proof.
  unfold getitem. by repeat split.
Qed.

(** What the view [create_user] does with a request that validates. *)
Lemma create_user_unfold (req : request) (data : pyval) (n e p : str)
    (db : database) (w : world) :
  is_json req = true →
  get_json req = Ok data →
  validate_create_user_data data
  = Ok (<[u "name" := n]> (<[u "email" := e]> (<[u "password" := p]> ∅))) →
  create_user req db w =
    match DatabaseManager.create_user db w (Some n) (Some e) p with
    | (Ok user, db') =>
        (Response (create_success_response (Some (VDict user))
                     (u "User created successfully")) 201, db')
    | (Raise ex, db') =>
        (flask (dispatch ex [bad_request; conflict; failed "Failed to create user"]),
         db')
    end.
Proof.
  intros Hjson Hdata Hvd. unfold create_user. rewrite Hjson, Hdata. cbn [negb].
  cbn [mbind result_bind bind]. rewrite Hvd. cbn [mbind result_bind bind].
  destruct (validated_fields n e p) as (-> & -> & ->).
  cbn [mbind result_bind bind].
  by destruct (DatabaseManager.create_user db w _ _ p) as [[user | ex] db'].
Qed.

Lemma existsb_elem_of {A} (f : A → bool) (l : list A) :
  existsb f l = true ↔ ∃ x, x ∈ l ∧ f x = true.
Proof.
  rewrite existsb_exists. by setoid_rewrite list_elem_of_In.
Qed.

Lemma existsb_none {A} (f : A → bool) (l : list A) :
  (∀ x, x ∈ l → f x = false) → existsb f l = false.
Proof.
  intros Hall. apply not_true_iff_false. rewrite existsb_elem_of.
  intros (x & Hx & Hfx). by rewrite (Hall x Hx) in Hfx.
Qed.

(** Every failure of the INSERT statement is an integrity error. *)
Lemma insert_user_raises (db : database) (w : world)
    (name email password_hash : option str) (ex : exn) :
  sql_insert db w name email password_hash = Raise ex →
  exn_cls ex = sqlite3_IntegrityError.
Proof.
  unfold sql_insert, integrity_error, raise.
  repeat case_match; by intros [= <-].
Qed.

Lemma integrity_error_converted {A} (body : result A) (ex : exn) :
  body = Raise ex →
  issubclass (exn_cls ex) sqlite3_IntegrityError = true →
  try_except body DatabaseManager.integrity_clauses
  = raise ValueError (u "Email already exists").
Proof. intros -> Hcls. cbn. by rewrite Hcls. Qed.

Lemma create_user_integrity (db : database) (w : world)
    (name email : option str) (password h : str) (ex : exn) :
  fault w 0 = None →
  DatabaseManager.hash_password w password = Ok h →
  sql_insert db w name email (Some h) = Raise ex →
  DatabaseManager.create_user db w name email password
  = (raise ValueError (u "Email already exists"), db).
Proof.
  intros Hfault Hhash Hins.
  unfold DatabaseManager.create_user, DatabaseManager.get_connection.
  rewrite Hfault. cbn [mbind result_bind bind]. rewrite Hhash.
  cbn [mbind result_bind bind]. rewrite Hins. cbn [mbind result_bind bind].
  rewrite (integrity_error_converted _ ex); [done | done |].
  by rewrite (insert_user_raises _ _ _ _ _ _ Hins).
Qed.

Lemma create_user_fresh (db : database) (w : world) (n e p h : str) :
  fault w 0 = None →
  DatabaseManager.hash_password w p = Ok h →
  (∀ r, r ∈ users db → row_email r ≠ e) →
  let rowid := (Z.max (sqlite_sequence db) (max_rowid (users db)) + 1)%Z in
  DatabaseManager.create_user db w (Some n) (Some e) p
  = (Ok (<[u "id" := VInt rowid]>
         (<[u "name" := VStr n]>
          (<[u "email" := VStr e]>
           (<[u "created_at" := VStr (datetime_now_isoformat w)]> ∅)))),
     Database (users db
               ++ [UserRow rowid n e h (current_timestamp w) (current_timestamp w)])
              rowid).
Proof.
  intros Hfault Hhash Hfresh rowid.
  unfold DatabaseManager.create_user, DatabaseManager.get_connection, sql_insert.
  rewrite Hfault. cbn [mbind result_bind bind]. rewrite Hhash.
  cbn [mbind result_bind bind].
  rewrite existsb_none; [done |].
  intros r Hr. apply bool_decide_eq_false. by apply Hfresh.
Qed.

Lemma insert_user_duplicate (db : database) (w : world) (n e h : str) (r : user_row) :
  r ∈ users db → row_email r = e →
  sql_insert db w (Some n) (Some e) (Some h)
  = integrity_error "UNIQUE constraint failed: users.email".
Proof.
  intros Hr He. unfold sql_insert.
  replace (existsb _ _) with true; [done |].
  symmetry. apply existsb_elem_of. exists r. split; [done |].
  by apply bool_decide_eq_true.
Qed.


Lemma update_user_integrity (db : database) (w : world) (user_id : Z)
    (name email : option str) (ex : exn) :
  fault w 0 = None →
  bind_int user_id = Ok user_id →
  sql_update db w user_id name email = Raise ex →
  DatabaseManager.update_user db w user_id name email
  = (raise ValueError (u "Email already exists"), db).
Proof.
  intros Hfault Hbind Hupd.
  assert (Hcls : exn_cls ex = sqlite3_IntegrityError).
  { revert Hupd. unfold sql_update, integrity_error, raise.
    case_match; [by intros [= <-] | done]. }
  assert (Hsome : email ≠ None).
  { intros ->. by cbn in Hupd. }
  unfold DatabaseManager.update_user, DatabaseManager.get_connection.
  rewrite Hfault, Hbind. cbn [mbind result_bind bind]. rewrite Hupd.
  destruct name, email; try done; cbn [fst snd];
    by rewrite (integrity_error_converted _ ex) by (done || by rewrite Hcls).
Qed.

Lemma validate_email_normalizes (s : str) :
  s ≠ [] →
  validate_email (VStr s) =
    try_except (email_validator_normalized (lower (strip s)))
      [(EmailNotValidError,
        λ e, raise ValidationError (u "Invalid email format: " ++ exn_msg e))].
Proof. intros Hs. unfold validate_email. rewrite guard_str. by destruct s. Qed.

(** C3: creating a user whose normalized e-mail is already in the table
    fails in the store with [ValueError("Email already exists")], which is
    neither a [sqlite3.Error] nor a validation error, and leaves the table
    as it was; the view answers 409 with that message.  With no such row
    the create succeeds with 201 and adds a row with the e-mail, so that a
    second create with the same normalized e-mail is the conflict.  Two
    raw addresses that agree after stripping and lowercasing validate to
    the same result.  An update that gives a row the e-mail of another row
    fails with the same [ValueError]. *)
Theorem duplicate_email_is_conflict :
  (∀ (db : database) (w : world) (n e p h : str) (r : user_row),
     fault w 0 = None →
     DatabaseManager.hash_password w p = Ok h →
     r ∈ users db → row_email r = e →
     DatabaseManager.create_user db w (Some n) (Some e) p
     = (raise ValueError (u "Email already exists"), db))
  ∧ issubclass ValueError sqlite3_Error = false
  ∧ issubclass ValueError ValidationError = false
  ∧ (∀ (req : request) (data : pyval) (vd : gmap str str) (e p h : str)
       (db : database) (w : world) (r : user_row),
       is_json req = true → get_json req = Ok data →
       validate_create_user_data data = Ok vd →
       vd !! u "email" = Some e → vd !! u "password" = Some p →
       fault w 0 = None → DatabaseManager.hash_password w p = Ok h →
       r ∈ users db → row_email r = e →
       create_user req db w
       = (create_error_response (u "Email already exists") 409, db))
  ∧ (∀ (req : request) (data : pyval) (vd : gmap str str) (e p h : str)
       (db : database) (w : world),
       is_json req = true → get_json req = Ok data →
       validate_create_user_data data = Ok vd →
       vd !! u "email" = Some e → vd !! u "password" = Some p →
       fault w 0 = None → DatabaseManager.hash_password w p = Ok h →
       (∀ r, r ∈ users db → row_email r ≠ e) →
       ∃ (resp : response) (db' : database) (r' : user_row),
         create_user req db w = (resp, db')
         ∧ status_code resp = 201%Z
         ∧ body resp !! u "status" = Some (VStr (u "success"))
         ∧ r' ∈ users db' ∧ row_email r' = e)
  ∧ (∀ s1 s2 : str,
       s1 ≠ [] → s2 ≠ [] → lower (strip s1) = lower (strip s2) →
       validate_email (VStr s1) = validate_email (VStr s2))
  ∧ (∀ (db : database) (w : world) (user_id : Z) (name : option str) (e : str)
       (r1 r2 : user_row),
       fault w 0 = None → bind_int user_id = Ok user_id →
       r1 ∈ users db → row_id r1 = user_id →
       r2 ∈ users db → row_id r2 ≠ user_id → row_email r2 = e →
       DatabaseManager.update_user db w user_id name (Some e)
       = (raise ValueError (u "Email already exists"), db)).
Proof.
  assert (Hstore : ∀ db w n e p h r,
             fault w 0 = None → DatabaseManager.hash_password w p = Ok h →
             r ∈ users db → row_email r = e →
             DatabaseManager.create_user db w (Some n) (Some e) p
             = (raise ValueError (u "Email already exists"), db)).
  { intros db w n e p h r Hfault Hhash Hr He.
    eapply create_user_integrity; [done | done |].
    by eapply insert_user_duplicate. }
  split; [exact Hstore |]. split; [done |]. split; [done |].
  split; [| split; [| split]].
  - intros req data vd e p h db w r Hjson Hdata Hvd Hve Hvp Hfault Hhash Hr He.
    destruct (validate_create_user_data_Ok _ _ Hvd)
      as (d & ? & ? & ? & n & e' & p' & _ & _ & _ & _ & _ & _ & _ & ->).
    rewrite lookup_insert_ne, lookup_insert_eq in Hve by done.
    rewrite !lookup_insert_ne, lookup_insert_eq in Hvp by done.
    injection Hve as ->. injection Hvp as ->.
    rewrite (create_user_unfold _ _ _ _ _ _ _ Hjson Hdata Hvd).
    by rewrite (Hstore _ _ _ _ _ _ _ Hfault Hhash Hr He).
  - intros req data vd e p h db w Hjson Hdata Hvd Hve Hvp Hfault Hhash Hfresh.
    destruct (validate_create_user_data_Ok _ _ Hvd)
      as (d & ? & ? & ? & n & e' & p' & _ & _ & _ & _ & _ & _ & _ & ->).
    rewrite lookup_insert_ne, lookup_insert_eq in Hve by done.
    rewrite !lookup_insert_ne, lookup_insert_eq in Hvp by done.
    injection Hve as ->. injection Hvp as ->.
    rewrite (create_user_unfold _ _ _ _ _ _ _ Hjson Hdata Hvd).
    rewrite (create_user_fresh _ _ n _ _ _ Hfault Hhash Hfresh).
    eexists _, _, _. split; [done |]. split; [done |].
    split; [apply success_lookup_status |]. cbn [users]. split.
    + apply elem_of_app. right. by apply list_elem_of_singleton.
    + done.
  - intros s1 s2 Hs1 Hs2 Heq.
    by rewrite !validate_email_normalizes, Heq.
  - intros db w user_id name e r1 r2 Hfault Hbind Hr1 Hid1 Hr2 Hid2 He.
    eapply update_user_integrity; [done | done |].
    unfold sql_update.
    replace (existsb _ _ && existsb _ _) with true; [done |].
    symmetry. apply andb_true_iff. split; apply existsb_elem_of.
    + exists r1. split; [done |]. by apply Z.eqb_eq.
    + exists r2. split; [done |]. apply andb_true_iff. split.
      * by apply negb_true_iff, Z.eqb_neq.
      * by apply bool_decide_eq_true.
Qed.


End Properties.


(** * Further properties *)

Section Further.
Context {P : Platform}.
Import UserValidator App.

(** ** Stripping *)

Lemma lstrip_skip (l : str) (c : N) (m : str) :
  isspace c = false → lstrip (l ++ c :: m) = lstrip l ++ c :: m.
Proof.
  intros Hc. induction l as [| a l IH]; cbn [app lstrip]; [by rewrite Hc |].
  by destruct (isspace a).
Qed.

Lemma lstrip_idemp (s : str) : lstrip (lstrip s) = lstrip s.
Proof.
  induction s as [| c s IH]; [done |]. cbn [lstrip].
  destruct (isspace c) eqn:Hc; [done |]. cbn [lstrip]. by rewrite Hc.
Qed.

Lemma lstrip_head (s : str) (c : N) (t : str) :
  lstrip s = c :: t → isspace c = false.
Proof.
  induction s as [| a s IH]; [done |]. cbn [lstrip].
  destruct (isspace a) eqn:Ha; [done |]. by intros [= <- _].
Qed.

Lemma rstrip_cons (c : N) (t : str) :
  isspace c = false → rstrip (c :: t) = c :: rstrip t.
Proof.
  intros Hc. unfold rstrip. cbn [rev]. rewrite (lstrip_skip _ _ [] Hc).
  by rewrite rev_app_distr.
Qed.

Lemma rstrip_idemp (s : str) : rstrip (rstrip s) = rstrip s.
Proof. unfold rstrip. by rewrite rev_involutive, lstrip_idemp. Qed.

Lemma strip_idemp (s : str) : strip (strip s) = strip s.
Proof.
  unfold strip. destruct (lstrip s) as [| c t] eqn:Hl; [done |].
  pose proof (lstrip_head _ _ _ Hl) as Hc.
  rewrite (rstrip_cons _ _ Hc). cbn [lstrip]. rewrite Hc.
  by rewrite (rstrip_cons _ _ Hc), rstrip_idemp.
Qed.

(** A stripped string neither starts nor ends with whitespace. *)
Lemma strip_ends (s : str) (c : N) :
  head (strip s) = Some c ∨ last (strip s) = Some c → isspace c = false.
Proof.
  unfold strip. destruct (lstrip s) as [| a t] eqn:Hl; [by intros [|] |].
  pose proof (lstrip_head _ _ _ Hl) as Ha. rewrite (rstrip_cons _ _ Ha).
  intros [[= <-] | Hlast]; [done |].
  rewrite <- (rstrip_cons _ _ Ha) in Hlast.
  apply last_Some in Hlast as [l' Hl']. unfold rstrip in Hl'.
  apply (f_equal (@rev N)) in Hl'.
  rewrite rev_involutive, rev_app_distr in Hl'. cbn [rev app] in Hl'.
  by eapply lstrip_head.
Qed.

(** ** Validators *)

Lemma validate_search_name_iff (v : pyval) (t : str) :
  validate_search_name v = Ok t ↔
    ∃ s, v = VStr s ∧ t = strip s ∧ (1 ≤ length t ≤ 50)%nat
         ∧ forallb name_char t = true.
Proof.
  unfold validate_search_name. rewrite guard_str.
  destruct v as [| b | z | m e | s | l | d];
    try (split; [done | by intros (? & ? & _)]).
  destruct s as [| c s].
  { split; [done | intros (? & [= <-] & -> & ? & _); cbn in *; lia]. }
  cbn [mbind result_bind bind as_str].
  rewrite (re_match_plus_forallb _ _ name_char_newline).
  destruct (Nat.ltb_spec (length (strip (c :: s))) 1);
    [split; [done | intros (? & [= <-] & -> & ? & _); lia] |].
  destruct (Nat.ltb_spec 50 (length (strip (c :: s))));
    [split; [done | intros (? & [= <-] & -> & ? & _); lia] |].
  destruct (strip (c :: s)) as [| c' s'] eqn:Hstrip; [cbn in *; lia |].
  destruct (forallb name_char (c' :: s')) eqn:Hall; cbn [negb].
  - split; [intros [= <-]; exists (c :: s); rewrite Hstrip; repeat split; done || lia |].
    intros (? & [= <-] & -> & _). by rewrite Hstrip.
  - split; [done |]. intros (? & [= <-] & -> & _ & Hall'). congruence.
Qed.

(** X1: a search term that [validate_search_name] returns is the stripped
    input, has 1 to 50 characters, none of them a LIKE wildcard ([%] or
    [_]), and neither starts nor ends with whitespace; every other input
    fails with a validation error. *)
Theorem validate_search_name_result :
  (∀ (v : pyval) (t : str),
     validate_search_name v = Ok t →
     (∃ s, v = VStr s ∧ t = strip s)
     ∧ (1 ≤ length t ≤ 50)%nat
     ∧ Forall (λ c, c ≠ 37 ∧ c ≠ 95) t
     ∧ (∀ c, head t = Some c ∨ last t = Some c → isspace c = false))
  ∧ (∀ (s : str),
       (1 ≤ length (strip s) ≤ 50)%nat →
       forallb name_char (strip s) = true →
       validate_search_name (VStr s) = Ok (strip s))
  ∧ (∀ v : pyval,
       (∃ t, validate_search_name v = Ok t)
       ∨ (∃ m, validate_search_name v = raise ValidationError m)).
Proof.
  split; [| split].
  - intros v t (s & -> & -> & Hlen & Hall)%validate_search_name_iff.
    split; [by exists s |]. split; [done |]. split.
    + apply Forall_forall. intros c Hc. apply name_char_not_wildcard.
      rewrite forallb_forall in Hall. by apply Hall, list_elem_of_In.
    + apply strip_ends.
  - intros s Hlen Hall. apply validate_search_name_iff. by exists s.
  - intros v. unfold validate_search_name. rewrite guard_str.
    destruct v as [| b | z | m e | s | l | d]; try (right; by eexists).
    destruct s as [| c s]; [right; by eexists |].
    cbn [mbind result_bind bind as_str].
    repeat (case_match; [right; by eexists |]). left; by eexists.
Qed.

(** X2: a name or a search term that was accepted is accepted again and
    returned unchanged. *)
Theorem validators_idempotent :
  (∀ (v : pyval) (t : str),
     validate_name v = Ok t → validate_name (VStr t) = Ok t)
  ∧ (∀ (v : pyval) (t : str),
       validate_search_name v = Ok t → validate_search_name (VStr t) = Ok t)
  ∧ (∀ (v : pyval) (t : str),
       validate_password v = Ok t → validate_password (VStr t) = Ok t).
Proof.
  split; [| split].
  - intros v t (s & -> & -> & Hlen & Hall)%validate_name_Ok.
    apply validate_name_Ok. exists (strip s). by rewrite strip_idemp.
  - intros v t (s & -> & -> & Hlen & Hall)%validate_search_name_iff.
    apply validate_search_name_iff. exists (strip s). by rewrite strip_idemp.
  - intros v t Hv. pose proof Hv as Hv'.
    unfold validate_password in Hv'. rewrite guard_str in Hv'.
    destruct v as [| b | z | m e | s | l | d]; try done.
    destruct s as [| c s]; [done |]. cbn [mbind result_bind bind as_str] in Hv'.
    assert (t = c :: s) as ->; [| done].
    clear Hv. repeat case_match; try done. by injection Hv' as <-.
Qed.

(** X3: [validate_email] hands only a non-empty string to the e-mail
    library, stripped and lowercased, and returns what the library
    returns; a value that is not a non-empty string fails with "Email is
    required and must be a string"; an [EmailNotValidError] of the library
    never leaves the function, it becomes a validation error whose message
    carries the library's. *)
Theorem validate_email_result :
  (∀ (v : pyval) (e : str),
     validate_email v = Ok e →
     ∃ s, v = VStr s ∧ s ≠ []
          ∧ email_validator_normalized (lower (strip s)) = Ok e)
  ∧ (∀ v : pyval,
       (∀ s, v = VStr s → s = []) →
       validate_email v
       = raise ValidationError (u "Email is required and must be a string"))
  ∧ (∀ (v : pyval) (ex : exn),
       validate_email v = Raise ex →
       issubclass (exn_cls ex) EmailNotValidError = false)
  ∧ (∀ (s : str) (ex : exn),
       s ≠ [] →
       email_validator_normalized (lower (strip s)) = Raise ex →
       issubclass (exn_cls ex) EmailNotValidError = true →
       validate_email (VStr s)
       = raise ValidationError (u "Invalid email format: " ++ exn_msg ex)).
Proof.
  split; [| split; [| split]].
  - intros v e. unfold validate_email. rewrite guard_str.
    destruct v as [| b | z | m e' | s | l | d]; try done.
    destruct s as [| c s]; [done |]. cbn [mbind result_bind bind as_str].
    destruct (email_validator_normalized _) as [x | ex] eqn:Hlib; cbn.
    + intros [= <-]. by exists (c :: s).
    + by destruct (issubclass _ _).
  - intros v Hv. unfold validate_email. rewrite guard_str.
    destruct v as [| b | z | m e' | s | l | d]; try done.
    by rewrite (Hv s eq_refl).
  - intros v ex. unfold validate_email. rewrite guard_str.
    destruct v as [| b | z | m e' | s | l | d]; try by intros [= <-].
    destruct s as [| c s]; [by intros [= <-] |].
    cbn [mbind result_bind bind as_str].
    destruct (email_validator_normalized _) as [x | ex']; cbn; [done |].
    destruct (issubclass (exn_cls ex') EmailNotValidError) eqn:Hcls.
    + by intros [= <-].
    + by intros [= <-].
  - intros s ex Hs Hlib Hcls. rewrite validate_email_normalizes by done.
    rewrite Hlib. cbn. by rewrite Hcls.
Qed.

Lemma validate_name_raises (v : pyval) (ex : exn) :
  validate_name v = Raise ex → exn_cls ex = ValidationError.
Proof.
  unfold validate_name. rewrite guard_str.
  destruct v as [| b | z | m e | s | l | d]; try by intros [= <-].
  destruct s as [| c s]; [by intros [= <-] |].
  cbn [mbind result_bind bind as_str].
  repeat case_match; by intros [= <-].
Qed.

Lemma validate_password_raises (v : pyval) (ex : exn) :
  validate_password v = Raise ex → exn_cls ex = ValidationError.
Proof.
  unfold validate_password. rewrite guard_str.
  destruct v as [| b | z | m e | s | l | d]; try by intros [= <-].
  destruct s as [| c s]; [by intros [= <-] |].
  cbn [mbind result_bind bind as_str].
  repeat case_match; by intros [= <-].
Qed.

Lemma validate_email_raises (v : pyval) (ex : exn) :
  validate_email v = Raise ex →
  exn_cls ex = ValidationError
  ∨ (issubclass (exn_cls ex) EmailNotValidError = false
     ∧ ∃ s, email_validator_normalized s = Raise ex).
Proof.
  unfold validate_email. rewrite guard_str.
  destruct v as [| b | z | m e | s | l | d]; try (intros [= <-]; by left).
  destruct s as [| c s]; [intros [= <-]; by left |].
  cbn [mbind result_bind bind as_str].
  destruct (email_validator_normalized _) as [x | ex'] eqn:Hlib; cbn; [done |].
  destruct (issubclass _ _) eqn:Hcls; intros [= <-]; [by left |].
  right. split; [done | by eexists].
Qed.

Lemma validate_create_user_data_dict (d : gmap str pyval) :
  validate_create_user_data (VDict d) =
    match d !! u "name", d !! u "email", d !! u "password" with
    | None, _, _ => raise ValidationError (u "Missing required field: name")
    | _, None, _ => raise ValidationError (u "Missing required field: email")
    | _, _, None => raise ValidationError (u "Missing required field: password")
    | Some v_name, Some v_email, Some v_password =>
        n ← validate_name v_name;
        e ← validate_email v_email;
        p ← validate_password v_password;
        Ok (<[u "name" := n]> (<[u "email" := e]> (<[u "password" := p]> ∅)))
    end.
Proof.
  unfold validate_create_user_data.
  cbn [isinstance_dict negb as_dict mbind result_bind bind check_required].
  unfold getitem.
  destruct (d !! u "name") as [v_name |]; [| done].
  destruct (d !! u "email") as [v_email |]; [| done].
  destruct (d !! u "password") as [v_password |]; [| done].
  done.
Qed.

(** X4: [validate_create_user_data] rejects what is not a JSON object;
    for an object it reports the first of [name], [email], [password] that
    is missing before it validates any field, so an object with an
    invalid name and no password fails for the missing password; on
    success the result has exactly the three keys, whatever other keys
    the request had; a failure is a validation error or an exception of
    the e-mail library other than [EmailNotValidError]. *)
Theorem validate_create_user_data_result :
  (∀ v : pyval,
     isinstance_dict v = false →
     validate_create_user_data v
     = raise ValidationError (u "Request data must be a JSON object"))
  ∧ (∀ d : gmap str pyval,
       d !! u "name" = None →
       validate_create_user_data (VDict d)
       = raise ValidationError (u "Missing required field: name"))
  ∧ (∀ (d : gmap str pyval),
       is_Some (d !! u "name") → d !! u "email" = None →
       validate_create_user_data (VDict d)
       = raise ValidationError (u "Missing required field: email"))
  ∧ (∀ (d : gmap str pyval),
       is_Some (d !! u "name") → is_Some (d !! u "email") →
       d !! u "password" = None →
       validate_create_user_data (VDict d)
       = raise ValidationError (u "Missing required field: password"))
  ∧ (∀ (v : pyval) (vd : gmap str str),
       validate_create_user_data v = Ok vd →
       dom vd = {[u "name"; u "email"; u "password"]})
  ∧ (∀ (v : pyval) (ex : exn),
       validate_create_user_data v = Raise ex →
       exn_cls ex = ValidationError
       ∨ (issubclass (exn_cls ex) EmailNotValidError = false
          ∧ ∃ s, email_validator_normalized s = Raise ex)).
Proof.
  split; [| split; [| split; [| split; [| split]]]].
  - intros v Hv. unfold validate_create_user_data. by rewrite Hv.
  - intros d Hn. by rewrite validate_create_user_data_dict, Hn.
  - intros d [v_name Hn] He. by rewrite validate_create_user_data_dict, Hn, He.
  - intros d [v_name Hn] [v_email He] Hp.
    by rewrite validate_create_user_data_dict, Hn, He, Hp.
  - intros v vd Hvd.
    destruct (validate_create_user_data_Ok _ _ Hvd)
      as (d & ? & ? & ? & n & e & p & _ & _ & _ & _ & _ & _ & _ & ->).
    rewrite !dom_insert_L, dom_empty_L. set_solver.
  - intros v ex. destruct v as [| b | z | m e | s | l | d];
      try (intros [= <-]; by left).
    rewrite validate_create_user_data_dict.
    destruct (d !! u "name") as [v_name |]; [| intros [= <-]; by left].
    destruct (d !! u "email") as [v_email |]; [| intros [= <-]; by left].
    destruct (d !! u "password") as [v_password |]; [| intros [= <-]; by left].
    destruct (validate_name v_name) as [n | ex1] eqn:Hn; cbn.
    2:{ intros [= <-]. left. by eapply validate_name_raises. }
    destruct (validate_email v_email) as [e | ex2] eqn:He; cbn.
    2:{ intros [= <-]. by eapply validate_email_raises. }
    destruct (validate_password v_password) as [p | ex3] eqn:Hp; cbn; [done |].
    intros [= <-]. left. by eapply validate_password_raises.
Qed.

Lemma validate_update_user_data_dict (d : gmap str pyval) :
  validate_update_user_data (VDict d) =
    match d !! u "name", d !! u "email" with
    | None, None =>
        raise ValidationError
          (u "At least one field (name or email) must be provided for update")
    | Some v_name, None => n ← validate_name v_name; Ok {[u "name" := n]}
    | None, Some v_email => e ← validate_email v_email; Ok {[u "email" := e]}
    | Some v_name, Some v_email =>
        n ← validate_name v_name;
        e ← validate_email v_email;
        Ok (<[u "email" := e]> {[u "name" := n]})
    end.
Proof.
  unfold validate_update_user_data.
  cbn [isinstance_dict negb as_dict mbind result_bind bind].
  destruct (d !! u "name") as [v_name |], (d !! u "email") as [v_email |];
    cbn [mbind result_bind bind]; [| | | done].
  - destruct (validate_name v_name); cbn [mbind result_bind bind]; [| done].
    destruct (validate_email v_email); cbn [mbind result_bind bind]; [| done].
    rewrite bool_decide_eq_false_2; [done |]. apply insert_non_empty.
  - destruct (validate_name v_name); cbn [mbind result_bind bind]; [| done].
    rewrite bool_decide_eq_false_2; [done |]. apply insert_non_empty.
  - destruct (validate_email v_email); cbn [mbind result_bind bind]; [| done].
    rewrite bool_decide_eq_false_2; [done |]. apply insert_non_empty.
Qed.

(** X5: [validate_update_user_data] fails with "At least one field ..."
    exactly for an object with neither [name] nor [email], whatever else
    it has; on success the result is not empty, has no key other than
    [name] and [email] (a password cannot be updated), has a key exactly
    when the request has it, and holds the validated values. *)
Theorem validate_update_user_data_result :
  (∀ d : gmap str pyval,
     d !! u "name" = None → d !! u "email" = None →
     validate_update_user_data (VDict d)
     = raise ValidationError
         (u "At least one field (name or email) must be provided for update"))
  ∧ (∀ (d : gmap str pyval) (vd : gmap str str),
       validate_update_user_data (VDict d) = Ok vd →
       vd ≠ ∅
       ∧ dom vd ⊆ {[u "name"; u "email"]}
       ∧ (∀ n, vd !! u "name" = Some n ↔
               ∃ v, d !! u "name" = Some v ∧ validate_name v = Ok n)
       ∧ (∀ e, vd !! u "email" = Some e ↔
               ∃ v, d !! u "email" = Some v ∧ validate_email v = Ok e))
  ∧ (∀ v : pyval,
       isinstance_dict v = false →
       validate_update_user_data v
       = raise ValidationError (u "Request data must be a JSON object")).
Proof.
  split; [| split].
  - intros d Hn He. by rewrite validate_update_user_data_dict, Hn, He.
  - intros d vd. rewrite validate_update_user_data_dict.
    destruct (d !! u "name") as [v_name |] eqn:Hdn,
             (d !! u "email") as [v_email |] eqn:Hde; [| | | done].
    + destruct (validate_name v_name) as [n |] eqn:Hn; cbn; [| done].
      destruct (validate_email v_email) as [e |] eqn:He; cbn; [| done].
      intros [= <-]. split; [apply insert_non_empty |]. split.
      { rewrite dom_insert_L, dom_singleton_L. set_solver. }
      split.
      * intros n'. rewrite lookup_insert_ne, lookup_singleton_eq by done.
        split; [intros [= <-]; by exists v_name |].
        intros (v & [= <-] & Hv). congruence.
      * intros e'. rewrite lookup_insert_eq.
        split; [intros [= <-]; by exists v_email |].
        intros (v & [= <-] & Hv). congruence.
    + destruct (validate_name v_name) as [n |] eqn:Hn; cbn; [| done].
      intros [= <-]. split; [apply insert_non_empty |]. split.
      { rewrite dom_singleton_L. set_solver. }
      split.
      * intros n'. rewrite lookup_singleton_eq.
        split; [intros [= <-]; by exists v_name |].
        intros (v & [= <-] & Hv). congruence.
      * intros e'. rewrite lookup_singleton_ne by done.
        split; [done | by intros (? & ? & _)].
    + destruct (validate_email v_email) as [e |] eqn:He; cbn; [| done].
      intros [= <-]. split; [apply insert_non_empty |]. split.
      { rewrite dom_singleton_L. set_solver. }
      split.
      * intros n'. rewrite lookup_singleton_ne by done.
        split; [done | by intros (? & ? & _)].
      * intros e'. rewrite lookup_singleton_eq.
        split; [intros [= <-]; by exists v_email |].
        intros (v & [= <-] & Hv). congruence.
  - intros v Hv. unfold validate_update_user_data. by rewrite Hv.
Qed.

(** X6: [validate_login_data] succeeds exactly for an object with an
    [email] that validates and a [password] key, and returns the
    password as the request had it, whatever JSON value it is; a missing
    [email] is reported before a missing [password], and both before the
    e-mail is validated. *)
Theorem validate_login_data_result :
  (∀ (v : pyval) (ld : login_data),
     validate_login_data v = Ok ld ↔
       ∃ (d : gmap str pyval) (v_email : pyval),
         v = VDict d
         ∧ d !! u "email" = Some v_email
         ∧ d !! u "password" = Some (ld_password ld)
         ∧ validate_email v_email = Ok (ld_email ld))
  ∧ (∀ d : gmap str pyval,
       d !! u "email" = None →
       validate_login_data (VDict d)
       = raise ValidationError (u "Email is required for login"))
  ∧ (∀ d : gmap str pyval,
       is_Some (d !! u "email") → d !! u "password" = None →
       validate_login_data (VDict d)
       = raise ValidationError (u "Password is required for login")).
Proof.
  split; [| split].
  - intros v [e p]. unfold validate_login_data.
    destruct v as [| b | z | m e' | s | l | d];
      try (split; [done | by intros (? & ? & ? & _)]).
    cbn [isinstance_dict negb as_dict mbind result_bind bind ld_email ld_password].
    destruct (d !! u "email") as [v_email |] eqn:Hde.
    2:{ split; [done |]. intros (d' & ? & [= <-] & Hde' & _). congruence. }
    destruct (d !! u "password") as [v_password |] eqn:Hdp.
    2:{ split; [done |]. intros (d' & ? & [= <-] & _ & Hdp' & _). congruence. }
    destruct (validate_email v_email) as [x | ex] eqn:He; cbn.
    + split.
      * intros [= <- <-]. by exists d, v_email.
      * intros (d' & v' & [= <-] & Hde' & Hdp' & He'). congruence.
    + split; [done |]. intros (d' & v' & [= <-] & Hde' & Hdp' & He'). congruence.
  - intros d He. unfold validate_login_data. cbn. by rewrite He.
  - intros d [v He] Hp. unfold validate_login_data. cbn. by rewrite He, Hp.
Qed.

(** ** The store: reading, creating and deleting *)

Lemma database_eta (db : database) :
  Database (users db) (sqlite_sequence db) = db.
Proof. by destruct db. Qed.

Lemma bind_int_Ok (z : Z) :
  (- 2 ^ 63 ≤ z ≤ 2 ^ 63 - 1)%Z → bind_int z = Ok z.
Proof.
  intros Hz. unfold bind_int.
  replace (z <? - 2 ^ 63)%Z with false by (symmetry; apply Z.ltb_ge; lia).
  by replace (2 ^ 63 - 1 <? z)%Z with false by (symmetry; apply Z.ltb_ge; lia).
Qed.

Lemma bind_int_overflow (z : Z) :
  (2 ^ 63 - 1 < z)%Z →
  bind_int z
  = raise OverflowError (u "Python int too large to convert to SQLite INTEGER").
Proof.
  intros Hz. unfold bind_int.
  replace (2 ^ 63 - 1 <? z)%Z with true by (symmetry; apply Z.ltb_lt; lia).
  by rewrite orb_true_r.
Qed.

Lemma find_none_iff {A} (f : A → bool) (l : list A) :
  find f l = None ↔ ∀ x, x ∈ l → f x = false.
Proof.
  induction l as [| a l IH]; cbn [find].
  - split; [intros _ x Hx; by apply elem_of_nil in Hx | done].
  - destruct (f a) eqn:Ha.
    + split; [done |]. intros Hall. rewrite Hall in Ha; [done | left].
    + rewrite IH. split.
      * intros Hall x [-> | Hx]%elem_of_cons; auto.
      * intros Hall x Hx. apply Hall. by right.
Qed.

Lemma find_snoc {A} (f : A → bool) (l : list A) (a : A) :
  (∀ x, x ∈ l → f x = false) → f a = true → find f (l ++ [a]) = Some a.
Proof.
  intros Hl Ha. induction l as [| b l IH]; cbn [app find]; [by rewrite Ha |].
  rewrite (Hl b) by left. apply IH. intros x Hx. apply Hl. by right.
Qed.

Lemma find_filter_out {A} (f : A → bool) (l : list A) :
  find f (filter (λ x, f x = false) l) = None.
Proof.
  apply find_none_iff. by intros x [Hx _]%list_elem_of_filter.
Qed.

Lemma filter_all {A} (Q : A → Prop) `{!∀ x, Decision (Q x)} (l : list A) :
  (∀ x, x ∈ l → Q x) → filter Q l = l.
Proof.
  induction l as [| a l IH]; [done |]. intros Hall.
  rewrite filter_cons_True by (apply Hall; left).
  f_equal. apply IH. intros x Hx. apply Hall. by right.
Qed.

Lemma filter_none {A} (Q : A → Prop) `{!∀ x, Decision (Q x)} (l : list A) :
  (∀ x, x ∈ l → ¬ Q x) → filter Q l = [].
Proof.
  induction l as [| a l IH]; [done |]. intros Hall.
  rewrite filter_cons_False by (apply Hall; left).
  apply IH. intros x Hx. apply Hall. by right.
Qed.

Lemma max_rowid_ge (rows : list user_row) (r : user_row) :
  r ∈ rows → (row_id r ≤ max_rowid rows)%Z.
Proof.
  induction rows as [| a rows IH]; [by intros ?%elem_of_nil |].
  cbn [max_rowid foldr]. fold (max_rowid rows).
  intros [-> | Hr]%elem_of_cons; [lia |]. specialize (IH Hr). lia.
Qed.

Lemma max_rowid_nonneg (rows : list user_row) : (0 ≤ max_rowid rows)%Z.
Proof.
  induction rows as [| a rows IH]; [done |].
  cbn [max_rowid foldr]. fold (max_rowid rows). lia.
Qed.

Lemma get_user_by_id_unfold (db : database) (w : world) (k : nat) (user_id : Z) :
  fault w k = None → bind_int user_id = Ok user_id →
  DatabaseManager.get_user_by_id db w k user_id
  = Ok (dict_all <$> find (λ r, (row_id r =? user_id)%Z) (users db)).
Proof.
  intros Hfault Hbind.
  unfold DatabaseManager.get_user_by_id, DatabaseManager.get_connection.
  by rewrite Hfault, try_reraise; cbn [mbind result_bind bind]; rewrite Hbind.
Qed.

Lemma get_user_by_email_unfold (db : database) (w : world) (k : nat) (email : str) :
  fault w k = None →
  DatabaseManager.get_user_by_email db w k email
  = Ok (dict_all <$> find (λ r, bool_decide (row_email r = email)) (users db)).
Proof.
  intros Hfault.
  unfold DatabaseManager.get_user_by_email, DatabaseManager.get_connection.
  by rewrite Hfault, try_reraise.
Qed.

Lemma delete_user_unfold (db : database) (w : world) (user_id : Z) :
  fault w 0 = None → bind_int user_id = Ok user_id →
  DatabaseManager.delete_user db w user_id
  = (Ok (0 <? (sql_delete db user_id).2)%Z, (sql_delete db user_id).1).
Proof.
  intros Hfault Hbind.
  unfold DatabaseManager.delete_user, DatabaseManager.get_connection.
  rewrite Hfault, try_reraise. cbn [mbind result_bind bind]. by rewrite Hbind.
Qed.

Lemma sql_delete_absent (db : database) (user_id : Z) :
  (∀ r, r ∈ users db → row_id r ≠ user_id) → sql_delete db user_id = (db, 0%Z).
Proof.
  intros Habs. unfold sql_delete.
  rewrite filter_all, filter_none, database_eta; [done | |].
  - intros r Hr Hhit. by apply Z.eqb_eq, Habs in Hhit.
  - intros r Hr. by apply Z.eqb_neq, Habs.
Qed.

Lemma sql_delete_present (db : database) (user_id : Z) (r : user_row) :
  r ∈ users db → row_id r = user_id → (0 < (sql_delete db user_id).2)%Z.
Proof.
  intros Hr Hid. unfold sql_delete. cbn [snd].
  assert (Hin : r ∈ filter (λ r, (row_id r =? user_id)%Z = true) (users db)).
  { apply list_elem_of_filter. split; [by apply Z.eqb_eq | done]. }
  destruct (filter _ _); [by apply elem_of_nil in Hin | cbn; lia].
Qed.

Lemma validate_user_id_raises (s : str) (ex : exn) :
  validate_user_id s = Raise ex → exn_cls ex = ValidationError.
Proof.
  rewrite validate_user_id_unfold. destruct s as [| c s]; [by intros [= <-] |].
  destruct (int _) as [m |]; [| by intros [= <-]].
  destruct (m <=? 0)%Z; [by intros [= <-] | done].
Qed.

Lemma validate_user_id_positive (s : str) (n : Z) :
  validate_user_id s = Ok n → (0 < n)%Z.
Proof.
  rewrite validate_user_id_unfold. destruct s as [| c s]; [done |].
  destruct (int _) as [m |]; [| done].
  destruct (Z.leb_spec m 0); [done |]. by intros [= <-].
Qed.

(** What the views [get_user] and [delete_user] do with an id that
    validates. *)
Lemma get_user_unfold (s : str) (n : Z) (db : database) (w : world) :
  validate_user_id s = Ok n →
  get_user s db w =
    match DatabaseManager.get_user_by_id db w 0 n with
    | Ok (Some user) =>
        if truthy (VDict user)
        then ok_200 (create_success_response
                       (Some (VDict (delete (u "password_hash") user)))
                       (u "User retrieved successfully"))
        else create_error_response (u "User not found") 404
    | Ok None => create_error_response (u "User not found") 404
    | Raise ex =>
        if issubclass (exn_cls ex) ValidationError
        then create_error_response (exn_msg ex) 400
        else create_error_response (u "Failed to retrieve user") 500
    end.
Proof.
  intros Hid. unfold get_user. rewrite Hid. cbn [mbind result_bind bind].
  destruct (DatabaseManager.get_user_by_id db w 0 n) as [[user |] | ex]; cbn.
  - by destruct (negb _).
  - done.
  - destruct (issubclass _ ValidationError); [done |].
    by rewrite issubclass_Exception.
Qed.

Lemma delete_user_view_unfold (s : str) (n : Z) (db : database) (w : world) :
  validate_user_id s = Ok n →
  delete_user s db w =
    match DatabaseManager.delete_user db w n with
    | (Ok true, db') =>
        (ok_200 (create_success_response None (u "User deleted successfully")), db')
    | (Ok false, db') => (create_error_response (u "User not found") 404, db')
    | (Raise ex, db') =>
        (if issubclass (exn_cls ex) ValidationError
         then create_error_response (exn_msg ex) 400
         else create_error_response (u "Failed to delete user") 500, db')
    end.
Proof.
  intros Hid. unfold delete_user. rewrite Hid.
  destruct (DatabaseManager.delete_user db w n) as [[[|] | ex] db']; cbn;
    [done | done |].
  destruct (issubclass _ ValidationError); [done |].
  by rewrite issubclass_Exception.
Qed.

(** X7: with the store answering, for an id that validates and is at
    most 2^63 - 1, the largest integer SQLite binds: deleting it answers
    200 when a row has it and 404, with the table as it was, when no row
    has it; after the delete a fetch of the same id answers 404, as does
    a second delete, which changes nothing.  An id above 2^63 - 1 is
    not covered: it is answered 500. *)
Theorem delete_then_fetch
    (s : str) (n : Z) (db : database) (w w' : world) :
  validate_user_id s = Ok n →
  (n ≤ 2 ^ 63 - 1)%Z →
  fault w 0 = None → fault w' 0 = None →
  let present := existsb (λ r, (row_id r =? n)%Z) (users db) in
  let deleted := delete_user s db w in
  deleted.1
  = (if present
     then ok_200 (create_success_response None (u "User deleted successfully"))
     else create_error_response (u "User not found") 404)
  ∧ (present = false → deleted.2 = db)
  ∧ get_user s deleted.2 w' = create_error_response (u "User not found") 404
  ∧ delete_user s deleted.2 w'
    = (create_error_response (u "User not found") 404, deleted.2).
Proof.
  intros Hid Hmax Hfault Hfault' present deleted.
  pose proof (validate_user_id_positive _ _ Hid) as Hpos.
  assert (Hbind : bind_int n = Ok n) by (apply bind_int_Ok; lia).
  assert (Hgone : ∀ r, r ∈ users (sql_delete db n).1 → row_id r ≠ n).
  { intros r [Hr _]%list_elem_of_filter. by apply Z.eqb_neq. }
  assert (Hdeleted : deleted
    = (if present
       then ok_200 (create_success_response None (u "User deleted successfully"))
       else create_error_response (u "User not found") 404,
       (sql_delete db n).1)).
  { subst deleted. rewrite (delete_user_view_unfold _ _ _ _ Hid).
    rewrite (delete_user_unfold _ _ _ Hfault Hbind).
    subst present. destruct (existsb _ _) eqn:Hex.
    - apply existsb_elem_of in Hex as (r & Hr & Hhit%Z.eqb_eq).
      pose proof (sql_delete_present _ _ _ Hr Hhit) as Hcount.
      by replace (0 <? _)%Z with true by (symmetry; by apply Z.ltb_lt).
    - rewrite sql_delete_absent; [done |].
      intros r Hr Heq. apply not_true_iff_false in Hex. apply Hex.
      apply existsb_elem_of. exists r. split; [done | by apply Z.eqb_eq]. }
  rewrite Hdeleted. cbn [fst snd]. split; [done |]. split; [| split].
  - intros Hp. rewrite sql_delete_absent; [done |].
    intros r Hr Heq. subst present. apply not_true_iff_false in Hp. apply Hp.
    apply existsb_elem_of. exists r. split; [done | by apply Z.eqb_eq].
  - rewrite (get_user_unfold _ _ _ _ Hid).
    rewrite (get_user_by_id_unfold _ _ _ _ Hfault' Hbind).
    replace (find _ _) with (@None user_row); [done |].
    symmetry. apply find_none_iff. intros r Hr. by apply Z.eqb_neq, Hgone.
  - rewrite (delete_user_view_unfold _ _ _ _ Hid).
    rewrite (delete_user_unfold _ _ _ Hfault' Hbind).
    by rewrite (sql_delete_absent _ _ Hgone).
Qed.

Lemma create_user_new_row (db : database) (w w' : world) (k : nat)
    (n e h : str) :
  fault w' k = None →
  (∀ r, r ∈ users db → row_email r ≠ e) →
  let rowid := (Z.max (sqlite_sequence db) (max_rowid (users db)) + 1)%Z in
  let row := UserRow rowid n e h (current_timestamp w) (current_timestamp w) in
  let db' := Database (users db ++ [row]) rowid in
  (∀ r, r ∈ users db → (row_id r < rowid)%Z)
  ∧ ((rowid ≤ 2 ^ 63 - 1)%Z →
     DatabaseManager.get_user_by_id db' w' k rowid = Ok (Some (dict_all row)))
  ∧ DatabaseManager.get_user_by_email db' w' k e = Ok (Some (dict_all row)).
Proof.
  intros Hfault Hfresh rowid row db'.
  assert (Hlt : ∀ r, r ∈ users db → (row_id r < rowid)%Z).
  { intros r Hr%max_rowid_ge. subst rowid. lia. }
  split; [done |]. split.
  - intros Hmax. pose proof (max_rowid_nonneg (users db)).
    rewrite get_user_by_id_unfold by (done || apply bind_int_Ok; lia).
    subst db'. cbn [users]. rewrite find_snoc; [done | | by apply Z.eqb_eq].
    intros r Hr. apply Z.eqb_neq. specialize (Hlt r Hr). lia.
  - rewrite get_user_by_email_unfold by done.
    subst db'. cbn [users]. rewrite find_snoc; [done | | by apply bool_decide_eq_true].
    intros r Hr. by apply bool_decide_eq_false, Hfresh.
Qed.

(** X8: with the store answering, a create that validates, with an e-mail
    no row has and a password that [hash_password] hashes (it can be
    encoded and bcrypt accepts it), answers 201 with the new id, the
    validated name, the normalized e-mail and the application's clock as
    [created_at]; it appends one row that holds the bcrypt hash and the
    store's clock in [created_at] and [updated_at]; the new id is greater
    than every id in the table, and the row is what a later lookup by
    that id or by the e-mail returns.  A password that cannot be hashed
    is not covered: the create is then not answered 201. *)
Theorem create_user_stores_and_echoes
    (req : request) (data : pyval) (n e p h : str) (db : database) (w : world) :
  is_json req = true → get_json req = Ok data →
  validate_create_user_data data
  = Ok (<[u "name" := n]> (<[u "email" := e]> (<[u "password" := p]> ∅))) →
  fault w 0 = None →
  DatabaseManager.hash_password w p = Ok h →
  (∀ r, r ∈ users db → row_email r ≠ e) →
  let rowid := (Z.max (sqlite_sequence db) (max_rowid (users db)) + 1)%Z in
  let row := UserRow rowid n e h (current_timestamp w) (current_timestamp w) in
  let db' := Database (users db ++ [row]) rowid in
  create_user req db w
  = (Response
       (create_success_response
          (Some (VDict (<[u "id" := VInt rowid]>
                        (<[u "name" := VStr n]>
                         (<[u "email" := VStr e]>
                          (<[u "created_at" := VStr (datetime_now_isoformat w)]>
                             ∅))))))
          (u "User created successfully")) 201,
     db')
  ∧ (∀ r, r ∈ users db → (row_id r < rowid)%Z)
  ∧ (∀ (w' : world) (k : nat),
       fault w' k = None →
       ((rowid ≤ 2 ^ 63 - 1)%Z →
        DatabaseManager.get_user_by_id db' w' k rowid = Ok (Some (dict_all row)))
       ∧ DatabaseManager.get_user_by_email db' w' k e = Ok (Some (dict_all row))).
Proof.
  intros Hjson Hdata Hvd Hfault Hhash Hfresh rowid row db'.
  split; [| split].
  - rewrite (create_user_unfold _ _ _ _ _ _ _ Hjson Hdata Hvd).
    by rewrite (create_user_fresh _ _ n _ _ _ Hfault Hhash Hfresh).
  - intros r Hr%max_rowid_ge. subst rowid. lia.
  - intros w' k Hfault'.
    by destruct (create_user_new_row db w w' k n e h Hfault' Hfresh) as (_ & ? & ?).
Qed.

(** X9: after a create with a fresh e-mail, a login with the same e-mail
    and the password just hashed succeeds, provided bcrypt verifies what
    it hashed: [authenticate_user] returns the new id, the name, the
    e-mail and the store's creation time, and the view answers 200 with
    them; a password that bcrypt rejects against the new hash is answered
    401. *)
Theorem create_then_login
    (db : database) (w w' : world) (n e p h : str) :
  fault w 0 = None →
  DatabaseManager.hash_password w p = Ok h →
  (∀ r, r ∈ users db → row_email r ≠ e) →
  fault w' 0 = None →
  DatabaseManager.verify_password (VStr p) (VStr h) = Ok true →
  let db' := (DatabaseManager.create_user db w (Some n) (Some e) p).2 in
  let rowid := (Z.max (sqlite_sequence db) (max_rowid (users db)) + 1)%Z in
  let user : gmap str pyval :=
    <[u "id" := VInt rowid]>
    (<[u "name" := VStr n]>
     (<[u "email" := VStr e]>
      (<[u "created_at" := VStr (current_timestamp w)]> ∅))) in
  DatabaseManager.authenticate_user db' w' e (VStr p) = Ok (Some user)
  ∧ (∀ (req : request) (data : pyval),
       is_json req = true → get_json req = Ok data →
       validate_login_data data = Ok (LoginData e (VStr p)) →
       login req db' w'
       = ok_200 (create_success_response (Some (VDict user))
                   (u "Login successful")))
  ∧ (∀ (req : request) (data q : pyval),
       is_json req = true → get_json req = Ok data →
       validate_login_data data = Ok (LoginData e q) →
       DatabaseManager.verify_password q (VStr h) = Ok false →
       login req db' w'
       = create_error_response (u "Invalid email or password") 401).
Proof.
  intros Hfault Hhash Hfresh Hfault' Hverify db' rowid user.
  assert (Hfind :
    find (λ r, bool_decide (row_email r = e)) (users db')
    = Some (UserRow rowid n e h (current_timestamp w) (current_timestamp w))).
  { subst db'. rewrite (create_user_fresh _ _ n _ _ _ Hfault Hhash Hfresh).
    cbn [snd users]. apply find_snoc; [| by apply bool_decide_eq_true].
    intros r Hr. by apply bool_decide_eq_false, Hfresh. }
  assert (Hauth : ∀ q,
    DatabaseManager.authenticate_user db' w' e q =
      match DatabaseManager.verify_password q (VStr h) with
      | Ok true => Ok (Some user)
      | Ok false => Ok None
      | Raise ex => Raise ex
      end).
  { intros q. by rewrite (authenticate_user_unfold _ _ _ _ Hfault'), Hfind. }
  split; [by rewrite Hauth, Hverify |]. split.
  - intros req data Hjson Hdata Hld.
    rewrite (login_unfold _ _ _ _ _ Hjson Hdata Hld). cbn [ld_email ld_password].
    rewrite Hauth, Hverify.
    replace (truthy (VDict user)) with true; [done |].
    symmetry. cbn. apply negb_true_iff, bool_decide_eq_false, insert_non_empty.
  - intros req data q Hjson Hdata Hld Hq.
    rewrite (login_unfold _ _ _ _ _ Hjson Hdata Hld). cbn [ld_email ld_password].
    by rewrite Hauth, Hq.
Qed.

(** ** The store: updating *)

Lemma fmap_unchanged {A} (f : A → A) (l : list A) :
  (∀ x, x ∈ l → f x = x) → f <$> l = l.
Proof.
  intros Hf. induction l as [| a l IH]; [done |]. cbn.
  rewrite Hf by left. f_equal. apply IH. intros x Hx. apply Hf. by right.
Qed.

Lemma sql_update_absent (db : database) (w : world) (user_id : Z)
    (name email : option str) :
  (∀ r, r ∈ users db → row_id r ≠ user_id) →
  sql_update db w user_id name email = Ok (db, 0%Z).
Proof.
  intros Habs. unfold sql_update.
  assert (Hhit : ∀ r, r ∈ users db → (row_id r =? user_id)%Z = false).
  { intros r Hr. by apply Z.eqb_neq, Habs. }
  rewrite (existsb_none _ _ Hhit).
  replace (match email with Some _ => false && _ | None => false end)
    with false by by destruct email.
  rewrite filter_none by (intros r Hr; by rewrite (Hhit r Hr)).
  change (map ?f ?l) with (f <$> l). rewrite fmap_unchanged, database_eta; [done |].
  intros r Hr. by rewrite (Hhit r Hr).
Qed.

(** The table after an UPDATE that passes the uniqueness check. *)
Lemma sql_update_Ok (db db' : database) (w : world) (user_id : Z)
    (name email : option str) (rowcount : Z) :
  sql_update db w user_id name email = Ok (db', rowcount) →
  users db'
  = (λ r, if (row_id r =? user_id)%Z then update_row w name email r else r)
      <$> users db
  ∧ sqlite_sequence db' = sqlite_sequence db
  ∧ rowcount
    = Z.of_nat (length (filter (λ r, (row_id r =? user_id)%Z = true) (users db))).
Proof.
  unfold sql_update. case_match; [done |]. by intros [= <- <-].
Qed.

Lemma update_user_unfold (db : database) (w : world) (user_id : Z)
    (name email : option str) :
  fault w 0 = None → bind_int user_id = Ok user_id →
  (name = None → email = None → False) →
  DatabaseManager.update_user db w user_id name email =
    match sql_update db w user_id name email with
    | Raise ex => (try_except (Raise ex) DatabaseManager.integrity_clauses, db)
    | Ok (db', rowcount) =>
        if (0 <? rowcount)%Z
        then (try_except (DatabaseManager.get_user_by_id db' w 1 user_id)
                DatabaseManager.integrity_clauses, db')
        else (Ok None, db')
    end.
Proof.
  intros Hfault Hbind Hsome.
  unfold DatabaseManager.update_user, DatabaseManager.get_connection.
  rewrite Hfault, Hbind. cbn [mbind result_bind bind].
  destruct name as [n |], email as [e |]; [| | | by destruct Hsome];
    by destruct (sql_update _ _ _ _ _) as [[db' rc] | ex];
      [destruct (0 <? rc)%Z |].
Qed.

Lemma update_user_view_unfold (s : str) (n : Z) (req : request) (data : pyval)
    (vd : gmap str str) (db : database) (w : world) :
  validate_user_id s = Ok n →
  is_json req = true → get_json req = Ok data →
  validate_update_user_data data = Ok vd →
  update_user s req db w =
    match DatabaseManager.update_user db w n (vd !! u "name") (vd !! u "email") with
    | (Ok (Some user), db') =>
        (if truthy (VDict user)
         then ok_200 (create_success_response
                        (Some (VDict (delete (u "password_hash") user)))
                        (u "User updated successfully"))
         else create_error_response (u "User not found") 404, db')
    | (Ok None, db') => (create_error_response (u "User not found") 404, db')
    | (Raise ex, db') =>
        (flask (dispatch ex [bad_request; conflict; failed "Failed to update user"]),
         db')
    end.
Proof.
  intros Hid Hjson Hdata Hvd. unfold update_user.
  rewrite Hid, Hjson, Hdata. cbn [negb mbind result_bind bind]. rewrite Hvd.
  destruct (DatabaseManager.update_user db w n _ _) as [[[user |] | ex] db'];
    cbn; [| done | done].
  by destruct (negb _).
Qed.

Lemma validated_update_not_empty (data : pyval) (vd : gmap str str) :
  validate_update_user_data data = Ok vd →
  vd !! u "name" = None → vd !! u "email" = None → False.
Proof.
  destruct data as [| b | z | m e | s | l | d]; try done.
  rewrite validate_update_user_data_dict.
  destruct (d !! u "name") as [v_name |], (d !! u "email") as [v_email |];
    [| | | done].
  - destruct (validate_name v_name); cbn; [| done].
    destruct (validate_email v_email); cbn; [| done].
    intros [= <-]. by rewrite lookup_insert_eq.
  - destruct (validate_name v_name); cbn; [| done].
    intros [= <-]. by rewrite lookup_singleton_eq.
  - destruct (validate_email v_email); cbn; [| done].
    intros [= <-] _. by rewrite lookup_singleton_eq.
Qed.

(** X10: with the store answering, for an id that validates, is at most
    2^63 - 1 (the largest integer SQLite binds) and that no row has,
    [get_user], [update_user] (with a body that validates) and
    [delete_user] all answer 404 "User not found", and the table is as
    it was.  An id above 2^63 - 1 is not covered: it is answered 500. *)
Theorem unknown_id_is_not_found
    (s : str) (n : Z) (db : database) (w : world) :
  validate_user_id s = Ok n →
  (n ≤ 2 ^ 63 - 1)%Z →
  fault w 0 = None →
  (∀ r, r ∈ users db → row_id r ≠ n) →
  get_user s db w = create_error_response (u "User not found") 404
  ∧ delete_user s db w = (create_error_response (u "User not found") 404, db)
  ∧ (∀ (req : request) (data : pyval) (vd : gmap str str),
       is_json req = true → get_json req = Ok data →
       validate_update_user_data data = Ok vd →
       update_user s req db w
       = (create_error_response (u "User not found") 404, db)).
Proof.
  intros Hid Hmax Hfault Habs.
  pose proof (validate_user_id_positive _ _ Hid) as Hpos.
  assert (Hbind : bind_int n = Ok n) by (apply bind_int_Ok; lia).
  split; [| split].
  - rewrite (get_user_unfold _ _ _ _ Hid).
    rewrite (get_user_by_id_unfold _ _ _ _ Hfault Hbind).
    replace (find _ _) with (@None user_row); [done |].
    symmetry. apply find_none_iff. intros r Hr. by apply Z.eqb_neq, Habs.
  - rewrite (delete_user_view_unfold _ _ _ _ Hid).
    rewrite (delete_user_unfold _ _ _ Hfault Hbind).
    by rewrite (sql_delete_absent _ _ Habs).
  - intros req data vd Hjson Hdata Hvd.
    rewrite (update_user_view_unfold _ _ _ _ _ _ _ Hid Hjson Hdata Hvd).
    rewrite (update_user_unfold _ _ _ _ _ Hfault Hbind
               (validated_update_not_empty _ _ Hvd)).
    by rewrite (sql_update_absent _ _ _ _ _ Habs).
Qed.

Lemma overflow_dispatch (m : string) :
  flask (dispatch
           (MkExn OverflowError
              (u "Python int too large to convert to SQLite INTEGER"))
           [bad_request; failed m])
  = create_error_response (u m) 500
  ∧ flask (dispatch
             (MkExn OverflowError
                (u "Python int too large to convert to SQLite INTEGER"))
             [bad_request; conflict; failed m])
    = create_error_response (u m) 500.
Proof. done. Qed.

(** X11: an id that parses to more than 2^63 - 1 passes validation and
    cannot be bound as an SQLite integer: [get_user], [delete_user] and
    [update_user] (with a body that validates) answer 500, not 400 or 404,
    whatever the table holds, and the table is as it was. *)
Theorem oversized_id_is_server_error
    (s : str) (n : Z) (db : database) (w : world) :
  validate_user_id s = Ok n →
  (2 ^ 63 - 1 < n)%Z →
  get_user s db w = create_error_response (u "Failed to retrieve user") 500
  ∧ delete_user s db w
    = (create_error_response (u "Failed to delete user") 500, db)
  ∧ (∀ (req : request) (data : pyval) (vd : gmap str str),
       is_json req = true → get_json req = Ok data →
       validate_update_user_data data = Ok vd →
       update_user s req db w
       = (create_error_response (u "Failed to update user") 500, db)).
Proof.
  intros Hid Hbig. pose proof (bind_int_overflow _ Hbig) as Hbind.
  split; [| split].
  - rewrite (get_user_unfold _ _ _ _ Hid).
    unfold DatabaseManager.get_user_by_id, DatabaseManager.get_connection.
    rewrite try_reraise. destruct (fault w 0); [done |].
    cbn [mbind result_bind bind]. by rewrite Hbind.
  - rewrite (delete_user_view_unfold _ _ _ _ Hid).
    unfold DatabaseManager.delete_user, DatabaseManager.get_connection.
    rewrite try_reraise. destruct (fault w 0); [done |].
    cbn [mbind result_bind bind]. by rewrite Hbind.
  - intros req data vd Hjson Hdata Hvd.
    rewrite (update_user_view_unfold _ _ _ _ _ _ _ Hid Hjson Hdata Hvd).
    pose proof (validated_update_not_empty _ _ Hvd) as Hne.
    unfold DatabaseManager.update_user, DatabaseManager.get_connection.
    destruct (fault w 0); [done |]. rewrite Hbind.
    by destruct (vd !! u "name"), (vd !! u "email"); [| | | destruct Hne].
Qed.

(** X12: validation comes before the store.  An id that does not
    validate is answered 400 with the validator's message by [get_user],
    [update_user] and [delete_user], and an update whose body has neither
    [name] nor [email] is answered 400, for every table and whether or
    not the store can be reached; the table is as it was. *)
Theorem invalid_input_never_reaches_store
    (s : str) (db : database) (w : world) :
  (∀ ex : exn,
     validate_user_id s = Raise ex →
     get_user s db w = create_error_response (exn_msg ex) 400
     ∧ delete_user s db w = (create_error_response (exn_msg ex) 400, db)
     ∧ ∀ req, update_user s req db w
              = (create_error_response (exn_msg ex) 400, db))
  ∧ (∀ (n : Z) (req : request) (d : gmap str pyval),
       validate_user_id s = Ok n →
       is_json req = true → get_json req = Ok (VDict d) →
       d !! u "name" = None → d !! u "email" = None →
       update_user s req db w
       = (create_error_response
            (u "At least one field (name or email) must be provided for update")
            400, db)).
Proof.
  split.
  - intros ex Hid. pose proof (validate_user_id_raises _ _ Hid) as Hcls.
    unfold get_user, delete_user, update_user. rewrite Hid.
    cbn [mbind result_bind bind try_except dispatch fst snd bad_request on_error].
    by rewrite Hcls.
  - intros n req d Hid Hjson Hdata Hn He.
    unfold update_user. rewrite Hid, Hjson, Hdata.
    cbn [negb mbind result_bind bind].
    by rewrite validate_update_user_data_dict, Hn, He.
Qed.

Lemma find_fmap_hit {A} (f : A → bool) (g : A → A) (l : list A) :
  (∀ x, f (g x) = f x) → find f (g <$> l) = g <$> find f l.
Proof.
  intros Hfg. induction l as [| a l IH]; [done |]. cbn [fmap list_fmap find].
  rewrite Hfg. by destruct (f a).
Qed.

Lemma sql_update_no_clash (db : database) (w : world) (user_id : Z)
    (name email : option str) :
  (∀ e r, email = Some e → r ∈ users db → row_id r ≠ user_id → row_email r ≠ e) →
  ∃ rowcount,
    sql_update db w user_id name email
    = Ok (Database
            ((λ r, if (row_id r =? user_id)%Z then update_row w name email r else r)
               <$> users db)
            (sqlite_sequence db), rowcount)
    ∧ rowcount
      = Z.of_nat (length (filter (λ r, (row_id r =? user_id)%Z = true) (users db))).
Proof.
  intros Hno. unfold sql_update. eexists. split; [| done].
  replace (match email with Some _ => _ | None => false end) with false; [done |].
  destruct email as [e |]; [| done]. symmetry. apply andb_false_iff. right.
  apply existsb_none. intros r Hr.
  destruct (Z.eqb_spec (row_id r) user_id) as [| Hne]; [done |]. cbn.
  by apply bool_decide_eq_false, (Hno e).
Qed.

(** X13: an update of a row that exists, with a new e-mail that no other
    row has, answers 200 with the row as it is after the update: the
    given name and e-mail, the store's clock in [updated_at], the old
    [created_at] and no password hash; the row keeps its id and its hash,
    and a later fetch returns the same record. *)
Theorem update_user_returns_updated_row
    (s : str) (n : Z) (req : request) (data : pyval) (vd : gmap str str)
    (db : database) (w : world) (r : user_row) :
  validate_user_id s = Ok n → (n ≤ 2 ^ 63 - 1)%Z →
  is_json req = true → get_json req = Ok data →
  validate_update_user_data data = Ok vd →
  fault w 0 = None → fault w 1 = None →
  find (λ r, (row_id r =? n)%Z) (users db) = Some r →
  (∀ e r', vd !! u "email" = Some e → r' ∈ users db → row_id r' ≠ n →
           row_email r' ≠ e) →
  let r' := update_row w (vd !! u "name") (vd !! u "email") r in
  let updated := update_user s req db w in
  updated.1
  = ok_200 (create_success_response (Some (VDict (dict_public r')))
              (u "User updated successfully"))
  ∧ row_name r' = default (row_name r) (vd !! u "name")
  ∧ row_email r' = default (row_email r) (vd !! u "email")
  ∧ row_updated_at r' = current_timestamp w
  ∧ (row_id r', row_password_hash r', row_created_at r')
    = (row_id r, row_password_hash r, row_created_at r)
  ∧ (∀ w', fault w' 0 = None →
           get_user s updated.2 w'
           = ok_200 (create_success_response (Some (VDict (dict_public r')))
                       (u "User retrieved successfully"))).
Proof.
  intros Hid Hmax Hjson Hdata Hvd Hfault Hfault1 Hfind Hno r' updated.
  pose proof (validate_user_id_positive _ _ Hid) as Hpos.
  assert (Hbind : bind_int n = Ok n) by (apply bind_int_Ok; lia).
  destruct (sql_update_no_clash db w n (vd !! u "name") (vd !! u "email") Hno)
    as (rowcount & Hupd & Hcount).
  assert (Hrc : (0 <? rowcount)%Z = true).
  { apply Z.ltb_lt. subst rowcount.
    apply find_some in Hfind as [Hin Hhit].
    assert (Hr : r ∈ filter (λ r, (row_id r =? n)%Z = true) (users db)).
    { apply list_elem_of_filter. split; [done | by apply list_elem_of_In]. }
    destruct (filter _ _); [by apply elem_of_nil in Hr | cbn; lia]. }
  assert (Hfind' : ∀ rows,
    rows = (λ r, if (row_id r =? n)%Z
                 then update_row w (vd !! u "name") (vd !! u "email") r else r)
             <$> users db →
    find (λ r, (row_id r =? n)%Z) rows = Some r').
  { intros rows ->. rewrite find_fmap_hit, Hfind.
    - cbn. apply find_some in Hfind as [_ Hhit]. by rewrite Hhit.
    - intros x. by destruct (row_id x =? n)%Z eqn:Hx. }
  assert (Hdelete : delete (u "password_hash") (dict_all r') = dict_public r').
  { unfold dict_all. rewrite delete_insert_eq. apply delete_id, dict_public_no_hash. }
  assert (Hupdated : updated
    = (ok_200 (create_success_response (Some (VDict (dict_public r')))
                 (u "User updated successfully")),
       Database
         ((λ r, if (row_id r =? n)%Z
                then update_row w (vd !! u "name") (vd !! u "email") r else r)
            <$> users db) (sqlite_sequence db))).
  { subst updated.
    rewrite (update_user_view_unfold _ _ _ _ _ _ _ Hid Hjson Hdata Hvd).
    rewrite (update_user_unfold _ _ _ _ _ Hfault Hbind
               (validated_update_not_empty _ _ Hvd)).
    rewrite Hupd, Hrc.
    rewrite (get_user_by_id_unfold _ _ _ _ Hfault1 Hbind). cbn [users].
    rewrite (Hfind' _ eq_refl). cbn [fmap option_fmap option_map try_except].
    by rewrite dict_all_truthy, Hdelete. }
  rewrite Hupdated. cbn [fst snd]. repeat split.
  intros w' Hfault'. rewrite (get_user_unfold _ _ _ _ Hid).
  rewrite (get_user_by_id_unfold _ _ _ _ Hfault' Hbind). cbn [users].
  rewrite (Hfind' _ eq_refl). cbn [fmap option_fmap option_map].
  by rewrite dict_all_truthy, Hdelete.
Qed.

(** X14: [update_user] commits the UPDATE before it reads the row back on
    a second connection.  When that connection fails the view answers 500
    "Failed to update user" although the row has been changed. *)
Theorem update_commits_before_reading_back
    (s : str) (n : Z) (req : request) (data : pyval) (vd : gmap str str)
    (db : database) (w : world) (r : user_row) (msg : str) :
  validate_user_id s = Ok n → (n ≤ 2 ^ 63 - 1)%Z →
  is_json req = true → get_json req = Ok data →
  validate_update_user_data data = Ok vd →
  fault w 0 = None → fault w 1 = Some msg →
  r ∈ users db → row_id r = n →
  (∀ e r', vd !! u "email" = Some e → r' ∈ users db → row_id r' ≠ n →
           row_email r' ≠ e) →
  let updated := update_user s req db w in
  updated.1 = create_error_response (u "Failed to update user") 500
  ∧ users updated.2
    = (λ r, if (row_id r =? n)%Z
            then update_row w (vd !! u "name") (vd !! u "email") r else r)
        <$> users db
  ∧ update_row w (vd !! u "name") (vd !! u "email") r ∈ users updated.2.
Proof.
  intros Hid Hmax Hjson Hdata Hvd Hfault Hfault1 Hr Hrid Hno updated.
  pose proof (validate_user_id_positive _ _ Hid) as Hpos.
  assert (Hbind : bind_int n = Ok n) by (apply bind_int_Ok; lia).
  destruct (sql_update_no_clash db w n (vd !! u "name") (vd !! u "email") Hno)
    as (rowcount & Hupd & Hcount).
  assert (Hrc : (0 <? rowcount)%Z = true).
  { apply Z.ltb_lt. subst rowcount.
    assert (Hin : r ∈ filter (λ r, (row_id r =? n)%Z = true) (users db)).
    { apply list_elem_of_filter. split; [by apply Z.eqb_eq | done]. }
    destruct (filter _ _); [by apply elem_of_nil in Hin | cbn; lia]. }
  assert (Hupdated : updated
    = (create_error_response (u "Failed to update user") 500,
       Database
         ((λ r, if (row_id r =? n)%Z
                then update_row w (vd !! u "name") (vd !! u "email") r else r)
            <$> users db) (sqlite_sequence db))).
  { subst updated.
    rewrite (update_user_view_unfold _ _ _ _ _ _ _ Hid Hjson Hdata Hvd).
    rewrite (update_user_unfold _ _ _ _ _ Hfault Hbind
               (validated_update_not_empty _ _ Hvd)).
    rewrite Hupd, Hrc.
    unfold DatabaseManager.get_user_by_id, DatabaseManager.get_connection.
    by rewrite Hfault1. }
  rewrite Hupdated. cbn [fst snd users]. split; [done |]. split; [done |].
  apply list_elem_of_fmap. exists r. split; [| done].
  by replace (row_id r =? n)%Z with true by (symmetry; by apply Z.eqb_eq).
Qed.

(** ** What a request leaves unchanged *)

Lemma create_user_state (db db' : database) (w : world) (name email : option str)
    (password : str) (res : result (gmap str pyval)) :
  DatabaseManager.create_user db w name email password = (res, db') →
  match res with
  | Raise _ => db' = db
  | Ok user =>
      ∃ n e h,
        name = Some n ∧ email = Some e
        ∧ (∀ r, r ∈ users db → row_email r ≠ e)
        ∧ sql_insert db w name email (Some h)
          = Ok (db', (Z.max (sqlite_sequence db) (max_rowid (users db)) + 1)%Z)
        ∧ db' = Database
                  (users db
                   ++ [UserRow (Z.max (sqlite_sequence db) (max_rowid (users db)) + 1)
                         n e h (current_timestamp w) (current_timestamp w)])
                  (Z.max (sqlite_sequence db) (max_rowid (users db)) + 1)
        ∧ user !! u "id"
          = Some (VInt (Z.max (sqlite_sequence db) (max_rowid (users db)) + 1))
  end.
Proof.
  unfold DatabaseManager.create_user.
  destruct (try_except _ _) as [[user db''] | ex] eqn:Hrun;
    [| by intros [= <- <-]].
  intros [= <- <-]. revert Hrun.
  destruct (DatabaseManager.get_connection w 0); cbn; [| by repeat case_match].
  destruct (DatabaseManager.hash_password w password) as [h |]; cbn;
    [| by repeat case_match].
  destruct (sql_insert db w name email (Some h)) as [[db1 user_id] | ex] eqn:Hins;
    cbn; [| by repeat case_match].
  intros [= <- <-]. revert Hins. unfold sql_insert.
  destruct name as [n |], email as [e |]; try done.
  destruct (existsb _ _) eqn:Hex; [done |]. intros [= <- <-].
  exists n, e, h. repeat split; try done.
  intros r Hr He. apply not_true_iff_false in Hex. apply Hex.
  apply existsb_elem_of. exists r. split; [done | by apply bool_decide_eq_true].
Qed.

Lemma get_user_by_id_raises (db : database) (w : world) (k : nat) (user_id : Z)
    (ex : exn) :
  DatabaseManager.get_user_by_id db w k user_id = Raise ex →
  exn_cls ex = sqlite3_OperationalError ∨ exn_cls ex = OverflowError.
Proof.
  unfold DatabaseManager.get_user_by_id, DatabaseManager.get_connection.
  rewrite try_reraise. destruct (fault w k); [intros [= <-]; by left |].
  cbn [mbind result_bind bind]. unfold bind_int.
  case_match; [intros [= <-]; by right | done].
Qed.

Lemma get_user_by_id_truthy (db : database) (w : world) (k : nat) (user_id : Z)
    (user : gmap str pyval) :
  DatabaseManager.get_user_by_id db w k user_id = Ok (Some user) →
  truthy (VDict user) = true.
Proof.
  unfold DatabaseManager.get_user_by_id. rewrite try_reraise.
  destruct (DatabaseManager.get_connection w k); [| done].
  cbn [mbind result_bind bind]. destruct (bind_int user_id); [| done].
  cbn [mbind result_bind bind]. destruct (find _ _) as [r |]; [| done].
  intros [= <-]. apply dict_all_truthy.
Qed.

Lemma filter_length_zero {A} (Q : A → Prop) `{!∀ x, Decision (Q x)} (l : list A) :
  length (filter Q l) = 0%nat → ∀ x, x ∈ l → ¬ Q x.
Proof.
  intros Hlen x Hx HQ.
  assert (Hin : x ∈ filter Q l) by by apply list_elem_of_filter.
  destruct (filter Q l); [by apply elem_of_nil in Hin | done].
Qed.

Lemma bind_int_inv (z z' : Z) : bind_int z = Ok z' → z' = z.
Proof. unfold bind_int. case_match; [done | by intros [= <-]]. Qed.

Lemma sql_update_raises (db : database) (w : world) (user_id : Z)
    (name email : option str) (ex : exn) :
  sql_update db w user_id name email = Raise ex →
  exn_cls ex = sqlite3_IntegrityError.
Proof.
  unfold sql_update, integrity_error, raise. case_match; [by intros [= <-] | done].
Qed.

Lemma sql_update_hit (db db' : database) (w : world) (user_id : Z)
    (name email : option str) (rowcount : Z) :
  sql_update db w user_id name email = Ok (db', rowcount) →
  (0 < rowcount)%Z →
  is_Some (find (λ r, (row_id r =? user_id)%Z) (users db')).
Proof.
  intros Hupd Hrc. destruct (sql_update_Ok _ _ _ _ _ _ _ Hupd) as (-> & _ & ->).
  rewrite find_fmap_hit by (intros x; by destruct (row_id x =? user_id)%Z eqn:Hx).
  destruct (find _ (users db)) as [r |] eqn:Hfind; [by eexists |].
  rewrite filter_none in Hrc; [cbn in Hrc; lia |].
  intros r Hr Hhit. by rewrite (proj1 (find_none_iff _ _) Hfind r Hr) in Hhit.
Qed.

Lemma sql_update_miss (db db' : database) (w : world) (user_id : Z)
    (name email : option str) (rowcount : Z) :
  sql_update db w user_id name email = Ok (db', rowcount) →
  (rowcount ≤ 0)%Z → db' = db.
Proof.
  intros Hupd Hrc. destruct (sql_update_Ok _ _ _ _ _ _ _ Hupd) as (Husers & Hseq & ->).
  assert (Hnone : ∀ r, r ∈ users db → (row_id r =? user_id)%Z ≠ true)
    by (apply (filter_length_zero (λ r, (row_id r =? user_id)%Z = true)); lia).
  destruct db' as [rows seq]. cbn in Husers, Hseq. subst rows seq.
  rewrite fmap_unchanged, database_eta; [done |].
  intros r Hr. destruct (row_id r =? user_id)%Z eqn:Hhit; [| done].
  by destruct (Hnone r Hr).
Qed.

(** The outcomes of [DatabaseManager.update_user]: either the table is as
    it was, or the UPDATE changed a row and the row was read back or the
    reading failed. *)
Lemma update_user_state (db db' : database) (w : world) (user_id : Z)
    (name email : option str) (res : result (option (gmap str pyval))) :
  DatabaseManager.update_user db w user_id name email = (res, db') →
  (db' = db
   ∧ match res with
     | Ok (Some _) => False
     | Ok None => True
     | Raise ex =>
         exn_cls ex = sqlite3_OperationalError ∨ exn_cls ex = OverflowError
         ∨ exn_cls ex = ValueError
     end)
  ∨ (∃ rowcount,
       sql_update db w user_id name email = Ok (db', rowcount)
       ∧ (0 < rowcount)%Z
       ∧ match res with
         | Ok (Some user) => truthy (VDict user) = true
         | Ok None => False
         | Raise ex =>
             exn_cls ex = sqlite3_OperationalError ∨ exn_cls ex = OverflowError
         end).
Proof.
  destruct (fault w 0) as [msg |] eqn:Hfault.
  { unfold DatabaseManager.update_user, DatabaseManager.get_connection.
    rewrite Hfault. cbn. intros [= <- <-]. left. split; [done | by left]. }
  destruct (decide (name = None ∧ email = None)) as [[-> ->] | Hsome].
  { unfold DatabaseManager.update_user, DatabaseManager.get_connection.
    rewrite Hfault. cbn. intros [= <- <-]. by left. }
  destruct (bind_int user_id) as [z |ex] eqn:Hbind.
  2:{ unfold DatabaseManager.update_user, DatabaseManager.get_connection.
      rewrite Hfault, Hbind.
      assert (exn_cls ex = OverflowError) as Hcls
        by (revert Hbind; unfold bind_int; case_match; [by intros [= <-] | done]).
      destruct name, email; try (by destruct Hsome); cbn; rewrite Hcls; cbn;
        intros [= <- <-]; left; (split; [done | right; by left]). }
  pose proof (bind_int_inv _ _ Hbind) as ->.
  rewrite update_user_unfold by (done || tauto).
  destruct (sql_update db w user_id name email) as [[db1 rc] | ex] eqn:Hupd.
  2:{ cbn. rewrite (sql_update_raises _ _ _ _ _ _ Hupd). cbn.
      intros [= <- <-]. left. split; [done | right; by right]. }
  destruct (Z.ltb_spec 0 rc) as [Hrc | Hrc].
  2:{ intros [= <- <-]. left. split; [| done]. by eapply sql_update_miss. }
  intros [= <- <-]. right. exists rc. split; [done |]. split; [done |].
  destruct (DatabaseManager.get_user_by_id db1 w 1 user_id)
    as [[user |] | ex] eqn:Hget; cbn.
  - by eapply get_user_by_id_truthy.
  - revert Hget. unfold DatabaseManager.get_user_by_id. rewrite try_reraise.
    destruct (DatabaseManager.get_connection w 1); [| done].
    cbn [mbind result_bind bind]. rewrite Hbind. cbn [mbind result_bind bind].
    destruct (sql_update_hit _ _ _ _ _ _ _ Hupd Hrc) as [r ->]. done.
  - destruct (get_user_by_id_raises _ _ _ _ _ Hget) as [Hc | Hc];
      rewrite Hc; cbn; [by left | by right].
Qed.

Lemma delete_user_state (db db' : database) (w : world) (user_id : Z)
    (res : result bool) :
  DatabaseManager.delete_user db w user_id = (res, db') →
  match res with
  | Ok true => db' = (sql_delete db user_id).1
  | _ => db' = db
  end.
Proof.
  unfold DatabaseManager.delete_user. rewrite try_reraise.
  destruct (DatabaseManager.get_connection w 0); cbn [mbind result_bind bind];
    [| by intros [= <- <-]].
  destruct (bind_int user_id) as [z |] eqn:Hbind; cbn [mbind result_bind bind];
    [| by intros [= <- <-]].
  apply bind_int_inv in Hbind as ->.
  destruct (sql_delete db user_id) as [db1 rc] eqn:Hdel. cbn [fst snd].
  destruct (Z.ltb_spec 0 rc) as [Hrc | Hrc]; intros [= <- <-]; [done |].
  revert Hdel. unfold sql_delete. intros [= <- <-].
  assert (Hnone : ∀ r, r ∈ users db → (row_id r =? user_id)%Z ≠ true)
    by (apply (filter_length_zero (λ r, (row_id r =? user_id)%Z = true)); lia).
  rewrite filter_all, database_eta; [done |].
  intros r Hr. destruct (row_id r =? user_id)%Z eqn:Hhit; [| done].
  by destruct (Hnone r Hr).
Qed.

Lemma dispatch_views_status (ex : exn) (m : string) :
  exn_cls ex = sqlite3_OperationalError ∨ exn_cls ex = OverflowError →
  status_code (flask (dispatch ex [bad_request; conflict; failed m])) = 500%Z.
Proof. intros [Hc | Hc]; cbn; by rewrite Hc. Qed.

(** X15: a request that fails leaves the table as it was.  A create that
    does not answer 201 and a delete that does not answer 200 change
    nothing; an update that answers neither 200 nor 500 changes nothing
    (at 500 the row may have been updated). *)
Theorem failed_requests_change_nothing
    (req : request) (db : database) (w : world) :
  (status_code (create_user req db w).1 ≠ 201%Z → (create_user req db w).2 = db)
  ∧ (∀ s, status_code (delete_user s db w).1 ≠ 200%Z →
          (delete_user s db w).2 = db)
  ∧ (∀ s, status_code (update_user s req db w).1 ≠ 200%Z →
          status_code (update_user s req db w).1 ≠ 500%Z →
          (update_user s req db w).2 = db).
Proof.
  split; [| split].
  - unfold create_user. cbn [fst snd].
    destruct (is_json req); cbn [negb]; [| done].
    destruct (_ ≫= _) as [[[v_name v_email] v_password] |]; [| done].
    destruct (DatabaseManager.create_user db w _ _ _) as [[user | ex] db'] eqn:Hc;
      cbn [fst snd mbind result_bind bind try_except flask status_code]; [done |].
    intros _. by apply create_user_state in Hc.
  - intros s. unfold delete_user. cbn [fst snd].
    destruct (validate_user_id s); [| done].
    destruct (DatabaseManager.delete_user db w _) as [[[|] | ex] db'] eqn:Hd;
      cbn [fst snd mbind result_bind bind try_except flask status_code];
      [done | |]; intros _; by apply delete_user_state in Hd.
  - intros s. unfold update_user. cbn [fst snd].
    destruct (validate_user_id s); [| done].
    destruct (is_json req); cbn [negb]; [| done].
    destruct (_ ≫= _) as [validated_data |]; [| done].
    destruct (DatabaseManager.update_user db w _ _ _) as [res db'] eqn:Hu.
    cbn [fst snd]. apply update_user_state in Hu as [[-> _] | (rc & _ & _ & Hres)];
      [done |].
    destruct res as [[user |] | ex]; [| done |].
    + cbn [mbind result_bind bind if_user]. rewrite Hres. by cbn.
    + intros _ H500. destruct H500. cbn [mbind result_bind bind try_except].
      destruct Hres as [Hc | Hc]; cbn; by rewrite Hc.
Qed.

Lemma update_row_fixed (w : world) (name email : option str) (r : user_row) :
  Invariant.fixed_columns (update_row w name email r) = Invariant.fixed_columns r.
Proof. done. Qed.

Lemma update_user_view_state (s : str) (req : request) (db : database) (w : world) :
  (update_user s req db w).2 = db
  ∨ ∃ n name email rowcount,
      validate_user_id s = Ok n
      ∧ sql_update db w n name email = Ok ((update_user s req db w).2, rowcount).
Proof.
  unfold update_user. cbn [fst snd].
  destruct (validate_user_id s) as [n |]; [| by left].
  destruct (is_json req); cbn [negb]; [| by left].
  destruct (_ ≫= _) as [vd |]; [| by left].
  destruct (DatabaseManager.update_user db w _ _ _) as [res db'] eqn:Hu.
  cbn [snd]. apply update_user_state in Hu as [[-> _] | (rc & Hupd & _)];
    [by left | right; by eexists _, _, _, _].
Qed.

Lemma filter_others_updated (w : world) (n : Z) (name email : option str)
    (rows : list user_row) :
  filter (λ r, row_id r ≠ n)
    ((λ r, if (row_id r =? n)%Z then update_row w name email r else r) <$> rows)
  = filter (λ r, row_id r ≠ n) rows.
Proof.
  induction rows as [| r rows IH]; [done |]. cbn [fmap list_fmap].
  destruct (Z.eqb_spec (row_id r) n) as [Heq | Hne].
  - rewrite !filter_cons_False by (intros Hne; by apply Hne). apply IH.
  - rewrite !filter_cons_True by done. f_equal. apply IH.
Qed.

(** X16: no update, whatever its body and whatever it answers, changes
    the id, the password hash or the creation time of any row, adds or
    removes a row, touches a row with another id, or moves the
    AUTOINCREMENT counter: the password cannot be changed through the
    service. *)
Theorem update_keeps_identity_and_hash
    (s : str) (req : request) (db : database) (w : world) :
  let db' := (update_user s req db w).2 in
  Invariant.fixed_columns <$> users db' = Invariant.fixed_columns <$> users db
  ∧ sqlite_sequence db' = sqlite_sequence db
  ∧ (∀ n, validate_user_id s = Ok n →
          filter (λ r, row_id r ≠ n) (users db')
          = filter (λ r, row_id r ≠ n) (users db)).
Proof.
  intros db'. subst db'.
  destruct (update_user_view_state s req db w)
    as [-> | (n & name & email & rc & Hid & Hupd)]; [done |].
  apply sql_update_Ok in Hupd as (-> & -> & _). split; [| split; [done |]].
  - rewrite <- list_fmap_compose. apply list_fmap_ext. intros i r _. cbn.
    by destruct (row_id r =? n)%Z.
  - intros n' Hid'. rewrite Hid in Hid'. injection Hid' as <-.
    apply filter_others_updated.
Qed.

(** ** What the table keeps *)

Lemma NoDup_fmap_filter {A B} (f : A → B) (Q : A → Prop)
    `{!∀ x, Decision (Q x)} (l : list A) :
  NoDup (f <$> l) → NoDup (f <$> filter Q l).
Proof.
  induction l as [| a l IH]; [done |]. cbn [fmap list_fmap].
  intros [Ha Hl]%NoDup_cons. destruct (decide (Q a)).
  - rewrite filter_cons_True by done. cbn [fmap list_fmap]. apply NoDup_cons.
    split; [| by apply IH]. intros (x & Hx & [_ Hin]%list_elem_of_filter)%list_elem_of_fmap.
    apply Ha. apply list_elem_of_fmap. by exists x.
  - rewrite filter_cons_False by done. by apply IH.
Qed.

Lemma sql_insert_consistent (db db' : database) (w : world)
    (name email password_hash : option str) (rowid : Z) :
  Invariant.consistent db →
  sql_insert db w name email password_hash = Ok (db', rowid) →
  Invariant.consistent db'
  ∧ (sqlite_sequence db < sqlite_sequence db')%Z
  ∧ rowid = sqlite_sequence db'.
Proof.
  intros (Hids & Hemails & Hbound). unfold sql_insert.
  destruct name as [n |], email as [e |], password_hash as [h |]; try done.
  destruct (existsb _ _) eqn:Hex; [done |]. intros [= <- <-]. cbn [sqlite_sequence].
  pose proof (max_rowid_nonneg (users db)) as Hnn.
  split; [| split; [lia | done]].
  unfold Invariant.consistent. cbn [users sqlite_sequence].
  rewrite !fmap_app. cbn [fmap list_fmap]. split; [| split].
  - apply NoDup_app. split; [done |]. split; [| apply NoDup_singleton].
    intros x (r & -> & Hr)%list_elem_of_fmap Heq%list_elem_of_singleton.
    apply max_rowid_ge in Hr. cbn in Heq. lia.
  - apply NoDup_app. split; [done |]. split; [| apply NoDup_singleton].
    intros x (r & -> & Hr)%list_elem_of_fmap Heq%list_elem_of_singleton.
    cbn in Heq. apply not_true_iff_false in Hex. apply Hex, existsb_elem_of.
    exists r. split; [done | by apply bool_decide_eq_true].
  - apply Forall_app. split.
    + eapply Forall_impl; [done |]. cbn. intros r ?. lia.
    + apply Forall_singleton. cbn. lia.
Qed.

Lemma sql_delete_consistent (db : database) (user_id : Z) :
  Invariant.consistent db → Invariant.consistent (sql_delete db user_id).1.
Proof.
  intros (Hids & Hemails & Hbound). unfold sql_delete, Invariant.consistent.
  cbn [fst users sqlite_sequence]. split; [| split].
  - by apply NoDup_fmap_filter.
  - by apply NoDup_fmap_filter.
  - apply Forall_forall. intros r [_ Hr]%list_elem_of_filter.
    by apply (proj1 (Forall_forall _ _) Hbound).
Qed.

Lemma updated_emails_NoDup (w : world) (n : Z) (name email : option str)
    (rows : list user_row) :
  NoDup (row_id <$> rows) → NoDup (row_email <$> rows) →
  (∀ e r r', email = Some e → r ∈ rows → row_id r = n →
             r' ∈ rows → row_id r' ≠ n → row_email r' ≠ e) →
  NoDup (row_email
           <$> ((λ r, if (row_id r =? n)%Z then update_row w name email r else r)
                  <$> rows)).
Proof.
  induction rows as [| a rows IH]; [constructor |].
  cbn [fmap list_fmap]. intros [Hid Hids]%NoDup_cons [Hem Hems]%NoDup_cons Hno.
  apply NoDup_cons. split.
  - intros (r' & Heq & (r & -> & Hr)%list_elem_of_fmap)%list_elem_of_fmap.
    destruct (Z.eqb_spec (row_id a) n) as [Ha | Ha],
             (Z.eqb_spec (row_id r) n) as [Hrn | Hrn].
    + apply Hid, list_elem_of_fmap. exists r. split; [congruence | done].
    + cbn in Heq. destruct email as [e |]; cbn in Heq.
      * eapply (Hno e a r); [done | left | done | by right | done | done].
      * apply Hem, list_elem_of_fmap. by exists r.
    + cbn in Heq. destruct email as [e |]; cbn in Heq.
      * eapply (Hno e r a); [done | by right | done | left | done | done].
      * apply Hem, list_elem_of_fmap. by exists r.
    + apply Hem, list_elem_of_fmap. by exists r.
  - apply IH; [done | done |]. intros e r r' He Hr Hrid Hr' Hr'id.
    apply (Hno e r r'); [done | by right | done | by right | done].
Qed.

Lemma sql_update_consistent (db db' : database) (w : world) (user_id : Z)
    (name email : option str) (rowcount : Z) :
  Invariant.consistent db →
  sql_update db w user_id name email = Ok (db', rowcount) →
  Invariant.consistent db'.
Proof.
  intros (Hids & Hemails & Hbound) Hupd.
  assert (Hno : ∀ e r r', email = Some e → r ∈ users db → row_id r = user_id →
                          r' ∈ users db → row_id r' ≠ user_id → row_email r' ≠ e).
  { intros e r r' -> Hr Hrid Hr' Hr'id He. revert Hupd. unfold sql_update.
    replace (existsb _ _ && existsb _ _) with true; [done |].
    symmetry. apply andb_true_iff. split; apply existsb_elem_of.
    - exists r. split; [done | by apply Z.eqb_eq].
    - exists r'. split; [done |]. apply andb_true_iff. split.
      + by apply negb_true_iff, Z.eqb_neq.
      + by apply bool_decide_eq_true. }
  destruct (sql_update_Ok _ _ _ _ _ _ _ Hupd) as (Husers & Hseq & _).
  unfold Invariant.consistent. rewrite Husers, Hseq.
  assert (Hsame : row_id <$> ((λ r, if (row_id r =? user_id)%Z
                                    then update_row w name email r else r)
                                <$> users db) = row_id <$> users db).
  { rewrite <- list_fmap_compose. apply list_fmap_ext. intros i r _. cbn.
    by destruct (row_id r =? user_id)%Z. }
  split; [by rewrite Hsame |]. split; [by apply updated_emails_NoDup |].
  apply Forall_fmap. eapply Forall_impl; [done |]. intros r Hr. cbn.
  by destruct (row_id r =? user_id)%Z.
Qed.

Lemma handle_state (ep : endpoint) (req : request) (db : database) (w : world) :
  let db' := (handle ep req db w).2 in
  db' = db
  ∨ (∃ name email h rowid, sql_insert db w name email h = Ok (db', rowid))
  ∨ (∃ n name email rowcount, sql_update db w n name email = Ok (db', rowcount))
  ∨ (∃ n, db' = (sql_delete db n).1).
Proof.
  destruct ep; cbn [handle snd]; try by left.
  - unfold create_user. cbn [snd].
    destruct (is_json req); cbn [negb]; [| by left].
    destruct (_ ≫= _) as [[[v_name v_email] v_password] |]; [| by left].
    destruct (DatabaseManager.create_user db w _ _ _) as [[user | ex] db'] eqn:Hc;
      cbn [snd]; apply create_user_state in Hc.
    + destruct Hc as (n & e & h & _ & _ & _ & Hins & _).
      right; left. by eexists _, _, _, _.
    + by left.
  - destruct (update_user_view_state user_id req db w)
      as [-> | (n & name & email & rc & _ & Hupd)]; [by left |].
    right; right; left. by eexists _, _, _, _.
  - unfold delete_user. cbn [snd].
    destruct (validate_user_id user_id) as [n |]; [| by left].
    destruct (DatabaseManager.delete_user db w n) as [[[|] | ex] db'] eqn:Hd;
      cbn [snd]; apply delete_user_state in Hd; subst db';
      [right; right; right; by eexists | by left | by left].
Qed.

Lemma handle_consistent (ep : endpoint) (req : request) (db : database) (w : world) :
  Invariant.consistent db →
  Invariant.consistent (handle ep req db w).2
  ∧ (sqlite_sequence db ≤ sqlite_sequence (handle ep req db w).2)%Z.
Proof.
  intros Hdb.
  destruct (handle_state ep req db w)
    as [-> | [(name & email & h & rowid & Hins)
       | [(n & name & email & rc & Hupd) | (n & ->)]]].
  - done.
  - destruct (sql_insert_consistent _ _ _ _ _ _ _ Hdb Hins) as (? & ? & _).
    split; [done | lia].
  - split; [by eapply sql_update_consistent |].
    apply sql_update_Ok in Hupd as (_ & -> & _). done.
  - split; [by apply sql_delete_consistent | done].
Qed.

Lemma serve_consistent (requests : list (endpoint * request * world))
    (db : database) :
  Invariant.consistent db →
  Invariant.consistent (Invariant.serve requests db)
  ∧ (sqlite_sequence db ≤ sqlite_sequence (Invariant.serve requests db))%Z.
Proof.
  revert db. induction requests as [| [[ep req] w] rest IH]; intros db Hdb; [done |].
  cbn [Invariant.serve].
  destruct (handle_consistent ep req db w Hdb) as [Hdb' Hseq].
  destruct (IH _ Hdb') as [? ?]. split; [done | lia].
Qed.

(** X17: every sequence of requests keeps the table consistent: ids
    stay positive, pairwise different and at most the AUTOINCREMENT
    counter, e-mails stay pairwise different, and the counter never
    decreases. *)
Theorem requests_keep_table_consistent
    (requests : list (endpoint * request * world)) (db : database) :
  Invariant.consistent db →
  Invariant.consistent (Invariant.serve requests db)
  ∧ (sqlite_sequence db ≤ sqlite_sequence (Invariant.serve requests db))%Z.
Proof. apply serve_consistent. Qed.

(** X18: an id is never given twice.  Starting from a consistent table,
    after any sequence of requests (deletes among them), a create returns
    an id greater than the id of every row the table had at the start. *)
Theorem ids_are_never_reused
    (requests : list (endpoint * request * world)) (db db' : database)
    (w : world) (name email : option str) (password : str)
    (user : gmap str pyval) (r : user_row) :
  Invariant.consistent db →
  r ∈ users db →
  DatabaseManager.create_user (Invariant.serve requests db) w name email password
  = (Ok user, db') →
  ∃ rowid, user !! u "id" = Some (VInt rowid) ∧ (row_id r < rowid)%Z.
Proof.
  intros Hdb Hr Hcreate.
  destruct (serve_consistent requests db Hdb) as [_ Hseq].
  apply create_user_state in Hcreate as (n & e & h & _ & _ & _ & _ & _ & Hid).
  eexists. split; [done |].
  destruct Hdb as (_ & _ & Hbound).
  pose proof (proj1 (Forall_forall _ _) Hbound r Hr). cbn in *. lia.
Qed.

(** ** Passwords that cannot be hashed or verified *)

Lemma dict_all_find_truthy (o : option user_row) :
  ∀ user, dict_all <$> o = Some user → truthy (VDict user) = true.
Proof. destruct o as [r |]; [| done]. intros user [= <-]. apply dict_all_truthy. Qed.

(** X19: [login] does not validate the password.  With a password that
    is not a string (a number, [null], a list) the answer depends on
    whether the e-mail is known: 401 when no user has it, and 500 when a
    user has it, because verification is only attempted then and fails
    on the value. *)
Theorem login_with_non_string_password
    (req : request) (data : pyval) (ld : login_data) (db : database) (w : world) :
  is_json req = true → get_json req = Ok data →
  validate_login_data data = Ok ld →
  isinstance_str (ld_password ld) = false →
  fault w 0 = None →
  login req db w =
    match find (λ r, bool_decide (row_email r = ld_email ld)) (users db) with
    | None => create_error_response (u "Invalid email or password") 401
    | Some _ => create_error_response (u "Failed to authenticate user") 500
    end.
Proof.
  intros Hjson Hdata Hld Hstr Hfault.
  rewrite (login_unfold _ _ _ _ _ Hjson Hdata Hld).
  rewrite (authenticate_user_unfold _ _ _ _ Hfault).
  destruct (find _ _) as [r |]; [| done].
  unfold DatabaseManager.verify_password.
  by destruct (ld_password ld).
Qed.

Lemma encode_utf8_surrogate (s : str) :
  forallb (λ c, negb (in_range 55296 57343 c)) s = false →
  encode_utf8 s = raise UnicodeEncodeError (u "surrogates not allowed").
Proof. intros Hs. unfold encode_utf8. by rewrite Hs. Qed.

(** X20: a password with a lone surrogate passes [validate_password] when
    it has the length, a letter and a digit, and cannot be encoded for
    hashing; the encoding error is a [ValueError], so the create is
    answered 409, the code of a duplicate e-mail, although no e-mail is
    duplicated, and nothing is stored. *)
Theorem unencodable_password_is_conflict
    (req : request) (data : pyval) (n e p : str) (db : database) (w : world) :
  is_json req = true → get_json req = Ok data →
  validate_create_user_data data
  = Ok (<[u "name" := n]> (<[u "email" := e]> (<[u "password" := p]> ∅))) →
  fault w 0 = None →
  forallb (λ c, negb (in_range 55296 57343 c)) p = false →
  issubclass UnicodeEncodeError ValueError = true
  ∧ ∃ m, create_user req db w = (create_error_response m 409, db).
Proof.
  intros Hjson Hdata Hvd Hfault Hsur. split; [done |].
  rewrite (create_user_unfold _ _ _ _ _ _ _ Hjson Hdata Hvd).
  unfold DatabaseManager.create_user, DatabaseManager.get_connection,
    DatabaseManager.hash_password.
  rewrite Hfault, (encode_utf8_surrogate _ Hsur). by eexists.
Qed.

(** ** Searching *)

Lemma ascii_lower_wildcard (a b : N) (k : N) :
  k = 37 ∨ k = 95 → ascii_lower a = ascii_lower b → (a =? k) = (b =? k).
Proof.
  intros Hk Hab.
  assert (Hfix : ∀ x, ascii_lower x = k ↔ x = k).
  { intros x. unfold ascii_lower, in_range.
    destruct (65 <=? x) eqn:H1, (x <=? 90) eqn:H2; cbn;
      try apply N.leb_le in H1; try apply N.leb_le in H2; lia. }
  destruct (N.eqb_spec a k) as [Ha | Ha], (N.eqb_spec b k) as [Hb | Hb]; try done.
  - destruct Hb. apply Hfix. rewrite <- Hab. by apply Hfix.
  - destruct Ha. apply Hfix. rewrite Hab. by apply Hfix.
Qed.

Lemma like_pattern_case (p1 p2 s : str) :
  ascii_lower <$> p1 = ascii_lower <$> p2 → like p1 s = like p2 s.
Proof.
  revert p2 s. induction p1 as [| a p1 IH]; intros [| b p2] s; try done.
  cbn [fmap list_fmap]. intros [= Hab Htl].
  pose proof (ascii_lower_wildcard a b 37 (or_introl eq_refl) Hab) as H37.
  pose proof (ascii_lower_wildcard a b 95 (or_intror eq_refl) Hab) as H95.
  destruct (N.eqb_spec a 37) as [-> | Ha37].
  { symmetry in H37. apply N.eqb_eq in H37 as ->.
    induction s as [| c s IHs].
    - by rewrite (like_percent p1 []), (like_percent p2 []), (IH p2).
    - rewrite (like_percent p1 (c :: s)), (like_percent p2 (c :: s)).
      by rewrite (IH p2), IHs. }
  symmetry in H37. apply N.eqb_neq in H37.
  cbn [like].
  replace (a =? 37) with false by (symmetry; by apply N.eqb_neq).
  replace (b =? 37) with false by (symmetry; by apply N.eqb_neq).
  rewrite <- H95. destruct (a =? 95).
  - destruct s; [done |]. by apply IH.
  - destruct s as [| c s]; [done |]. unfold like_eq. rewrite Hab.
    by rewrite (IH p2).
Qed.

(** X21: [search_users_by_name] does not depend on the case of the ASCII
    letters of the term: two terms that agree up to case return the same
    users. *)
Theorem search_ignores_case_of_term
    (db : database) (w : world) (t1 t2 : str) :
  ascii_lower <$> t1 = ascii_lower <$> t2 →
  DatabaseManager.search_users_by_name db w t1
  = DatabaseManager.search_users_by_name db w t2.
Proof.
  intros Ht. unfold DatabaseManager.search_users_by_name.
  destruct (DatabaseManager.get_connection w 0); [| done].
  cbn [mbind result_bind bind try_except]. do 2 f_equal.
  apply list_filter_iff. intros r.
  rewrite (like_pattern_case ([37] ++ t1 ++ [37]) ([37] ++ t2 ++ [37])); [done |].
  rewrite !fmap_app. by rewrite Ht.
Qed.

(** ** Status codes *)

(** A concrete code is in a concrete list; a code known to be in one
    list is in a longer one. *)
Ltac in_list :=
  repeat first [apply list_elem_of_here | apply list_elem_of_further].

Ltac in_codes := cbn -[elem_of]; in_list.

Ltac widen H :=
  repeat (apply elem_of_cons in H as [H | H]; [rewrite H; in_list |]);
  by apply elem_of_nil in H.

Lemma dispatch_status (ex : exn) (m : string) :
  status_code (flask (dispatch ex [failed m])) = 500%Z
  ∧ status_code (flask (dispatch ex [bad_request; failed m])) ∈ [400; 500]%Z
  ∧ status_code (flask (dispatch ex [bad_request; conflict; failed m]))
    ∈ [400; 409; 500]%Z.
Proof.
  cbn. rewrite issubclass_Exception.
  destruct (issubclass (exn_cls ex) ValidationError),
           (issubclass (exn_cls ex) ValueError); cbn; repeat split; in_list.
Qed.

Lemma view_status (run : result response) (clauses : list _) (codes : list Z) :
  (∀ r, run = Ok r → status_code r ∈ codes) →
  (∀ ex, status_code (flask (dispatch ex clauses)) ∈ codes) →
  status_code (flask (try_except run clauses)) ∈ codes.
Proof. intros Hok Hraise. destruct run as [r | ex]; cbn; [by apply Hok | apply Hraise]. Qed.

Lemma if_user_status (user : option (gmap str pyval))
    (yes : gmap str pyval → result response) (no r : response) (codes : list Z) :
  (∀ d r, yes d = Ok r → status_code r ∈ codes) →
  status_code no ∈ codes →
  if_user user yes (Ok no) = Ok r → status_code r ∈ codes.
Proof.
  intros Hyes Hno. unfold if_user.
  destruct user as [d |]; [destruct (truthy _); [by apply Hyes |] |];
    by intros [= <-].
Qed.

(** X22: each view answers with one of its own status codes only:
    list-all 200 or 500; fetch and delete 200, 400, 404 or 500; create
    201, 400, 409 or 500; update 200, 400, 404, 409 or 500; search 200,
    400 or 500; login 200, 400, 401 or 500.  So a fetch, a delete, a
    search or a login is never answered 409, and only a login 401. *)
Theorem status_codes_by_endpoint
    (ep : endpoint) (req : request) (db : database) (w : world) :
  status_code (handle ep req db w).1 ∈ Status.codes ep.
Proof.
  destruct ep; cbn [handle fst Status.codes]; try (cbn; by in_list).
  - apply view_status; [| intros ex; rewrite (proj1 (dispatch_status ex _)); in_list].
    intros r. destruct (DatabaseManager.get_all_users db w); cbn; [| done].
    intros [= <-]. in_codes.
  - apply view_status.
    2:{ intros ex. destruct (dispatch_status ex "Failed to retrieve user") as (_ & H & _).
        widen H. }
    intros r. destruct (validate_user_id user_id); cbn; [| done].
    destruct (DatabaseManager.get_user_by_id db w 0 _); cbn; [| done].
    apply if_user_status; [| in_codes]. intros d r' [= <-]. in_codes.
  - unfold create_user. cbn [fst]. apply view_status.
    2:{ intros ex. destruct (dispatch_status ex "Failed to create user") as (_ & _ & H).
        widen H. }
    intros r. destruct (is_json req); cbn [negb fst]; [| intros [= <-]; in_codes].
    destruct (_ ≫= _) as [[[v_name v_email] v_password] |]; cbn [fst]; [| done].
    destruct (DatabaseManager.create_user db w _ _ _) as [[user |] db'];
      cbn; [| done].
    intros [= <-]. in_codes.
  - unfold update_user. cbn [fst]. apply view_status.
    2:{ intros ex. destruct (dispatch_status ex "Failed to update user") as (_ & _ & H).
        widen H. }
    intros r. destruct (validate_user_id user_id); cbn [fst]; [| done].
    destruct (is_json req); cbn [negb fst]; [| intros [= <-]; in_codes].
    destruct (_ ≫= _) as [validated_data |]; cbn [fst]; [| done].
    destruct (DatabaseManager.update_user db w _ _ _) as [[updated |] db'];
      cbn; [| done].
    apply if_user_status; [| in_codes]. intros d r' [= <-]. in_codes.
  - unfold delete_user. cbn [fst]. apply view_status.
    2:{ intros ex. destruct (dispatch_status ex "Failed to delete user") as (_ & H & _).
        widen H. }
    intros r. destruct (validate_user_id user_id); cbn [fst]; [| done].
    destruct (DatabaseManager.delete_user db w _) as [[[|] |] db']; cbn;
      [| | done]; intros [= <-]; in_codes.
  - apply view_status.
    2:{ intros ex. destruct (dispatch_status ex "Failed to search users") as (_ & H & _).
        widen H. }
    intros r. cbn zeta. destruct (negb _); [intros [= <-]; in_codes |].
    destruct (validate_search_name _); cbn; [| done].
    destruct (DatabaseManager.search_users_by_name db w _); cbn; [| done].
    intros [= <-]. in_codes.
  - apply view_status.
    2:{ intros ex.
        destruct (dispatch_status ex "Failed to authenticate user") as (_ & H & _).
        widen H. }
    intros r. destruct (is_json req); cbn [negb]; [| intros [= <-]; in_codes].
    destruct (get_json req); cbn; [| done].
    destruct (validate_login_data _); cbn; [| done].
    destruct (DatabaseManager.authenticate_user db w _ _); cbn; [| done].
    apply if_user_status; [| in_codes]. intros d r' [= <-]. in_codes.
Qed.

(** ** init_db.py *)

(** One turn of the loop: the sample is created, or skipped when its
    e-mail is in the table. *)
Lemma create_sample_step (db : database) (w : world) (n e p h : str) :
  fault w 0 = None →
  DatabaseManager.hash_password w p = Ok h →
  ∃ db',
    DatabaseManager.create_user db w (Some n) (Some e) p
    = ((DatabaseManager.create_user db w (Some n) (Some e) p).1, db')
    ∧ try_except (_ ← (DatabaseManager.create_user db w (Some n) (Some e) p).1; Ok ())
        [(ValueError, λ _, Ok ())] = Ok ()
    ∧ users db `prefix_of` users db'
    ∧ (∃ r, r ∈ users db' ∧ row_email r = e)
    ∧ ((∃ r, r ∈ users db ∧ row_email r = e) → db' = db).
Proof.
  intros Hfault Hhash.
  destruct (existsb (λ r, bool_decide (row_email r = e)) (users db)) eqn:Hex.
  - apply existsb_elem_of in Hex as (r & Hr & He%bool_decide_eq_true).
    exists db.
    rewrite (create_user_integrity db w (Some n) (Some e) p h
               (MkExn sqlite3_IntegrityError (u "UNIQUE constraint failed: users.email"))
               Hfault Hhash (insert_user_duplicate _ _ _ _ _ _ Hr He)).
    split; [done |]. split; [done |]. split; [done |].
    split; [by exists r | done].
  - assert (Hfresh : ∀ r, r ∈ users db → row_email r ≠ e).
    { intros r Hr He. apply not_true_iff_false in Hex. apply Hex.
      apply existsb_elem_of. exists r. split; [done | by apply bool_decide_eq_true]. }
    rewrite (create_user_fresh _ _ n _ _ _ Hfault Hhash Hfresh).
    eexists. split; [done |]. split; [done |]. cbn [users]. split; [| split].
    + by apply prefix_app_r.
    + eexists. split; [apply elem_of_app; right; by apply list_elem_of_singleton |].
      done.
    + intros (r & Hr & He). by destruct (Hfresh r Hr).
Qed.

Lemma create_samples_run (samples : list (str * str * str)) (db : database)
    (ws : nat → world) (k : nat) :
  (∀ j, fault (ws j) 0 = None) →
  (∀ j n e p, (n, e, p) ∈ samples →
              ∃ h, DatabaseManager.hash_password (ws j) p = Ok h) →
  ∃ db',
    InitDb.create_samples samples db ws k = (Ok (), db')
    ∧ users db `prefix_of` users db'
    ∧ (∀ n e p, (n, e, p) ∈ samples → ∃ r, r ∈ users db' ∧ row_email r = e)
    ∧ ((∀ n e p, (n, e, p) ∈ samples → ∃ r, r ∈ users db ∧ row_email r = e) →
       db' = db).
Proof.
  intros Hfault. revert db k.
  induction samples as [| [[n e] p] rest IH]; intros db k Hhash.
  { exists db. split; [done |]. split; [done |]. split; [| done].
    by intros n e p ?%elem_of_nil. }
  destruct (Hhash k n e p) as [h Hh]; [left |].
  destruct (create_sample_step db (ws k) n e p h (Hfault k) Hh)
    as (db1 & Hcreate & Htry & Hpre1 & (r1 & Hr1 & He1) & Hsame1).
  destruct (IH db1 (S k)) as (db' & Hrun & Hpre & Hall & Hsame).
  { intros j n' e' p' Hin. apply (Hhash j n' e' p'). by right. }
  exists db'. cbn [InitDb.create_samples]. rewrite Hcreate, Htry.
  split; [done |]. split; [by etrans |]. split.
  - intros n' e' p' [[= -> -> ->] | Hin]%elem_of_cons; [| by eapply Hall].
    exists r1. split; [| done]. destruct Hpre as [tl ->].
    apply elem_of_app. by left.
  - intros Hpresent. rewrite Hsame.
    + apply Hsame1. apply (Hpresent n e p). left.
    + rewrite Hsame1 by (apply (Hpresent n e p); left).
      intros n' e' p' Hin. apply (Hpresent n' e' p'). by right.
Qed.

(** X23: when the store answers and bcrypt hashes the three sample
    passwords, the set-up script ends without an error, keeps every row
    the table had, in order, and leaves a row for each of the three
    sample e-mails; a sample whose e-mail is already there is skipped, so
    running the script on its own result changes nothing. *)
Theorem init_database_idempotent (db : database) (ws ws' : nat → world) :
  (∀ j, fault (ws j) 0 = None) → (∀ j, fault (ws' j) 0 = None) →
  (∀ j n e p, (n, e, p) ∈ InitDb.sample_users →
              (∃ h, DatabaseManager.hash_password (ws j) p = Ok h)
              ∧ (∃ h, DatabaseManager.hash_password (ws' j) p = Ok h)) →
  ∃ db',
    InitDb.init_database db ws = (Ok (), db')
    ∧ users db `prefix_of` users db'
    ∧ (∀ e, e ∈ [u "john@example.com"; u "jane@example.com"; u "bob@example.com"] →
            ∃ r, r ∈ users db' ∧ row_email r = e)
    ∧ InitDb.init_database db' ws' = (Ok (), db').
Proof.
  intros Hfault Hfault' Hhash.
  destruct (create_samples_run InitDb.sample_users db ws 1 Hfault)
    as (db' & Hrun & Hpre & Hall & _).
  { intros j n e p Hin. by destruct (Hhash j n e p Hin). }
  destruct (create_samples_run InitDb.sample_users db' ws' 1 Hfault')
    as (db'' & Hrun' & _ & _ & Hsame).
  { intros j n e p Hin. by destruct (Hhash j n e p Hin). }
  rewrite (Hsame Hall) in Hrun'.
  exists db'. unfold InitDb.init_database, InitDb.init_schema,
    DatabaseManager.get_connection.
  rewrite (Hfault 0%nat), (Hfault' 0%nat), Hrun, Hrun'.
  split; [done |]. split; [done |]. split; [| done].
  intros e He. unfold InitDb.sample_users in Hall.
  repeat (apply elem_of_cons in He as [-> | He];
          [eapply Hall; in_list |]).
  by apply elem_of_nil in He.
Qed.

(** ** Reading back *)

Lemma prefix_ci_refl (t s : str) : Spec.prefix_ci t (t ++ s) = true.
Proof.
  induction t as [| a t IH]; [done |]. cbn [app Spec.prefix_ci].
  rewrite IH. unfold Spec.ci_eq. by rewrite N.eqb_refl.
Qed.

Lemma contains_ci_refl (t : str) : Spec.contains_ci t t = true.
Proof.
  pose proof (prefix_ci_refl t []) as Hp. rewrite app_nil_r in Hp.
  destruct t; cbn [Spec.contains_ci]; by rewrite Hp.
Qed.

(** X24: a name that [validate_name] accepted and that has at most 50
    characters is accepted unchanged as a search term, and a search for
    it returns the public record of every user who has exactly that
    name. *)
Theorem search_finds_user_by_own_name
    (v : pyval) (t : str) (db : database) (w : world) (r : user_row) :
  validate_name v = Ok t → (length t ≤ 50)%nat →
  fault w 0 = None →
  r ∈ users db → row_name r = t →
  validate_search_name (VStr t) = Ok t
  ∧ ∃ l, DatabaseManager.search_users_by_name db w t = Ok l ∧ dict_public r ∈ l.
Proof.
  intros (s & -> & -> & Hlen & Hall)%validate_name_Ok Hlen50 Hfault Hr Hname.
  split.
  - apply validate_search_name_iff. exists (strip s).
    rewrite strip_idemp. repeat split; done || lia.
  - unfold DatabaseManager.search_users_by_name, DatabaseManager.get_connection.
    rewrite Hfault. cbn. eexists. split; [done |].
    apply list_elem_of_fmap. exists r. split; [done |].
    apply list_elem_of_filter. split; [| done].
    rewrite (like_contains _ _ Hall), Hname. apply contains_ci_refl.
Qed.

Lemma delete_hash_dict_all (r : user_row) :
  delete (u "password_hash") (dict_all r) = dict_public r.
Proof.
  unfold dict_all. rewrite delete_insert_eq. apply delete_id, dict_public_no_hash.
Qed.

(** X25: with the store answering, fetching an id that a row has answers
    200 with exactly the five public columns of that row (the hash is
    removed from what the store returned), and listing answers 200 with
    the public columns of every row, in table order; when the store
    cannot be reached both answer 500 with their fixed message, and none
    of the store's error text. *)
Theorem reads_return_public_columns (db : database) (w : world) :
  (∀ (s : str) (n : Z) (r : user_row),
     validate_user_id s = Ok n → (n ≤ 2 ^ 63 - 1)%Z →
     fault w 0 = None →
     find (λ r, (row_id r =? n)%Z) (users db) = Some r →
     get_user s db w
     = ok_200 (create_success_response (Some (VDict (dict_public r)))
                 (u "User retrieved successfully")))
  ∧ (fault w 0 = None →
     get_all_users db w
     = ok_200 (create_success_response
                 (Some (VList (VDict <$> (dict_public <$> users db))))
                 (u "Users retrieved successfully")))
  ∧ (∀ (s : str) (n : Z) (msg : str),
       validate_user_id s = Ok n → fault w 0 = Some msg →
       get_user s db w = create_error_response (u "Failed to retrieve user") 500
       ∧ get_all_users db w
         = create_error_response (u "Failed to retrieve users") 500).
Proof.
  split; [| split].
  - intros s n r Hid Hmax Hfault Hfind.
    pose proof (validate_user_id_positive _ _ Hid) as Hpos.
    rewrite (get_user_unfold _ _ _ _ Hid).
    rewrite get_user_by_id_unfold by (done || apply bind_int_Ok; lia).
    rewrite Hfind. cbn [fmap option_fmap option_map].
    by rewrite dict_all_truthy, delete_hash_dict_all.
  - intros Hfault. unfold get_all_users, DatabaseManager.get_all_users,
      DatabaseManager.get_connection. by rewrite Hfault.
  - intros s n msg Hid Hfault. split.
    + rewrite (get_user_unfold _ _ _ _ Hid).
      unfold DatabaseManager.get_user_by_id, DatabaseManager.get_connection.
      by rewrite Hfault.
    + unfold get_all_users, DatabaseManager.get_all_users,
        DatabaseManager.get_connection. by rewrite Hfault.
Qed.

(** ** The search view and the request body *)

Lemma validate_search_name_raises (v : pyval) (ex : exn) :
  validate_search_name v = Raise ex → exn_cls ex = ValidationError.
Proof.
  unfold validate_search_name. rewrite guard_str.
  destruct v as [| b | z | m e | s | l | d]; try by intros [= <-].
  destruct s as [| c s]; [by intros [= <-] |].
  cbn [mbind result_bind bind as_str].
  repeat case_match; try done; by intros [= <-].
Qed.

(** X26: [search_users] reads only the query parameter [name].  Without
    it, or with an empty one, the answer is 400 "Name parameter is
    required"; a name made of whitespace only is not empty, reaches the
    validator and is answered 400 with the validator's message; a name
    that validates is stripped before the search, and the answer is 200
    with the public columns of the rows whose name contains the stripped
    term up to ASCII case, or 500 when the store cannot be reached. *)
Theorem search_view_cases (req : request) (db : database) (w : world) :
  (args req !! u "name" = None ∨ args req !! u "name" = Some [] →
   search_users req db w
   = create_error_response (u "Name parameter is required") 400)
  ∧ (∀ (s : str) (ex : exn),
       args req !! u "name" = Some s → s ≠ [] →
       validate_search_name (VStr s) = Raise ex →
       search_users req db w = create_error_response (exn_msg ex) 400)
  ∧ (∀ s : str,
       args req !! u "name" = Some s →
       (1 ≤ length (strip s) ≤ 50)%nat →
       forallb name_char (strip s) = true →
       search_users req db w =
         match fault w 0 with
         | None =>
             ok_200 (create_success_response
                       (Some (VList (VDict <$>
                          (dict_public <$>
                             filter (λ r, Spec.contains_ci (strip s) (row_name r) = true)
                               (users db)))))
                       (u "Search completed successfully"))
         | Some _ => create_error_response (u "Failed to search users") 500
         end).
Proof.
  split; [| split].
  - unfold search_users. by intros [-> | ->].
  - intros s ex Hs Hne Hv. unfold search_users. rewrite Hs.
    destruct s as [| c s]; [done |]. cbn [from_option truthy negb].
    rewrite Hv. cbn [mbind result_bind bind try_except dispatch bad_request on_error fst snd].
    by rewrite (validate_search_name_raises _ _ Hv).
  - intros s Hs Hlen Hall. unfold search_users. rewrite Hs.
    destruct s as [| c s]; [cbn in Hlen; lia |]. cbn [from_option truthy negb].
    assert (validate_search_name (VStr (c :: s)) = Ok (strip (c :: s))) as ->.
    { apply validate_search_name_iff. by exists (c :: s). }
    cbn [mbind result_bind bind].
    unfold DatabaseManager.search_users_by_name, DatabaseManager.get_connection.
    destruct (fault w 0) as [msg |]; [done |].
    cbn [mbind result_bind bind try_except flask].
    do 6 f_equal. apply list_filter_iff. intros r.
    by rewrite (like_contains _ _ Hall).
Qed.

(** X27: [create_user], [login] and [update_user] look at the content
    type before the body and before the store: a request that is not
    JSON is answered 400 "Content-Type must be application/json" and
    changes nothing, whatever its body holds; [update_user] validates the
    id first, so there an invalid id is reported instead. *)
Theorem content_type_is_checked_before_body
    (req : request) (db : database) (w : world) :
  is_json req = false →
  create_user req db w
  = (create_error_response (u "Content-Type must be application/json") 400, db)
  ∧ login req db w
    = create_error_response (u "Content-Type must be application/json") 400
  ∧ (∀ s : str,
       update_user s req db w
       = (match validate_user_id s with
          | Ok _ =>
              create_error_response (u "Content-Type must be application/json") 400
          | Raise ex => create_error_response (exn_msg ex) 400
          end, db)).
Proof.
  intros Hjson. split; [| split].
  - unfold create_user. by rewrite Hjson.
  - unfold login. by rewrite Hjson.
  - intros s. unfold update_user.
    destruct (validate_user_id s) as [n | ex] eqn:Hv.
    + by rewrite Hjson.
    + cbn [fst snd try_except dispatch bad_request on_error].
      by rewrite (validate_user_id_raises _ _ Hv).
Qed.

(** X28: a body that cannot be parsed as JSON makes [get_json] raise
    [BadRequest], which is neither a validation error nor a [ValueError]:
    [create_user], [login] and [update_user] (with an id that validates)
    answer 500 with their fixed message, not 400, and change nothing. *)
Theorem malformed_body_is_server_error
    (req : request) (ex : exn) (db : database) (w : world) :
  is_json req = true → get_json req = Raise ex → exn_cls ex = BadRequest →
  create_user req db w = (create_error_response (u "Failed to create user") 500, db)
  ∧ login req db w = create_error_response (u "Failed to authenticate user") 500
  ∧ (∀ (s : str) (n : Z),
       validate_user_id s = Ok n →
       update_user s req db w
       = (create_error_response (u "Failed to update user") 500, db)).
Proof.
  intros Hjson Hbody Hcls. split; [| split].
  - unfold create_user. rewrite Hjson, Hbody.
    cbn [negb mbind result_bind bind fst snd try_except dispatch
         bad_request conflict failed on_error].
    by rewrite Hcls.
  - unfold login. rewrite Hjson, Hbody.
    cbn [negb mbind result_bind bind fst snd try_except dispatch
         bad_request conflict failed on_error].
    by rewrite Hcls.
  - intros s n Hv. unfold update_user. rewrite Hv, Hjson, Hbody.
    cbn [negb mbind result_bind bind fst snd try_except dispatch
         bad_request conflict failed on_error].
    by rewrite Hcls.
Qed.

End Further.

(** * The service on the sample users *)

Import UserValidator App Standin.

(** C1 on the sample users: fetching user 1 answers without the hash, and
    so does the record a create returns. *)
Lemma responses_hide_password_hash_sample :
  Spec.hides_hash (handle (GetUser (u "1")) (json_request VNone) sample_db world0).1
  = true
  ∧ match (DatabaseManager.create_user sample_db world0
             (Some (u "Ann Lee")) (Some (u "ann@example.com")) (u "password1")).1
    with
    | Ok user => user !! u "password_hash" = None
    | Raise _ => False
    end.
Proof.
  destruct (responses_hide_password_hash (P := platform))
    as (Hview & Hcreate & _).
  split; [apply Hview |].
  destruct (DatabaseManager.create_user _ _ _ _ _).1 as [user | ex] eqn:Hc.
  - by eapply Hcreate.
  - by vm_compute in Hc.
Defined.

(** X29 on the sample users: an unknown e-mail and a wrong password get
    the same answer, the right password gets the user. *)
Lemma authentication_failures_are_uniform_sample :
  login (json_request (login_body "nobody@example.com" "password123"))
        sample_db world0
  = create_error_response (u "Invalid email or password") 401
  ∧ login (json_request (login_body "john@example.com" "wrong-password"))
          sample_db world0
    = create_error_response (u "Invalid email or password") 401
  ∧ DatabaseManager.authenticate_user sample_db world0
      (u "john@example.com") (VStr (u "wrong-password")) = Ok None
  ∧ DatabaseManager.authenticate_user sample_db world0
      (u "nobody@example.com") (VStr (u "password123")) = Ok None
  ∧ login (json_request (login_body "john@example.com" "password123"))
          sample_db world0
    = ok_200 (create_success_response
                (Some (VDict (<[u "id" := VInt 1]>
                              (<[u "name" := VStr (u "John Doe")]>
                               (<[u "email" := VStr (u "john@example.com")]>
                                (<[u "created_at" := VStr (u "2024-01-01 00:00:00")]>
                                   ∅))))))
                (u "Login successful")).
Proof.
  destruct (authentication_failures_are_uniform (P := platform))
    as [Hstore Hview].
  split; [| split; [| split; [| split]]].
  - exact (Hview (json_request (login_body "nobody@example.com" "password123"))
             _ (LoginData (u "nobody@example.com") (VStr (u "password123")))
             sample_db world0 eq_refl eq_refl eq_refl).
  - exact (Hview (json_request (login_body "john@example.com" "wrong-password"))
             _ (LoginData (u "john@example.com") (VStr (u "wrong-password")))
             sample_db world0 eq_refl eq_refl eq_refl).
  - exact (proj1 (Hstore sample_db world0 (u "john@example.com")
                    (VStr (u "wrong-password")) eq_refl) eq_refl).
  - exact (Hstore sample_db world0 (u "nobody@example.com")
             (VStr (u "password123")) eq_refl).
  - exact (Hview (json_request (login_body "john@example.com" "password123"))
             _ (LoginData (u "john@example.com") (VStr (u "password123")))
             sample_db world0 eq_refl eq_refl eq_refl).
Defined.

(** C2 at the failing input: the password is the one-character string
    with the surrogate U+D800 (the JSON text ["\ud800"]).  John, who is in
    the table, is answered 500 and an address nobody has 401. *)
Lemma login_reveals_known_email_sample :
  login (json_request (VDict (<[u "email" := VStr (u "john@example.com")]>
                              (<[u "password" := VStr [55296]]> ∅))))
        sample_db world0
  = create_error_response (u "Failed to authenticate user") 500
  ∧ login (json_request (VDict (<[u "email" := VStr (u "nobody@example.com")]>
                                (<[u "password" := VStr [55296]]> ∅))))
          sample_db world0
    = create_error_response (u "Invalid email or password") 401.
Proof.
  split.
  - apply (login_reveals_known_email (P := platform)
             (json_request (VDict (<[u "email" := VStr (u "john@example.com")]>
                                   (<[u "password" := VStr [55296]]> ∅))))
             (VDict (<[u "email" := VStr (u "john@example.com")]>
                     (<[u "password" := VStr [55296]]> ∅)))
             (LoginData (u "john@example.com") (VStr [55296]))
             sample_db world0);
      [reflexivity | reflexivity | reflexivity | reflexivity |].
    right. by exists [55296].
  - apply (login_reveals_known_email (P := platform)
             (json_request (VDict (<[u "email" := VStr (u "nobody@example.com")]>
                                   (<[u "password" := VStr [55296]]> ∅))))
             (VDict (<[u "email" := VStr (u "nobody@example.com")]>
                     (<[u "password" := VStr [55296]]> ∅)))
             (LoginData (u "nobody@example.com") (VStr [55296]))
             sample_db world0);
      [reflexivity | reflexivity | reflexivity | reflexivity |].
    right. by exists [55296].
Defined.

(** C3 on the sample users: the first create of Ann succeeds, and a second
    one whose address differs only in case and surrounding blanks is the
    conflict and changes nothing. *)
Lemma duplicate_email_is_conflict_sample :
  let req1 := json_request (create_body "Ann Lee" "Ann@Example.com" "password1") in
  let req2 := json_request (create_body "Ann Other" " ann@example.COM " "password2") in
  let first := create_user req1 sample_db world0 in
  let second := create_user req2 first.2 world0 in
  status_code first.1 = 201%Z
  ∧ second = (create_error_response (u "Email already exists") 409, first.2)
  ∧ validate_email (VStr (u "Ann@Example.com"))
    = validate_email (VStr (u " ann@example.COM ")).
Proof.
  intros req1 req2 first second.
  destruct (duplicate_email_is_conflict (P := platform))
    as (_ & _ & _ & Hdup & Hfresh & Hcase & _).
  destruct (Hfresh req1 _ _ (u "ann@example.com") (u "password1")
              (digest (u "password1") (u "salt")) sample_db world0
              eq_refl eq_refl eq_refl eq_refl eq_refl eq_refl eq_refl)
    as (resp & db' & r' & Hfirst & Hstatus & _ & Hr' & He').
  { intros r Hr He. vm_compute in Hr.
    repeat (apply elem_of_cons in Hr as [-> | Hr]; [by vm_compute in He |]).
    by apply elem_of_nil in Hr. }
  fold first in Hfirst. split; [by rewrite Hfirst |]. split.
  - subst second. rewrite Hfirst. cbn [snd].
    exact (Hdup req2 _ _ (u "ann@example.com") (u "password2")
             (digest (u "password2") (u "salt")) db' world0 r'
             eq_refl eq_refl eq_refl eq_refl eq_refl eq_refl eq_refl Hr' He').
  - by apply Hcase.
Defined.

(** C4 on the sample users: fetching a user that does not exist is an
    error, so its body is the envelope with the keys [error] and
    [status]. *)
Lemma error_envelope_sample :
  ∃ m : str,
    body (get_user (u "999") sample_db world0)
    = <[u "error" := VStr m]> (<[u "status" := VStr (u "error")]> ∅)
    ∧ status_code (get_user (u "999") sample_db world0) ∈ Spec.error_codes.
Proof.
  destruct (error_envelope (P := platform) (GetUser (u "999"))
              (json_request VNone) sample_db world0)
    as (m & Hbody & Hcode & _).
  - left. by vm_compute.
  - by exists m.
Defined.

(** C4 fails as it is worded: the 404 for a user that does not exist has
    the description under [error] and has no key [message]. *)
Lemma error_response_without_message_key :
  let r := get_user (u "999") sample_db world0 in
  status_code r = 404%Z
  ∧ body r !! u "status" = Some (VStr (u "error"))
  ∧ body r !! u "error" = Some (VStr (u "User not found"))
  ∧ body r !! u "message" = None.
Proof. by vm_compute. Qed.

(** C5 on an example: a name with blanks around it is returned
    stripped. *)
Lemma validate_name_cases_sample : validate_name (VStr (u " Jo ")) = Ok (u "Jo").
Proof.
  destruct validate_name_cases as (Hok & _).
  apply Hok. exists (u " Jo "). repeat split; vm_compute; lia || done.
Defined.

(** C5 fails as it is worded: ["A\tB"] has a tab, which is outside
    [[A-Za-z \-']], and is accepted. *)
Lemma validate_name_accepts_tab :
  let s := [65; 9; 66] in
  strip s = s
  ∧ existsb (λ c, negb (Spec.name_char c)) (strip s) = true
  ∧ validate_name (VStr s) = Ok s.
Proof. done. Qed.

(** C6 fails as it is worded: seven times the letter U+00E9 (e with an
    acute accent) and the digit 1 make a password of 8 characters with an
    alphabetic character and a digit, and it is rejected for having no
    letter, because the letter has to be one of [[a-zA-Z]]. *)
Lemma validate_password_rejects_accented_letters :
  let p := [233; 233; 233; 233; 233; 233; 233; 49] in
  length p = 8%nat
  ∧ existsb Spec.alphabetic p = true
  ∧ existsb is_ascii_digit p = true
  ∧ validate_password (VStr p)
    = raise ValidationError (u "Password must contain at least one letter").
Proof. done. Qed.

(** C6 on an example. *)
Lemma validate_password_cases_sample :
  validate_password (VStr (u "abcdefg1")) = Ok (u "abcdefg1").
Proof.
  destruct (validate_password_cases (P := platform)) as (Hok & _).
  apply Hok. repeat split; vm_compute; lia || done.
Defined.

(** C8 on the sample users: "john" finds John Doe and Bob Johnson and not
    Jane Smith. *)
Lemma search_users_by_name_matches_sample :
  DatabaseManager.search_users_by_name sample_db world0 (u "john")
  = Ok [dict_public (row 1 "John Doe" "john@example.com" "password123");
        dict_public (row 3 "Bob Johnson" "bob@example.com" "qwerty789")]
  ∧ Spec.contains_ci (u "john") (u "John Doe") = true
  ∧ Spec.contains_ci (u "john") (u "Bob Johnson") = true
  ∧ Spec.contains_ci (u "john") (u "Jane Smith") = false.
Proof.
  destruct (search_users_by_name_matches sample_db world0 (VStr (u " john "))
              (u "john") eq_refl eq_refl) as (Hsearch & _).
  split; [| done]. rewrite Hsearch. reflexivity.
Defined.


(** C10 fails as it is worded: [int] parses ["-42"] and ["0"], and
    [validate_user_id] rejects both because the value is not positive. *)
Lemma validate_user_id_rejects_parsed_nonpositive :
  int (u "-42") = Ok (-42)%Z
  ∧ validate_user_id (u "-42")
    = raise ValidationError (u "User ID must be a positive integer")
  ∧ int (u "0") = Ok 0%Z
  ∧ validate_user_id (u "0")
    = raise ValidationError (u "User ID must be a positive integer").
Proof. repeat split; by vm_compute. Qed.

(** C10 on the example. *)
Lemma validate_user_id_accepts_int_syntax_sample :
  int (u " +4_2 ") = Ok 42%Z ∧ validate_user_id (u " +4_2 ") = Ok 42%Z.
Proof.
  destruct (validate_user_id_accepts_int_syntax (P := platform))
    as (Hint & Hliteral & _).
  assert (Hparse : int (u " +4_2 ") = Ok 42%Z).
  { apply (Hliteral (u " ") (u " ") (Some false) 4 [(true, 2)]);
      [done | done | done | | cbn; lia].
    by repeat constructor. }
  split; [done |]. by apply Hint.
Defined.

(** * Further properties on the sample users *)

Import UserValidator App Standin Cases.

(** X1 on an example. *)
Lemma validate_search_name_result_sample :
  validate_search_name (VStr (u " john ")) = Ok (u "john")
  ∧ Forall (λ c, c ≠ 37 ∧ c ≠ 95) (u "john").
Proof.
  destruct validate_search_name_result as (Hres & Hok & _).
  assert (H : validate_search_name (VStr (u " john ")) = Ok (u "john")).
  { apply (Hok (u " john ")); [vm_compute; lia | reflexivity]. }
  split; [done |]. by destruct (Hres _ _ H) as (_ & _ & ? & _).
Defined.

(** X2 on an example. *)
Lemma validators_idempotent_sample : validate_name (VStr (u "Jo")) = Ok (u "Jo").
Proof.
  destruct (validators_idempotent (P := platform)) as (Hname & _).
  exact (Hname (VStr (u " Jo ")) (u "Jo") eq_refl).
Defined.

(** X3 on an example. *)
Lemma validate_email_result_sample :
  ∃ s, VStr (u " John@Example.COM ") = VStr s ∧ s ≠ []
       ∧ email_validator_normalized (lower (strip s)) = Ok (u "john@example.com").
Proof.
  destruct (validate_email_result (P := platform)) as (Hok & _).
  exact (Hok (VStr (u " John@Example.COM ")) (u "john@example.com") eq_refl).
Defined.

(** X4 on an example: an invalid name and no password. *)
Lemma validate_create_user_data_result_sample :
  validate_create_user_data
    (VDict (<[u "name" := VInt 5]> (<[u "email" := VStr (u "a@b.c")]> ∅)))
  = raise ValidationError (u "Missing required field: password").
Proof.
  destruct (validate_create_user_data_result (P := platform))
    as (_ & _ & _ & Hpw & _).
  apply Hpw; [by eexists | by eexists | done].
Defined.

(** X5 on an example: a body with a password only. *)
Lemma validate_update_user_data_result_sample :
  validate_update_user_data (VDict {[u "password" := VStr (u "newpass123")]})
  = raise ValidationError
      (u "At least one field (name or email) must be provided for update").
Proof.
  destruct (validate_update_user_data_result (P := platform)) as (Hnone & _).
  by apply Hnone.
Defined.

(** X6 on an example: a numeric password is passed on. *)
Lemma validate_login_data_result_sample :
  validate_login_data
    (VDict (<[u "email" := VStr (u "John@example.com")]>
            (<[u "password" := VInt 5]> ∅)))
  = Ok (LoginData (u "john@example.com") (VInt 5)).
Proof.
  destruct (validate_login_data_result (P := platform)) as (Hiff & _).
  apply Hiff. eexists _, (VStr (u "John@example.com")).
  split; [done |]. by repeat split.
Defined.

(** X7 on the sample users: Jane is deleted and then not found. *)
Lemma delete_then_fetch_sample :
  let deleted := delete_user (u "2") sample_db world0 in
  status_code deleted.1 = 200%Z
  ∧ get_user (u "2") deleted.2 world1
    = create_error_response (u "User not found") 404.
Proof.
  intros deleted.
  destruct (delete_then_fetch (P := platform) (u "2") 2 sample_db world0 world1)
    as (Hfirst & _ & Hget & _); [done | done | done | done |].
  fold deleted in Hfirst, Hget. split; [by rewrite Hfirst | done].
Defined.

(** X8 on the sample users: Ann gets id 4. *)
Lemma create_user_stores_and_echoes_sample :
  let req := json_request (create_body "Ann Lee" "Ann@Example.com" "password1") in
  status_code (create_user req sample_db world0).1 = 201%Z
  ∧ row_id <$> users (create_user req sample_db world0).2 = [1; 2; 3; 4]%Z.
Proof.
  intros req.
  destruct (create_user_stores_and_echoes (P := platform) req _
              (u "Ann Lee") (u "ann@example.com") (u "password1")
              (digest (u "password1") (u "salt")) sample_db world0
              eq_refl eq_refl eq_refl eq_refl eq_refl) as (Hcreate & _).
  { intros r Hr He. vm_compute in Hr.
    repeat (apply elem_of_cons in Hr as [-> | Hr]; [by vm_compute in He |]).
    by apply elem_of_nil in Hr. }
  by rewrite Hcreate.
Defined.

(** X9 on the sample users: Ann can log in after she was created. *)
Lemma create_then_login_sample :
  let db' := (DatabaseManager.create_user sample_db world0 (Some (u "Ann Lee"))
                (Some (u "ann@example.com")) (u "password1")).2 in
  status_code (login (json_request (login_body "ann@example.com" "password1"))
                 db' world1) = 200%Z.
Proof.
  intros db'.
  destruct (create_then_login (P := platform) sample_db world0 world1
              (u "Ann Lee") (u "ann@example.com") (u "password1")
              (digest (u "password1") (u "salt")) eq_refl eq_refl)
    as (_ & Hlogin & _); [| done | done |].
  { intros r Hr He. vm_compute in Hr.
    repeat (apply elem_of_cons in Hr as [-> | Hr]; [by vm_compute in He |]).
    by apply elem_of_nil in Hr. }
  fold db' in Hlogin.
  by rewrite (Hlogin (json_request (login_body "ann@example.com" "password1"))
                _ eq_refl eq_refl eq_refl).
Defined.

Lemma sample_db_ids (n : Z) :
  (n ≠ 1 → n ≠ 2 → n ≠ 3 → ∀ r, r ∈ users sample_db → row_id r ≠ n)%Z.
Proof.
  intros H1 H2 H3 r Hr. vm_compute in Hr.
  repeat (apply elem_of_cons in Hr as [-> | Hr]; [done |]).
  by apply elem_of_nil in Hr.
Qed.

(** X10 on the sample users: id 999. *)
Lemma unknown_id_is_not_found_sample :
  get_user (u "999") sample_db world0
  = create_error_response (u "User not found") 404
  ∧ delete_user (u "999") sample_db world0
    = (create_error_response (u "User not found") 404, sample_db).
Proof.
  destruct (unknown_id_is_not_found (P := platform) (u "999") 999 sample_db world0)
    as (Hget & Hdel & _); [done | done | done | by apply sample_db_ids | done].
Defined.

(** X11 on an example: the id 2^63. *)
Lemma oversized_id_is_server_error_sample :
  get_user (u "9223372036854775808") sample_db world0
  = create_error_response (u "Failed to retrieve user") 500.
Proof.
  destruct (oversized_id_is_server_error (P := platform)
              (u "9223372036854775808") (2 ^ 63) sample_db world0)
    as (Hget & _); [by vm_compute | done | done].
Defined.

(** X12 on an example: the id "abc" with no store. *)
Lemma invalid_input_never_reaches_store_sample :
  get_user (u "abc") sample_db world_down
  = create_error_response (u "User ID must be a valid integer") 400.
Proof.
  destruct (invalid_input_never_reaches_store (P := platform) (u "abc")
              sample_db world_down) as (Hid & _).
  by destruct (Hid (MkExn ValidationError (u "User ID must be a valid integer"))
                 eq_refl) as (Hget & _).
Defined.

Lemma sample_update_no_clash :
  ∀ (e : str) (r' : user_row),
    (<[u "email" := u "johnny@example.com"]> {[u "name" := u "Johnny Doe"]}
       : gmap str str) !! u "email" = Some e →
    r' ∈ users sample_db → row_id r' ≠ 1%Z → row_email r' ≠ e.
Proof.
  intros e r' [= <-] Hr' Hid He. vm_compute in Hr'.
  repeat (apply elem_of_cons in Hr' as [-> | Hr']; [done |]).
  by apply elem_of_nil in Hr'.
Qed.

(** X13 on the sample users: John is renamed. *)
Lemma update_user_returns_updated_row_sample :
  let req := json_request (update_body "Johnny Doe" "Johnny@Example.com") in
  status_code (update_user (u "1") req sample_db world1).1 = 200%Z
  ∧ row_name <$> users (update_user (u "1") req sample_db world1).2
    = [u "Johnny Doe"; u "Jane Smith"; u "Bob Johnson"].
Proof.
  intros req.
  destruct (update_user_returns_updated_row (P := platform) (u "1") 1 req
              (update_body "Johnny Doe" "Johnny@Example.com")
              (<[u "email" := u "johnny@example.com"]> {[u "name" := u "Johnny Doe"]})
              sample_db world1 (row 1 "John Doe" "john@example.com" "password123"))
    as (Hresp & _); [done | done | done | done | done | done | done | done | |].
  { apply sample_update_no_clash. }
  split; [by rewrite Hresp | by vm_compute].
Defined.

(** X14 on the sample users: the second connection fails. *)
Lemma update_commits_before_reading_back_sample :
  let req := json_request (update_body "Johnny Doe" "Johnny@Example.com") in
  let updated := update_user (u "1") req sample_db world_second_connection_fails in
  updated.1 = create_error_response (u "Failed to update user") 500
  ∧ row_name <$> users updated.2
    = [u "Johnny Doe"; u "Jane Smith"; u "Bob Johnson"].
Proof.
  intros req updated.
  destruct (update_commits_before_reading_back (P := platform) (u "1") 1 req
              (update_body "Johnny Doe" "Johnny@Example.com")
              (<[u "email" := u "johnny@example.com"]> {[u "name" := u "Johnny Doe"]})
              sample_db world_second_connection_fails
              (row 1 "John Doe" "john@example.com" "password123")
              (u "database is locked"))
    as (Hresp & Husers & _);
    [done | done | done | done | done | done | done | | done | |].
  { apply list_elem_of_here. }
  { apply sample_update_no_clash. }
  fold updated in Hresp, Husers. split; [done |]. by rewrite Husers.
Defined.

(** X15 on the sample users: a delete of an unknown id is not a 200 and
    changes nothing. *)
Lemma failed_requests_change_nothing_sample :
  (delete_user (u "999") sample_db world0).2 = sample_db.
Proof.
  destruct (failed_requests_change_nothing (P := platform) (json_request VNone)
              sample_db world0) as (_ & Hdel & _).
  apply Hdel. by vm_compute.
Defined.

(** X16 on the sample users: after John is renamed the ids, hashes and
    creation times are those of before. *)
Lemma update_keeps_identity_and_hash_sample :
  let req := json_request (update_body "Johnny Doe" "Johnny@Example.com") in
  Invariant.fixed_columns <$> users (update_user (u "1") req sample_db world1).2
  = Invariant.fixed_columns <$> users sample_db.
Proof.
  intros req.
  by destruct (update_keeps_identity_and_hash (P := platform) (u "1") req
                 sample_db world1) as (Hfixed & _).
Defined.

Lemma sample_db_consistent : Invariant.consistent sample_db.
Proof.
  unfold Invariant.consistent. split; [| split].
  - vm_compute. repeat (apply NoDup_cons; split; [by rewrite ?elem_of_cons, ?elem_of_nil; intuition |]).
    apply NoDup_nil_2.
  - vm_compute. repeat (apply NoDup_cons; split; [by rewrite ?elem_of_cons, ?elem_of_nil; intuition |]).
    apply NoDup_nil_2.
  - repeat constructor; by vm_compute.
Qed.

(** X17 on the sample users: a create, a delete and an update. *)
Lemma requests_keep_table_consistent_sample :
  Invariant.consistent
    (Invariant.serve
       [(CreateUser,
         json_request (create_body "Ann Lee" "Ann@Example.com" "password1"), world0);
        (DeleteUser (u "2"), json_request VNone, world1);
        (UpdateUser (u "1"),
         json_request (update_body "Johnny Doe" "Johnny@Example.com"), world1)]
       sample_db).
Proof.
  by destruct (requests_keep_table_consistent (P := platform)
                 [(CreateUser,
                   json_request (create_body "Ann Lee" "Ann@Example.com" "password1"),
                   world0);
                  (DeleteUser (u "2"), json_request VNone, world1);
                  (UpdateUser (u "1"),
                   json_request (update_body "Johnny Doe" "Johnny@Example.com"),
                   world1)]
                 sample_db sample_db_consistent) as [? _].
Defined.

(** X18 on the sample users: after Bob, who has id 3, is deleted, Ann
    gets an id above 3. *)
Lemma ids_are_never_reused_sample :
  match DatabaseManager.create_user
          (Invariant.serve [(DeleteUser (u "3"), json_request VNone, world0)]
             sample_db)
          world1 (Some (u "Ann Lee")) (Some (u "ann@example.com")) (u "password1")
  with
  | (Ok user, _) => ∃ rowid, user !! u "id" = Some (VInt rowid) ∧ (3 < rowid)%Z
  | (Raise _, _) => False
  end.
Proof.
  destruct (DatabaseManager.create_user _ _ _ _ _) as [[user | ex] db'] eqn:Hc.
  - apply (ids_are_never_reused (P := platform) _ _ _ _ _ _ _ _
             (row 3 "Bob Johnson" "bob@example.com" "qwerty789")
             sample_db_consistent) in Hc; [done |].
    cbn. rewrite !elem_of_cons. tauto.
  - by vm_compute in Hc.
Defined.

(** X19 on the sample users: a numeric password for John and for nobody. *)
Lemma login_with_non_string_password_sample :
  login (json_request (VDict (<[u "email" := VStr (u "john@example.com")]>
                              (<[u "password" := VInt 5]> ∅))))
        sample_db world0
  = create_error_response (u "Failed to authenticate user") 500.
Proof.
  exact (login_with_non_string_password (P := platform)
           (json_request (VDict (<[u "email" := VStr (u "john@example.com")]>
                                 (<[u "password" := VInt 5]> ∅))))
           _ (LoginData (u "john@example.com") (VInt 5)) sample_db world0
           eq_refl eq_refl eq_refl eq_refl eq_refl).
Defined.

(** X20 on an example: a password that ends in a lone surrogate. *)
Lemma unencodable_password_is_conflict_sample :
  ∃ m,
    create_user
      (json_request
         (VDict (<[u "name" := VStr (u "Ann Lee")]>
                 (<[u "email" := VStr (u "ann@example.com")]>
                  (<[u "password" := VStr (u "password1" ++ [55296])]> ∅)))))
      sample_db world0
    = (create_error_response m 409, sample_db).
Proof.
  destruct (unencodable_password_is_conflict (P := platform)
              (json_request
                 (VDict (<[u "name" := VStr (u "Ann Lee")]>
                         (<[u "email" := VStr (u "ann@example.com")]>
                          (<[u "password" := VStr (u "password1" ++ [55296])]> ∅)))))
              (VDict (<[u "name" := VStr (u "Ann Lee")]>
                      (<[u "email" := VStr (u "ann@example.com")]>
                       (<[u "password" := VStr (u "password1" ++ [55296])]> ∅))))
              (u "Ann Lee") (u "ann@example.com") (u "password1" ++ [55296])
              sample_db world0)
    as [_ ?]; [reflexivity | reflexivity | reflexivity | reflexivity | reflexivity | done].
Defined.

(** X21 on the sample users. *)
Lemma search_ignores_case_of_term_sample :
  DatabaseManager.search_users_by_name sample_db world0 (u "JOHN")
  = DatabaseManager.search_users_by_name sample_db world0 (u "john").
Proof. by apply search_ignores_case_of_term. Defined.

(** X23 on an empty table. *)
Lemma init_database_idempotent_sample :
  ∃ db',
    InitDb.init_database (Database [] 0) (λ _, world0) = (Ok (), db')
    ∧ InitDb.init_database db' (λ _, world1) = (Ok (), db').
Proof.
  destruct (init_database_idempotent (P := platform) (Database [] 0)
              (λ _, world0) (λ _, world1))
    as (db' & Hrun & _ & _ & Hagain); [done | done | |].
  - intros j n e p Hin. unfold InitDb.sample_users in Hin.
    repeat (apply elem_of_cons in Hin as [[= -> -> ->] | Hin];
            [split; by eexists |]).
    by apply elem_of_nil in Hin.
  - exists db'. split; [exact Hrun | exact Hagain].
Defined.

(** X24 on the sample users. *)
Lemma search_finds_user_by_own_name_sample :
  validate_search_name (VStr (u "John Doe")) = Ok (u "John Doe")
  ∧ ∃ l, DatabaseManager.search_users_by_name sample_db world0 (u "John Doe") = Ok l
         ∧ dict_public (row 1 "John Doe" "john@example.com" "password123") ∈ l.
Proof.
  apply (search_finds_user_by_own_name (VStr (u " John Doe ")) (u "John Doe")
           sample_db world0 (row 1 "John Doe" "john@example.com" "password123"));
    [done | vm_compute; lia | done | apply list_elem_of_here | done].
Defined.

(** X25 on the sample users. *)
Lemma reads_return_public_columns_sample :
  get_user (u "1") sample_db world0
  = ok_200 (create_success_response
              (Some (VDict (dict_public
                              (row 1 "John Doe" "john@example.com" "password123"))))
              (u "User retrieved successfully")).
Proof.
  destruct (reads_return_public_columns (P := platform) sample_db world0)
    as (Hget & _).
  by apply (Hget (u "1") 1%Z).
Defined.

(** X26 on the sample users: a search for " jo " finds John Doe and
    Bob Johnson. *)
Lemma search_view_cases_sample :
  search_users (Request false (Ok VNone) {[u "name" := u " jo "]}) sample_db world0
  = ok_200 (create_success_response
              (Some (VList (VDict <$>
                 (dict_public <$>
                    [row 1 "John Doe" "john@example.com" "password123";
                     row 3 "Bob Johnson" "bob@example.com" "qwerty789"]))))
              (u "Search completed successfully")).
Proof.
  destruct (search_view_cases (Request false (Ok VNone) {[u "name" := u " jo "]})
              sample_db world0) as (_ & _ & Hfound).
  rewrite (Hfound (u " jo ")); [done | done | vm_compute; lia | done].
Defined.

(** X27 on the sample users: a create sent as a form. *)
Lemma content_type_is_checked_before_body_sample :
  create_user
    (Request false (Ok (create_body "Ann Lee" "ann@example.com" "password1")) ∅)
    sample_db world0
  = (create_error_response (u "Content-Type must be application/json") 400,
     sample_db).
Proof.
  by destruct (content_type_is_checked_before_body (P := platform)
                 (Request false
                    (Ok (create_body "Ann Lee" "ann@example.com" "password1")) ∅)
                 sample_db world0 eq_refl) as [? _].
Defined.

(** X28 on the sample users: a login whose body is not JSON text. *)
Lemma malformed_body_is_server_error_sample :
  login (Request true (Raise (MkExn BadRequest (u "400 Bad Request"))) ∅)
        sample_db world0
  = create_error_response (u "Failed to authenticate user") 500.
Proof.
  by destruct (malformed_body_is_server_error (P := platform)
                 (Request true (Raise (MkExn BadRequest (u "400 Bad Request"))) ∅)
                 (MkExn BadRequest (u "400 Bad Request"))
                 sample_db world0 eq_refl eq_refl eq_refl) as (_ & ? & _).
Defined.
